(** * Extractor registry and per-ecosystem parsers of build-metadata-action

    A shallow embedding of the Go sources
      - internal/extractor/cpp/cpp.go        (C/C++ extractor)
      - the Scala extractor  (package scala: Extract, extractFromBuildSbt, ...)
      - the Elixir extractor (package elixir: Extract, extractFromMixExs, ...)
    together with the parts of the Go standard library they call
    (strings, bufio.Scanner with ScanLines, regexp).

    Go strings are byte sequences; they are modelled as [string], one
    [ascii] per byte.  Go ints are modelled as [Z]. *)

From Stdlib Require Import ZArith Ascii String List Bool Lia.
From stdpp Require Import base option list gmap strings sorting.

Open Scope string_scope.
Open Scope list_scope.
Open Scope Z_scope.

(** ** Bytes and character classes *)

Module Chars.

Definition code (c : ascii) : N := N_of_ascii c.

Definition between (lo hi : N) (c : ascii) : bool :=
  ((lo <=? code c) && (code c <=? hi))%N.

Definition chr (a c : ascii) : bool := Ascii.eqb a c.

Definition dquote : ascii := "034"%char.
Definition squote : ascii := "'"%char.
Definition newline : ascii := "010"%char.
Definition cr : ascii := "013"%char.
Definition backslash : ascii := "\"%char.

(** [\d], [\w] and [\s] of Go's regexp syntax (ASCII only, as in RE2). *)
Definition digit (c : ascii) : bool := between 48 57 c.
Definition upper (c : ascii) : bool := between 65 90 c.
Definition lower (c : ascii) : bool := between 97 122 c.
Definition word (c : ascii) : bool :=
  digit c || upper c || lower c || chr "_" c.
Definition space (c : ascii) : bool :=
  chr "009" c || chr "010" c || chr "012" c || chr "013" c || chr " " c.

Definition to_lower (c : ascii) : ascii :=
  if upper c then ascii_of_N (code c + 32) else c.

Definition none_of (l : list ascii) (c : ascii) : bool :=
  negb (existsb (fun a => chr a c) l).

End Chars.

(** ** The functions of Go's [strings] package used by the extractors *)

Module GoStrings.

Fixpoint len (s : string) : Z :=
  match s with
  | EmptyString => 0
  | String _ s' => 1 + len s'
  end.

Fixpoint HasPrefix (s prefix : string) : bool :=
  match prefix, s with
  | EmptyString, _ => true
  | String a p', String b s' => Ascii.eqb a b && HasPrefix s' p'
  | String _ _, EmptyString => false
  end.

Fixpoint drop (n : nat) (s : string) : string :=
  match n, s with
  | S n', String _ s' => drop n' s'
  | _, _ => s
  end.

Fixpoint take (n : nat) (s : string) : string :=
  match n, s with
  | S n', String c s' => String c (take n' s')
  | _, _ => EmptyString
  end.

Definition TrimPrefix (s prefix : string) : string :=
  if HasPrefix s prefix then drop (String.length prefix) s else s.

Fixpoint Contains (s substr : string) : bool :=
  HasPrefix s substr ||
  match s with
  | EmptyString => false
  | String _ s' => Contains s' substr
  end.

(** [strings.Count(s, sep)] for a one-byte [sep], the only use in the
    sources ([Count(line, "(")] and [Count(line, ")")]). *)
Fixpoint Count (s : string) (sep : ascii) : Z :=
  match s with
  | EmptyString => 0
  | String c s' => (if Ascii.eqb c sep then 1 else 0) + Count s' sep
  end.

(** [strings.Split(s, sep)] for a one-byte [sep] (the sources split on
    newline, dot and space): always at least one piece. *)
Fixpoint Split (s : string) (sep : ascii) : list string :=
  match s with
  | EmptyString => [EmptyString]
  | String c s' =>
      if Ascii.eqb c sep then EmptyString :: Split s' sep
      else match Split s' sep with
           | p :: ps => String c p :: ps
           | [] => [String c EmptyString]
           end
  end.

Fixpoint rev_onto (s acc : string) : string :=
  match s with
  | EmptyString => acc
  | String c s' => rev_onto s' (String c acc)
  end.
Definition rev (s : string) : string := rev_onto s EmptyString.

Definition bytes (l : list N) : string :=
  fold_right (fun n s => String (ascii_of_N n) s) EmptyString l.

(** The UTF-8 encodings of the code points for which [unicode.IsSpace]
    holds: the ASCII ones, U+0085, U+00A0, U+1680, U+2000..U+200A,
    U+2028, U+2029, U+202F, U+205F and U+3000. *)
Definition space_encodings : list string :=
  map bytes
    ([[9]; [10]; [11]; [12]; [13]; [32]; [194; 133]; [194; 160];
      [225; 154; 128]]
     ++ map (fun b => [226; 128; b])
            [128; 129; 130; 131; 132; 133; 134; 135; 136; 137; 138]
     ++ [[226; 128; 168]; [226; 128; 169]; [226; 128; 175];
         [226; 129; 159]; [227; 128; 128]])%N.

Definition strip_one (encs : list string) (s : string) : option string :=
  match List.find (fun e => HasPrefix s e) encs with
  | Some e => Some (drop (String.length e) s)
  | None => None
  end.

Fixpoint trim_left (fuel : nat) (encs : list string) (s : string) : string :=
  match fuel with
  | O => s
  | S fuel' =>
      match strip_one encs s with
      | Some s' => trim_left fuel' encs s'
      | None => s
      end
  end.

(** [strings.TrimSpace]: leading and trailing white space removed.  One
    unit of fuel per byte is enough, every stripped encoding being at
    least one byte long. *)
Definition TrimSpace (s : string) : string :=
  let s1 := trim_left (String.length s) space_encodings s in
  rev (trim_left (String.length s1) (map rev space_encodings) (rev s1)).

Definition eqb (a b : string) : bool := String.eqb a b.

End GoStrings.

(** ** Go's [regexp] package

    The patterns of the sources are written as abstract syntax and run by a
    backtracking matcher that explores alternatives in priority order
    (left alternative first, greedy repetition), which is the match that
    Go's leftmost-first semantics selects.  Every repetition in the
    sources' patterns ranges over a one-byte class, hence [Star] takes a
    class; [x+] is [x x*] and [r?] is [r|empty].

    In the patterns quoted in the comments below, [\x22] stands for the
    double quote character.

    Matching is on bytes.  The classes of the patterns are ASCII classes or
    their complements and no two complemented classes are adjacent, so the
    byte-level match and Go's rune-level match select the same substrings. *)

Module Regexp.

Inductive regex : Type :=
| Eps
| Bol
| Class (p : ascii -> bool)
| Cat (r1 r2 : regex)
| Alt (r1 r2 : regex)
| Star (p : ascii -> bool)
| Group (i : nat) (r : regex).

(** Captures recorded so far: the latest binding of a group comes first. *)
Definition caps : Type := list (nat * string).

(** A continuation receives: whether the position is still the start of
    the text, the rest of the text, and the captures. *)
Definition cont : Type := bool -> string -> caps -> option (string * caps).

Fixpoint star (p : ascii -> bool) (at0 : bool) (s : string) (cs : caps)
    (k : cont) : option (string * caps) :=
  match s with
  | String c s' =>
      if p c then
        match star p false s' cs k with
        | Some res => Some res
        | None => k at0 s cs
        end
      else k at0 s cs
  | EmptyString => k at0 s cs
  end.

Fixpoint run (r : regex) (at0 : bool) (s : string) (cs : caps) (k : cont)
    : option (string * caps) :=
  match r with
  | Eps => k at0 s cs
  | Bol => if at0 then k at0 s cs else None
  | Class p =>
      match s with
      | String c s' => if p c then k false s' cs else None
      | EmptyString => None
      end
  | Cat r1 r2 => run r1 at0 s cs (fun b s' cs' => run r2 b s' cs' k)
  | Alt r1 r2 =>
      match run r1 at0 s cs k with
      | Some res => Some res
      | None => run r2 at0 s cs k
      end
  | Star p => star p at0 s cs k
  | Group i r' =>
      run r' at0 s cs
        (fun b s' cs' =>
           k b s' ((i, GoStrings.take (String.length s - String.length s') s)
                     :: cs'))
  end.

Definition accept : cont := fun _ s cs => Some (s, cs).

(** Leftmost match: the first start position at which [run] succeeds.
    The result is the text after the match and the captures. *)
Fixpoint search (r : regex) (at0 : bool) (s : string)
    : option (string * caps) :=
  match run r at0 s [] accept with
  | Some res => Some res
  | None =>
      match s with
      | String _ s' => search r false s'
      | EmptyString => None
      end
  end.

Fixpoint groups (r : regex) : nat :=
  match r with
  | Eps | Bol | Class _ | Star _ => O
  | Cat r1 r2 | Alt r1 r2 => Nat.max (groups r1) (groups r2)
  | Group i r' => Nat.max i (groups r')
  end.

Fixpoint capture (i : nat) (cs : caps) : string :=
  match cs with
  | [] => EmptyString
  | (j, v) :: cs' => if Nat.eqb i j then v else capture i cs'
  end.

(** The slice Go returns: the whole match at index 0, then one string per
    group, empty for a group that took no part in the match. *)
Definition submatches (r : regex) (cs : caps) : list string :=
  map (fun i => capture i cs) (seq 0 (S (groups r))).

Definition FindStringSubmatch (r : regex) (s : string)
    : option (list string) :=
  match search (Group 0 r) true s with
  | Some (_, cs) => Some (submatches r cs)
  | None => None
  end.

Definition MatchString (r : regex) (s : string) : bool :=
  match search r true s with Some _ => true | None => false end.

(** [FindAllStringSubmatch(s, -1)]: successive non-overlapping matches.
    An empty match directly after a match is dropped and the search
    moves on by one position, as in Go's [allMatches] (the patterns used
    with it in the sources never match the empty string).  Each round
    consumes at least one byte, so [S (length s)] rounds suffice. *)
Fixpoint find_all (fuel : nat) (r : regex) (at0 after : bool) (s : string)
    : list caps :=
  match fuel with
  | O => []
  | S fuel' =>
      match search r at0 s with
      | None => []
      | Some (rest, cs) =>
          if Nat.eqb (String.length rest) (String.length s) then
            (if after then [] else [cs])
            ++ match s with
               | String _ s' => find_all fuel' r false false s'
               | EmptyString => []
               end
          else cs :: find_all fuel' r false true rest
      end
  end.

Definition FindAllStringSubmatch (r : regex) (s : string)
    : list (list string) :=
  map (submatches r)
      (find_all (S (String.length s)) (Group 0 r) true false s).

(** *** Static properties of a pattern, used to reason about captures *)

(** Every match of the pattern takes at least one byte. *)
Fixpoint consumes (r : regex) : bool :=
  match r with
  | Eps | Bol | Star _ => false
  | Class _ => true
  | Cat r1 r2 => consumes r1 || consumes r2
  | Alt r1 r2 => consumes r1 && consumes r2
  | Group _ r' => consumes r'
  end.

(** Group [i] occurs in the pattern. *)
Fixpoint mentions (i : nat) (r : regex) : bool :=
  match r with
  | Eps | Bol | Class _ | Star _ => false
  | Cat r1 r2 | Alt r1 r2 => mentions i r1 || mentions i r2
  | Group j r' => Nat.eqb i j || mentions i r'
  end.

(** Every match of the pattern leaves group [i] bound to a non-empty
    string. *)
Fixpoint binds (i : nat) (r : regex) : bool :=
  match r with
  | Eps | Bol | Class _ | Star _ => false
  | Cat r1 r2 => (binds i r1 && negb (mentions i r2)) || binds i r2
  | Alt r1 r2 => binds i r1 && binds i r2
  | Group j r' => if Nat.eqb i j then consumes r' else binds i r'
  end.

(** *** Pattern combinators *)

Definition cat (l : list regex) : regex := fold_right Cat Eps l.
Definition plus (p : ascii -> bool) : regex := Cat (Class p) (Star p).
Definition opt (r : regex) : regex := Alt r Eps.
Definition ch (c : ascii) : regex := Class (Chars.chr c).

Fixpoint lit (s : string) : regex :=
  match s with
  | EmptyString => Eps
  | String c s' => Cat (ch c) (lit s')
  end.

(** A literal under the [(?i)] flag.  Go folds case with Unicode simple
    folding: besides the two ASCII cases, [k] also matches U+212A (KELVIN
    SIGN, bytes E2 84 AA) and [s] matches U+017F (LATIN SMALL LETTER LONG
    S, bytes C5 BF). *)
Definition fold_ch (c : ascii) : regex :=
  let l := Chars.to_lower c in
  let ascii_cases := Class (fun x => Ascii.eqb (Chars.to_lower x) l) in
  if Ascii.eqb l "k" then
    Alt ascii_cases (lit (GoStrings.bytes [226; 132; 170]%N))
  else if Ascii.eqb l "s" then
    Alt ascii_cases (lit (GoStrings.bytes [197; 191]%N))
  else ascii_cases.

Fixpoint lit_i (s : string) : regex :=
  match s with
  | EmptyString => Eps
  | String c s' => Cat (fold_ch c) (lit_i s')
  end.

(** [\s*], [\s+] *)
Definition ws : regex := Star Chars.space.
Definition ws1 : regex := plus Chars.space.

End Regexp.

(** ** The metadata record, errors, files *)

(** The values stored in [LanguageSpecific] by the extractors modelled
    here: strings, ints ([len(...)]) and string slices. *)
Inductive value : Type :=
  | VString (s : string)
  | VInt (n : Z)
  | VStrings (l : list string).

(** Modelled from the spec: the struct [extractor.ProjectMetadata] is
    declared in package [extractor], which is not among the sources; its
    fields are those of the spec's data model.  [LanguageSpecific] is a Go
    map, which may be nil: [None] is the nil map. *)
Record ProjectMetadata : Type := {
  Name : string;
  Version : string;
  VersionSource : string;
  Description : string;
  Homepage : string;
  License : string;
  Repository : string;
  Authors : list string;
  LanguageSpecific : option (gmap string value)
}.

Inductive error : Type :=
  | ErrOpen (name : string)      (* os.Open / os.ReadFile failed *)
  | ErrTooLong                   (* bufio.ErrTooLong *)
  | NoExtractorFound.

Inductive result (A : Type) : Type :=
  | Ok (a : A)
  | Err (e : error).
Arguments Ok {A} a.
Arguments Err {A} e.

Section MetadataUpdates.

Implicit Type m : ProjectMetadata.

(** [&extractor.ProjectMetadata{LanguageSpecific: make(map[string]interface{})}] *)
Definition new_metadata : ProjectMetadata :=
  {| Name := ""; Version := ""; VersionSource := ""; Description := "";
     Homepage := ""; License := ""; Repository := ""; Authors := [];
     LanguageSpecific := Some ∅ |}.

Definition set_Name (v : string) m : ProjectMetadata :=
  {| Name := v; Version := Version m; VersionSource := VersionSource m;
     Description := Description m; Homepage := Homepage m;
     License := License m; Repository := Repository m;
     Authors := Authors m; LanguageSpecific := LanguageSpecific m |}.

(** The two assignments [metadata.Version = v; metadata.VersionSource = src],
    which the sources always perform together. *)
Definition set_Version (v src : string) m : ProjectMetadata :=
  {| Name := Name m; Version := v; VersionSource := src;
     Description := Description m; Homepage := Homepage m;
     License := License m; Repository := Repository m;
     Authors := Authors m; LanguageSpecific := LanguageSpecific m |}.

Definition set_Description (v : string) m : ProjectMetadata :=
  {| Name := Name m; Version := Version m; VersionSource := VersionSource m;
     Description := v; Homepage := Homepage m;
     License := License m; Repository := Repository m;
     Authors := Authors m; LanguageSpecific := LanguageSpecific m |}.

Definition set_Homepage (v : string) m : ProjectMetadata :=
  {| Name := Name m; Version := Version m; VersionSource := VersionSource m;
     Description := Description m; Homepage := v;
     License := License m; Repository := Repository m;
     Authors := Authors m; LanguageSpecific := LanguageSpecific m |}.

Definition set_License (v : string) m : ProjectMetadata :=
  {| Name := Name m; Version := Version m; VersionSource := VersionSource m;
     Description := Description m; Homepage := Homepage m;
     License := v; Repository := Repository m;
     Authors := Authors m; LanguageSpecific := LanguageSpecific m |}.

(** [metadata.LanguageSpecific[k] = v].  On a nil map Go panics; every
    [Extract] below allocates the map first, so that branch is dead (see
    the lemmas on [LanguageSpecific] further down) and is modelled as
    leaving the record unchanged. *)
Definition set_ls (k : string) (v : value) m : ProjectMetadata :=
  match LanguageSpecific m with
  | Some ls =>
      {| Name := Name m; Version := Version m;
         VersionSource := VersionSource m;
         Description := Description m; Homepage := Homepage m;
         License := License m; Repository := Repository m;
         Authors := Authors m; LanguageSpecific := Some (<[k:=v]> ls) |}
  | None => m
  end.

Definition get_ls (k : string) m : option value :=
  match LanguageSpecific m with
  | Some ls => ls !! k
  | None => None
  end.

End MetadataUpdates.

(** A project directory: the state of each file name below the project
    path ([filepath.Join(projectPath, name)]).  A path that does not exist
    has every name [Absent]. *)
Inductive file : Type :=
  | Absent                       (* os.Stat fails *)
  | Unreadable                   (* os.Stat succeeds, opening or reading fails *)
  | Contents (data : string).

Definition dir : Type := string -> file.

Definition Stat (f : file) : bool :=
  match f with Absent => false | _ => true end.

(** ** [bufio.Scanner] with the default [ScanLines] split function *)

Module Scanner.

(** [bufio.MaxScanTokenSize] *)
Definition MaxScanTokenSize : Z := 64 * 1024.

Definition dropCR (line : string) : string :=
  match GoStrings.rev line with
  | String c r => if Ascii.eqb c Chars.cr then GoStrings.rev r else line
  | EmptyString => line
  end.

(** The pieces between newlines; a final piece that is empty is no line. *)
Definition pieces (data : string) : list string :=
  let ps := GoStrings.Split data Chars.newline in
  match List.last ps "x" with
  | EmptyString => List.removelast ps
  | _ => ps
  end.

(** The lines handed out by successive [Scan()] calls and the value of
    [Err()] afterwards: a line that does not fit the buffer stops the
    scan with [ErrTooLong]. *)
Fixpoint tokens (ps : list string) : list string * option error :=
  match ps with
  | [] => ([], None)
  | p :: ps' =>
      if MaxScanTokenSize <=? GoStrings.len p then ([], Some ErrTooLong)
      else let '(ls, e) := tokens ps' in (dropCR p :: ls, e)
  end.

Definition scan (data : string) : list string * option error :=
  tokens (pieces data).

End Scanner.

(** Index into a submatch slice within its bounds. *)
Definition at_ (m : list string) (i : nat) : string := nth i m "".

Definition llen {A} (l : list A) : Z := Z.of_nat (length l).

Definition nonempty (s : string) : bool := negb (GoStrings.eqb s "").

(** ** Idioms shared by the extractors *)

(** [if matches := re.FindStringSubmatch(line); matches != nil { ... }] *)
Definition on_match {A} (r : Regexp.regex) (line : string)
    (f : list string -> A -> A) (a : A) : A :=
  match Regexp.FindStringSubmatch r line with
  | Some m => f m a
  | None => a
  end.

(** [if len(l) > 0 { metadata.LanguageSpecific[k] = l }] *)
Definition store_list (k : string) (l : list string) (md : ProjectMetadata)
    : ProjectMetadata :=
  if 0 <? llen l then set_ls k (VStrings l) md else md.

(** [if len(dependencies) > 0 { ...["dependencies"] = dependencies;
    ...["dependency_count"] = len(dependencies) }] *)
Definition store_dependencies (l : list string) (md : ProjectMetadata)
    : ProjectMetadata :=
  if 0 <? llen l
  then set_ls "dependency_count" (VInt (llen l))
         (set_ls "dependencies" (VStrings l) md)
  else md.

(** [fmt.Sprintf] with the format [%s:%s] and [%s:%s:%s]. *)
Definition colon2 (a b : string) : string := a +:+ ":" +:+ b.
Definition colon3 (a b c : string) : string := a +:+ ":" +:+ b +:+ ":" +:+ c.

(** ** The C/C++ extractor (internal/extractor/cpp/cpp.go) *)

Module Cpp.

Import Regexp.

Definition not_space_or_rparen (c : ascii) : bool :=
  negb (Chars.space c || Chars.chr ")" c).
Definition digit_or_dot (c : ascii) : bool :=
  Chars.digit c || Chars.chr "." c.
Definition not_dquote : ascii -> bool := Chars.none_of [Chars.dquote].
Definition not_squote : ascii -> bool := Chars.none_of [Chars.squote].
Definition not_rbracket_or_comma : ascii -> bool :=
  Chars.none_of ["]"; ","]%char.

(** *** extractFromCMake *)

(** [(?i)project\s*\(\s*([^\s)]+)(?:\s+VERSION\s+([0-9.]+))?(?:\s+DESCRIPTION\s+\x22([^\x22]+)\x22)?] *)
Definition projectRegex : regex :=
  cat [lit_i "project"; ws; ch "("; ws; Group 1 (plus not_space_or_rparen);
       opt (cat [ws1; lit_i "VERSION"; ws1; Group 2 (plus digit_or_dot)]);
       opt (cat [ws1; lit_i "DESCRIPTION"; ws1; ch Chars.dquote;
                 Group 3 (plus not_dquote); ch Chars.dquote])].

(** [(?i)set\s*\(\s*CMAKE_CXX_STANDARD\s+(\d+)\s*\)] *)
Definition cxxStandardRegex : regex :=
  cat [lit_i "set"; ws; ch "("; ws; lit_i "CMAKE_CXX_STANDARD"; ws1;
       Group 1 (plus Chars.digit); ws; ch ")"].

(** [(?i)set\s*\(\s*CMAKE_C_STANDARD\s+(\d+)\s*\)] *)
Definition cStandardRegex : regex :=
  cat [lit_i "set"; ws; ch "("; ws; lit_i "CMAKE_C_STANDARD"; ws1;
       Group 1 (plus Chars.digit); ws; ch ")"].

(** [(?i)add_executable\s*\(\s*([^\s)]+)] and its two siblings *)
Definition call_i (name : string) : regex :=
  cat [lit_i name; ws; ch "("; ws; Group 1 (plus not_space_or_rparen)].
Definition addExecutableRegex : regex := call_i "add_executable".
Definition addLibraryRegex : regex := call_i "add_library".
Definition findPackageRegex : regex := call_i "find_package".

(** The variables of the scanning loop. *)
Record cmake_state : Type := {
  cm_metadata : ProjectMetadata;
  cm_executables : list string;
  cm_libraries : list string;
  cm_dependencies : list string
}.

Definition cmake_project (m : list string) (md : ProjectMetadata)
    : ProjectMetadata :=
  let md := set_Name (at_ m 1) md in
  let md := if (2 <? llen m) && nonempty (at_ m 2)
            then set_Version (at_ m 2) "CMakeLists.txt" md else md in
  if (3 <? llen m) && nonempty (at_ m 3)
  then set_Description (at_ m 3) md else md.

(** One round of [for scanner.Scan() { ... }]. *)
Definition cmake_line (st : cmake_state) (text : string) : cmake_state :=
  let line := GoStrings.TrimSpace text in
  if GoStrings.HasPrefix line "#" then st
  else
    let md := on_match projectRegex line cmake_project (cm_metadata st) in
    let md := on_match cxxStandardRegex line
                (fun m => set_ls "cxx_standard" (VString (at_ m 1))) md in
    let md := on_match cStandardRegex line
                (fun m => set_ls "c_standard" (VString (at_ m 1))) md in
    {| cm_metadata := md;
       cm_executables :=
         on_match addExecutableRegex line (fun m l => l ++ [at_ m 1])
           (cm_executables st);
       cm_libraries :=
         on_match addLibraryRegex line (fun m l => l ++ [at_ m 1])
           (cm_libraries st);
       cm_dependencies :=
         on_match findPackageRegex line (fun m l => l ++ [at_ m 1])
           (cm_dependencies st) |}.

Definition extractFromCMake (fs : dir) (path : string)
    (metadata : ProjectMetadata) : ProjectMetadata * option error :=
  match fs path with
  | Contents data =>
      let '(lines, scan_err) := Scanner.scan data in
      let st := fold_left cmake_line lines
                  {| cm_metadata := metadata; cm_executables := [];
                     cm_libraries := []; cm_dependencies := [] |} in
      match scan_err with
      | Some e => (cm_metadata st, Some e)
      | None =>
          (store_dependencies (cm_dependencies st)
             (store_list "libraries" (cm_libraries st)
                (store_list "executables" (cm_executables st)
                   (cm_metadata st))),
           None)
      end
  | _ => (metadata, Some (ErrOpen path))
  end.

(** *** extractFromQmake *)

(** [([0-9]+\.[0-9]+(?:\.[0-9]+)?)] *)
Definition version_number : regex :=
  cat [plus Chars.digit; ch "."; plus Chars.digit;
       opt (cat [ch "."; plus Chars.digit])].

(** [MODULE_VERSION\s*=\s*([0-9]+\.[0-9]+(?:\.[0-9]+)?)] *)
Definition moduleVersionRegex : regex :=
  cat [lit "MODULE_VERSION"; ws; ch "="; ws; Group 1 version_number].

(** [VERSION\s*=\s*([0-9]+\.[0-9]+(?:\.[0-9]+)?)] *)
Definition versionRegex : regex :=
  cat [lit "VERSION"; ws; ch "="; ws; Group 1 version_number].

(** [len(matches) > 1] on the result of FindStringSubmatch, nil when
    there is no match. *)
Definition on_match_gt1 (r : regex) (line : string)
    (f : list string -> ProjectMetadata -> ProjectMetadata)
    (md : ProjectMetadata) : ProjectMetadata :=
  match FindStringSubmatch r line with
  | Some m => if 1 <? llen m then f m md else md
  | None => md
  end.

Definition qmake_line (md : ProjectMetadata) (line : string)
    : ProjectMetadata :=
  let md := on_match_gt1 moduleVersionRegex line
              (fun m => set_Version (at_ m 1) ".qmake.conf") md in
  if GoStrings.eqb (Version md) ""
  then on_match_gt1 versionRegex line
         (fun m => set_Version (at_ m 1) ".qmake.conf") md
  else md.

Definition extractFromQmake (fs : dir) (path : string)
    (metadata : ProjectMetadata) : ProjectMetadata * option error :=
  match fs path with
  | Contents data =>
      let '(lines, scan_err) := Scanner.scan data in
      (fold_left qmake_line lines metadata, scan_err)
  | _ => (metadata, Some (ErrOpen path))
  end.

(** *** stripMesonComments *)

(** The inner loop [for i, ch := range line]: the index of the first [#]
    outside a string, or [-1].  [prev] is [line[i-1]], read only when
    [i > 0]. *)
Fixpoint comment_scan (i : Z) (prev : ascii) (inString : bool)
    (stringChar : ascii) (rest : string) : Z :=
  match rest with
  | EmptyString => -1
  | String c rest' =>
      if negb inString && (Chars.chr Chars.squote c || Chars.chr Chars.dquote c)
      then comment_scan (i + 1) c true c rest'
      else if inString && Ascii.eqb c stringChar
      then comment_scan (i + 1) c
             (if (0 <? i) && negb (Ascii.eqb prev Chars.backslash)
              then false else inString)
             stringChar rest'
      else if negb inString && Chars.chr "#" c
      then i
      else comment_scan (i + 1) c inString stringChar rest'
  end.

Definition commentStart (line : string) : Z :=
  comment_scan 0 "000"%char false "000"%char line.

Definition strip_line (line : string) : string :=
  let start := commentStart line in
  if 0 <=? start then GoStrings.take (Z.to_nat start) line else line.

Fixpoint write_lines (lines : list string) : string :=
  match lines with
  | [] => ""
  | l :: ls => strip_line l +:+ String Chars.newline (write_lines ls)
  end.

Definition stripMesonComments (content : string) : string :=
  write_lines (GoStrings.Split content Chars.newline).

(** *** extractFromMeson *)

Definition call_quoted (name : regex) : regex :=
  cat [name; ws; ch "("; ws; ch Chars.squote; Group 1 (plus not_squote);
       ch Chars.squote].

(** [project\s*\(\s*'([^']+)'] *)
Definition projectNameRegex : regex := call_quoted (lit "project").

(** [(?s)project\s*\([^)]*version\s*:\s*'([^']+)'] *)
Definition projectVersionRegex : regex :=
  cat [lit "project"; ws; ch "("; Star (Chars.none_of [")"%char]);
       lit "version"; ws; ch ":"; ws; ch Chars.squote;
       Group 1 (plus not_squote); ch Chars.squote].

(** [executable\s*\(\s*'([^']+)'] *)
Definition executableRegex : regex := call_quoted (lit "executable").

(** [(?:shared_|static_)?library\s*\(\s*'([^']+)'] *)
Definition libraryRegex : regex :=
  call_quoted (Cat (opt (Alt (lit "shared_") (lit "static_")))
                   (lit "library")).

(** [dependency\s*\(\s*'([^']+)'] *)
Definition dependencyRegex : regex := call_quoted (lit "dependency").

(** [for _, match := range all { if len(match) > 1 { append match[1] } }] *)
Definition first_groups (all : list (list string)) : list string :=
  fold_left (fun acc m => if 1 <? llen m then acc ++ [at_ m 1] else acc)
            all [].

(** The body of extractFromMeson once the comments are stripped. *)
Definition meson_fields (fileContent : string) (metadata : ProjectMetadata)
    : ProjectMetadata :=
  let executables :=
    first_groups (FindAllStringSubmatch executableRegex fileContent) in
  let libraries :=
    first_groups (FindAllStringSubmatch libraryRegex fileContent) in
  let dependencies :=
    first_groups (FindAllStringSubmatch dependencyRegex fileContent) in
  let md := on_match projectNameRegex fileContent
              (fun m => set_Name (at_ m 1)) metadata in
  let md := on_match projectVersionRegex fileContent
              (fun m => set_Version (at_ m 1) "meson.build") md in
  store_dependencies dependencies
    (store_list "libraries" libraries
       (store_list "executables" executables md)).

Definition extractFromMeson (fs : dir) (path : string)
    (metadata : ProjectMetadata) : ProjectMetadata * option error :=
  match fs path with
  | Contents content =>
      (meson_fields (stripMesonComments content) metadata, None)
  | _ => (metadata, Some (ErrOpen path))
  end.

(** *** extractFromAutotools *)

(** [AC_INIT\s*\(\s*\[?([^\],]+)\]?\s*,\s*\[?([^\],]+)\]?] *)
Definition acInitRegex : regex :=
  cat [lit "AC_INIT"; ws; ch "("; ws; opt (ch "[");
       Group 1 (plus not_rbracket_or_comma); opt (ch "]"); ws; ch ",";
       ws; opt (ch "["); Group 2 (plus not_rbracket_or_comma);
       opt (ch "]")].

(** [PKG_CHECK_MODULES\s*\(\s*\[?[^\],]+\]?\s*,\s*\[?([^\],]+)\]?] *)
Definition pkgCheckRegex : regex :=
  cat [lit "PKG_CHECK_MODULES"; ws; ch "("; ws; opt (ch "[");
       plus not_rbracket_or_comma; opt (ch "]"); ws; ch ",";
       ws; opt (ch "["); Group 1 (plus not_rbracket_or_comma);
       opt (ch "]")].

Definition ac_init (m : list string) (md : ProjectMetadata)
    : ProjectMetadata :=
  let md := set_Name (GoStrings.TrimSpace (at_ m 1)) md in
  if 2 <? llen m
  then set_Version (GoStrings.TrimSpace (at_ m 2)) "configure.ac" md
  else md.

(** [dep := strings.TrimSpace(matches[1]); dep = strings.Split(dep, " ")[0]] *)
Definition pkg_name (m : list string) : string :=
  hd "" (GoStrings.Split (GoStrings.TrimSpace (at_ m 1)) " ").

Definition autotools_line (st : ProjectMetadata * list string)
    (text : string) : ProjectMetadata * list string :=
  let line := GoStrings.TrimSpace text in
  if GoStrings.HasPrefix line "#" || GoStrings.HasPrefix line "dnl" then st
  else
    (on_match acInitRegex line ac_init (fst st),
     on_match pkgCheckRegex line (fun m l => l ++ [pkg_name m]) (snd st)).

Definition extractFromAutotools (fs : dir) (path : string)
    (metadata : ProjectMetadata) : ProjectMetadata * option error :=
  match fs path with
  | Contents data =>
      let '(lines, scan_err) := Scanner.scan data in
      let st := fold_left autotools_line lines (metadata, []) in
      (store_dependencies (snd st) (fst st), scan_err)
  | _ => (metadata, Some (ErrOpen path))
  end.

(** *** Extract *)

(** [if _, err := os.Stat(p); err == nil { if err := f(p, metadata);
    err == nil { metadata.LanguageSpecific["build_system"] = label;
    return metadata, nil } }]: the metadata is a pointer, so what a
    failed parser wrote before failing stays in the record. *)
Definition try_build_file (fs : dir) (path label : string)
    (parse : dir -> string -> ProjectMetadata -> ProjectMetadata * option error)
    (metadata : ProjectMetadata)
    : ProjectMetadata + ProjectMetadata :=
  if Stat (fs path) then
    match parse fs path metadata with
    | (md, None) => inl (set_ls "build_system" (VString label) md)
    | (md, Some _) => inr md
    end
  else inr metadata.

Definition Extract (fs : dir) : result ProjectMetadata :=
  match try_build_file fs "CMakeLists.txt" "CMake" extractFromCMake
          new_metadata with
  | inl md => Ok md
  | inr md =>
  match try_build_file fs ".qmake.conf" "qmake" extractFromQmake md with
  | inl md => Ok md
  | inr md =>
  match try_build_file fs "meson.build" "Meson" extractFromMeson md with
  | inl md => Ok md
  | inr md =>
  match try_build_file fs "configure.ac" "Autotools" extractFromAutotools
          md with
  | inl md => Ok md
  | inr md => Ok (set_ls "build_system" (VString "Makefile") md)
  end end end end.

End Cpp.

(** ** The Scala extractor (package scala) *)

Module Scala.

Import Regexp.

Definition not_dquote : ascii -> bool := Chars.none_of [Chars.dquote].
Definition not_colon : ascii -> bool := Chars.none_of [":"%char].
Definition digit_or_dot (c : ascii) : bool :=
  Chars.digit c || Chars.chr "." c.

(** [\x22([^\x22]+)\x22], capturing as group [i] *)
Definition quoted (i : nat) : regex :=
  cat [ch Chars.dquote; Group i (plus not_dquote); ch Chars.dquote].

(** [key\s*:=\s*\x22([^\x22]+)\x22] *)
Definition setting (key : string) : regex :=
  cat [lit key; ws; lit ":="; ws; quoted 1].

Definition nameRegex : regex := setting "name".
Definition versionRegex : regex := setting "version".
Definition scalaVersionRegex : regex := setting "scalaVersion".
Definition organizationRegex : regex := setting "organization".
Definition descriptionRegex : regex := setting "description".

(** [homepage\s*:=\s*Some\(url\(\x22([^\x22]+)\x22\)\)] *)
Definition homepageRegex : regex :=
  cat [lit "homepage"; ws; lit ":="; ws; lit "Some(url("; quoted 1;
       lit "))"].

(** [licenses\s*:=\s*Seq\(\s*\x22([^\x22]+)\x22] *)
Definition licenseRegex : regex :=
  cat [lit "licenses"; ws; lit ":="; ws; lit "Seq("; ws; quoted 1].

(** [libraryDependencies\s*\+\+?=\s*(?:Seq\()?\s*\x22([^\x22]+)\x22\s*%+\s*\x22([^\x22]+)\x22\s*%\s*\x22([^\x22]+)\x22] *)
Definition libraryDependencyRegex : regex :=
  cat [lit "libraryDependencies"; ws; ch "+"; opt (ch "+"); ch "="; ws;
       opt (lit "Seq("); ws; quoted 1; ws; plus (Chars.chr "%"); ws;
       quoted 2; ws; ch "%"; ws; quoted 3].

(** [^\s*\x22([^\x22]+)\x22\s*%%?\s*\x22([^\x22]+)\x22\s*%\s*\x22([^\x22]+)\x22] *)
Definition standaloneDependencyRegex : regex :=
  cat [Bol; ws; quoted 1; ws; ch "%"; opt (ch "%"); ws; quoted 2; ws;
       ch "%"; ws; quoted 3].

(** *** generateScalaVersionMatrix *)

Definition generateScalaVersionMatrix (version : string) : list string :=
  let parts := GoStrings.Split version "." in
  if llen parts <? 2 then [version]
  else
    let major := at_ parts 0 in
    let minor := at_ parts 1 in
    if GoStrings.eqb major "3" then ["3.3"; "3.4"]
    else if GoStrings.eqb major "2" && GoStrings.eqb minor "13"
    then ["2.13"]
    else if GoStrings.eqb major "2" && GoStrings.eqb minor "12"
    then ["2.12"; "2.13"]
    else if GoStrings.eqb major "2" && GoStrings.eqb minor "11"
    then ["2.11"; "2.12"]
    else [version].

(** *** extractFromBuildSbt *)

Record sbt_state : Type := {
  sb_metadata : ProjectMetadata;
  sb_dependencies : list string;
  sb_scalaVersion : string;
  sb_inLibraryDependencies : bool;
  sb_parenDepth : Z
}.

Definition dep3 (m : list string) (l : list string) : list string :=
  l ++ [colon3 (at_ m 1) (at_ m 2) (at_ m 3)].

Definition paren_balance (line : string) : Z :=
  GoStrings.Count line "(" - GoStrings.Count line ")".

Definition sbt_line (st : sbt_state) (text : string) : sbt_state :=
  let line := GoStrings.TrimSpace text in
  if GoStrings.HasPrefix line "//" then st
  else
    let md := on_match nameRegex line (fun m => set_Name (at_ m 1))
                (sb_metadata st) in
    let md := on_match versionRegex line
                (fun m => set_Version (at_ m 1) "build.sbt") md in
    let scalaVersion := on_match scalaVersionRegex line
                          (fun m _ => at_ m 1) (sb_scalaVersion st) in
    let md := on_match organizationRegex line
                (fun m => set_ls "organization" (VString (at_ m 1))) md in
    let md := on_match descriptionRegex line
                (fun m => set_Description (at_ m 1)) md in
    let md := on_match homepageRegex line
                (fun m => set_Homepage (at_ m 1)) md in
    let md := on_match licenseRegex line
                (fun m => set_License (at_ m 1)) md in
    let deps := on_match libraryDependencyRegex line dep3
                  (sb_dependencies st) in
    if GoStrings.Contains line "libraryDependencies"
       && GoStrings.Contains line "Seq("
    then
      (* entering the block; [continue] *)
      let depth := paren_balance line in
      {| sb_metadata := md; sb_dependencies := deps;
         sb_scalaVersion := scalaVersion;
         sb_inLibraryDependencies := negb (depth <=? 0);
         sb_parenDepth := depth |}
    else if sb_inLibraryDependencies st then
      let deps := on_match standaloneDependencyRegex line dep3 deps in
      let depth := sb_parenDepth st + paren_balance line in
      {| sb_metadata := md; sb_dependencies := deps;
         sb_scalaVersion := scalaVersion;
         sb_inLibraryDependencies := negb (depth <=? 0);
         sb_parenDepth := if depth <=? 0 then 0 else depth |}
    else
      {| sb_metadata := md; sb_dependencies := deps;
         sb_scalaVersion := scalaVersion;
         sb_inLibraryDependencies := false;
         sb_parenDepth := sb_parenDepth st |}.

Definition extractFromBuildSbt (fs : dir) (path : string)
    (metadata : ProjectMetadata) : ProjectMetadata * option error :=
  match fs path with
  | Contents data =>
      let '(lines, scan_err) := Scanner.scan data in
      let st := fold_left sbt_line lines
                  {| sb_metadata := metadata; sb_dependencies := [];
                     sb_scalaVersion := "";
                     sb_inLibraryDependencies := false;
                     sb_parenDepth := 0 |} in
      match scan_err with
      | Some e => (sb_metadata st, Some e)
      | None =>
          let md := sb_metadata st in
          let md :=
            if nonempty (sb_scalaVersion st) then
              let md := set_ls "scala_version"
                          (VString (sb_scalaVersion st)) md in
              let matrix := generateScalaVersionMatrix (sb_scalaVersion st) in
              if 0 <? llen matrix
              then set_ls "scala_version_matrix" (VStrings matrix) md
              else md
            else md in
          (store_dependencies (sb_dependencies st) md, None)
      end
  | _ => (metadata, Some (ErrOpen path))
  end.

(** *** extractSbtVersion *)

(** [sbt\.version\s*=\s*([0-9.]+)] *)
Definition sbtVersionRegex : regex :=
  cat [lit "sbt.version"; ws; ch "="; ws; Group 1 (plus digit_or_dot)].

Definition extractSbtVersion (fs : dir) (metadata : ProjectMetadata)
    : ProjectMetadata :=
  match fs "project/build.properties" with
  | Contents content =>
      on_match sbtVersionRegex content
        (fun m => set_ls "sbt_version" (VString (at_ m 1))) metadata
  | _ => metadata
  end.

(** *** extractFromMill *)

(** [object\s+(\w+)\s+extends] *)
Definition objectRegex : regex :=
  cat [lit "object"; ws1; Group 1 (plus Chars.word); ws1; lit "extends"].

(** [def\s+scalaVersion\s*=\s*\x22([^\x22]+)\x22] *)
Definition millScalaVersionRegex : regex :=
  cat [lit "def"; ws1; lit "scalaVersion"; ws; ch "="; ws; quoted 1].

(** [ivy\x22([^:]+)::?([^:]+):([^\x22]+)\x22] *)
Definition ivyDepRegex : regex :=
  cat [lit "ivy"; ch Chars.dquote; Group 1 (plus not_colon); ch ":";
       opt (ch ":"); Group 2 (plus not_colon); ch ":";
       Group 3 (plus not_dquote); ch Chars.dquote].

Record mill_state : Type := {
  ml_metadata : ProjectMetadata;
  ml_dependencies : list string;
  ml_scalaVersion : string
}.

Definition mill_line (st : mill_state) (text : string) : mill_state :=
  let line := GoStrings.TrimSpace text in
  if GoStrings.HasPrefix line "//" then st
  else
    {| ml_metadata :=
         on_match objectRegex line
           (fun m md => if GoStrings.eqb (Name md) ""
                        then set_Name (at_ m 1) md else md)
           (ml_metadata st);
       ml_dependencies :=
         on_match ivyDepRegex line dep3 (ml_dependencies st);
       ml_scalaVersion :=
         on_match millScalaVersionRegex line (fun m _ => at_ m 1)
           (ml_scalaVersion st) |}.

Definition extractFromMill (fs : dir) (path : string)
    (metadata : ProjectMetadata) : ProjectMetadata * option error :=
  match fs path with
  | Contents data =>
      let '(lines, scan_err) := Scanner.scan data in
      let st := fold_left mill_line lines
                  {| ml_metadata := metadata; ml_dependencies := [];
                     ml_scalaVersion := "" |} in
      match scan_err with
      | Some e => (ml_metadata st, Some e)
      | None =>
          let md := ml_metadata st in
          let md := if nonempty (ml_scalaVersion st)
                    then set_ls "scala_version"
                           (VString (ml_scalaVersion st)) md
                    else md in
          (store_dependencies (ml_dependencies st) md, None)
      end
  | _ => (metadata, Some (ErrOpen path))
  end.

(** *** Extract *)

Definition Extract (fs : dir) : result ProjectMetadata :=
  let metadata := new_metadata in
  let after_sbt :=
    if Stat (fs "build.sbt") then
      match extractFromBuildSbt fs "build.sbt" metadata with
      | (md, None) =>
          inl (extractSbtVersion fs (set_ls "build_tool" (VString "SBT") md))
      | (md, Some _) => inr md
      end
    else inr metadata in
  match after_sbt with
  | inl md => Ok md
  | inr metadata =>
      let after_mill :=
        if Stat (fs "build.sc") then
          match extractFromMill fs "build.sc" metadata with
          | (md, None) => inl (set_ls "build_tool" (VString "Mill") md)
          | (md, Some _) => inr md
          end
        else inr metadata in
      match after_mill with
      | inl md => Ok md
      | inr metadata =>
          Ok (set_ls "build_tool" (VString "unknown") metadata)
      end
  end.

End Scala.

(** ** The Elixir extractor (package elixir) *)

Module Elixir.

Import Regexp.

Definition not_dquote : ascii -> bool := Chars.none_of [Chars.dquote].

Definition quoted (i : nat) : regex :=
  cat [ch Chars.dquote; Group i (plus not_dquote); ch Chars.dquote].

(** [key:\s*\x22([^\x22]+)\x22] *)
Definition keyword (key : string) : regex :=
  cat [lit key; ch ":"; ws; quoted 1].

(** [app:\s*:(\w+)] *)
Definition appRegex : regex :=
  cat [lit "app:"; ws; ch ":"; Group 1 (plus Chars.word)].
Definition versionRegex : regex := keyword "version".
Definition elixirRegex : regex := keyword "elixir".
Definition descriptionRegex : regex := keyword "description".
(** [package:\s*\[] *)
Definition packageBlockRegex : regex := cat [lit "package:"; ws; ch "["].
(** [defp\s+package\s+do] *)
Definition packageFuncRegex : regex :=
  cat [lit "defp"; ws1; lit "package"; ws1; lit "do"].
(** [licenses:\s*\[\x22([^\x22]+)\x22] *)
Definition licenseRegex : regex :=
  cat [lit "licenses:"; ws; ch "["; quoted 1].
(** [links:\s*%\{] *)
Definition linksRegex : regex := cat [lit "links:"; ws; lit "%{"].
(** [\x22([^\x22]+)\x22\s*=>\s*\x22([^\x22]+)\x22] *)
Definition homepageRegex : regex :=
  cat [quoted 1; ws; lit "=>"; ws; quoted 2].
(** [\{:(\w+),\s*\x22([^\x22]+)\x22] *)
Definition depRegex : regex :=
  cat [lit "{:"; Group 1 (plus Chars.word); ch ","; ws; quoted 2].

(** *** generateElixirVersionMatrix *)

Definition strip_operators (requirement : string) : string :=
  GoStrings.TrimPrefix
    (GoStrings.TrimPrefix (GoStrings.TrimPrefix requirement "~> ") ">= ")
    "== ".

Definition generateElixirVersionMatrix (requirement : string)
    : list string :=
  let version := strip_operators requirement in
  let parts := GoStrings.Split version "." in
  if llen parts <? 2 then ["1.14"; "1.15"; "1.16"]
  else
    let major := at_ parts 0 in
    let minor := at_ parts 1 in
    if GoStrings.eqb major "1" then
      if GoStrings.eqb minor "16" then ["1.16"; "1.17"]
      else if GoStrings.eqb minor "15" then ["1.15"; "1.16"; "1.17"]
      else if GoStrings.eqb minor "14" then ["1.14"; "1.15"; "1.16"]
      else if GoStrings.eqb minor "13" then ["1.13"; "1.14"; "1.15"]
      else if GoStrings.eqb minor "12" then ["1.12"; "1.13"; "1.14"]
      else ["1.14"; "1.15"; "1.16"]
    else ["1.14"; "1.15"; "1.16"].

(** *** detectFramework *)

Fixpoint detectFramework (dependencies : list string) : string :=
  match dependencies with
  | [] => ""
  | dep :: rest =>
      if GoStrings.Contains dep "phoenix:" then "Phoenix"
      else if GoStrings.Contains dep "nerves:" then "Nerves"
      else if GoStrings.Contains dep "plug:" then "Plug"
      else detectFramework rest
  end.

(** *** extractFromMixExs *)

Record mix_state : Type := {
  mx_metadata : ProjectMetadata;
  mx_dependencies : list string;
  mx_inPackageBlock : bool;
  mx_inLinksBlock : bool;
  mx_elixirVersion : string
}.

Definition link_homepage (m : list string) (md : ProjectMetadata)
    : ProjectMetadata :=
  if GoStrings.eqb (at_ m 1) "GitHub" || GoStrings.eqb (at_ m 1) "Homepage"
  then set_Homepage (at_ m 2) md else md.

Definition mix_line (st : mix_state) (text : string) : mix_state :=
  let line := GoStrings.TrimSpace text in
  if GoStrings.HasPrefix line "#" then st
  else
    let md := on_match appRegex line (fun m => set_Name (at_ m 1))
                (mx_metadata st) in
    let md := on_match versionRegex line
                (fun m => set_Version (at_ m 1) "mix.exs") md in
    let elixirVersion := on_match elixirRegex line (fun m _ => at_ m 1)
                           (mx_elixirVersion st) in
    let md := on_match descriptionRegex line
                (fun m => set_Description (at_ m 1)) md in
    let inPackageBlock :=
      if MatchString packageBlockRegex line
         || MatchString packageFuncRegex line
      then true else mx_inPackageBlock st in
    let md := if inPackageBlock
              then on_match licenseRegex line
                     (fun m => set_License (at_ m 1)) md
              else md in
    let inLinksBlock :=
      if MatchString linksRegex line then true else mx_inLinksBlock st in
    let md := if inLinksBlock
              then on_match homepageRegex line link_homepage md
              else md in
    let inPackageBlock :=
      if GoStrings.Contains line "]"
         && (inPackageBlock && negb (GoStrings.Contains line "["))
      then false else inPackageBlock in
    let inLinksBlock :=
      if GoStrings.Contains line "}"
         && (inLinksBlock && negb (GoStrings.Contains line "%{"))
      then false else inLinksBlock in
    {| mx_metadata := md;
       mx_dependencies :=
         on_match depRegex line
           (fun m l => l ++ [colon2 (at_ m 1) (at_ m 2)])
           (mx_dependencies st);
       mx_inPackageBlock := inPackageBlock;
       mx_inLinksBlock := inLinksBlock;
       mx_elixirVersion := elixirVersion |}.

Definition extractFromMixExs (fs : dir) (path : string)
    (metadata : ProjectMetadata) : ProjectMetadata * option error :=
  match fs path with
  | Contents data =>
      let '(lines, scan_err) := Scanner.scan data in
      let st := fold_left mix_line lines
                  {| mx_metadata := metadata; mx_dependencies := [];
                     mx_inPackageBlock := false; mx_inLinksBlock := false;
                     mx_elixirVersion := "" |} in
      match scan_err with
      | Some e => (mx_metadata st, Some e)
      | None =>
          let md := mx_metadata st in
          let md :=
            if nonempty (mx_elixirVersion st) then
              let md := set_ls "elixir_version"
                          (VString (mx_elixirVersion st)) md in
              let matrix :=
                generateElixirVersionMatrix (mx_elixirVersion st) in
              if 0 <? llen matrix
              then set_ls "elixir_version_matrix" (VStrings matrix) md
              else md
            else md in
          let md := store_dependencies (mx_dependencies st) md in
          let framework := detectFramework (mx_dependencies st) in
          (if nonempty framework
           then set_ls "framework" (VString framework) md else md,
           None)
      end
  | _ => (metadata, Some (ErrOpen path))
  end.

(** *** Extract *)

Definition Extract (fs : dir) : result ProjectMetadata :=
  let metadata := new_metadata in
  if Stat (fs "mix.exs") then
    match extractFromMixExs fs "mix.exs" metadata with
    | (_, Some e) => Err e
    | (md, None) => Ok (set_ls "build_tool" (VString "Mix") md)
    end
  else Ok (set_ls "build_tool" (VString "Mix") metadata).

End Elixir.

(** ** The extractor registry *)

Module Registry.

(** Modelled from the spec: the extractor contract and the registry
    ([extractor.BaseExtractor], [extractor.RegisterExtractor] and the
    resolution of a path) live in package [extractor], which is not among
    the sources; only the calls [extractor.NewBaseExtractor(name, 1)] and
    [extractor.RegisterExtractor(NewExtractor())] are.  An extractor
    exposes [Name], [Priority], [Detect] and [Extract]; the registry is
    the ordered collection of registered extractors. *)
Record Extractor : Type := {
  Name : string;
  Priority : Z;
  Detect : dir -> bool;
  Extract : dir -> result ProjectMetadata
}.

(** Modelled from the spec: [Register(extractor)] appends to the internal
    collection, with no constraint on the uniqueness of names. *)
Definition Register (e : Extractor) (registry : list Extractor)
    : list Extractor :=
  registry ++ [e].

(** Modelled from the spec: the matches are ordered by descending
    [Priority()], ties keeping registration order.  [place e l] puts an
    extractor registered before all of [l] in front of the first element
    whose priority is not higher. *)
Fixpoint place (e : Extractor) (l : list Extractor) : list Extractor :=
  match l with
  | [] => [e]
  | x :: l' =>
      if Priority e <? Priority x then x :: place e l' else e :: l
  end.

Fixpoint by_priority (l : list Extractor) : list Extractor :=
  match l with
  | [] => []
  | e :: l' => place e (by_priority l')
  end.

(** Modelled from the spec: [Resolve(path)] calls [Detect(path)] on each
    registered extractor and collects the matches; with no match it
    fails with [NoExtractorFound], otherwise it selects by descending
    priority, then registration order. *)
Definition Resolve (registry : list Extractor) (path : dir)
    : result Extractor :=
  match by_priority (List.filter (fun e => Detect e path) registry) with
  | [] => Err NoExtractorFound
  | e :: _ => Ok e
  end.

(** The extractor that resolution must select: the one at index [i]
    detects the path, no detecting extractor has a higher priority, and
    none of equal priority is registered earlier. *)
Definition selected (registry : list Extractor) (path : dir) (i : nat)
    (e : Extractor) : Prop :=
  registry !! i = Some e /\
  Detect e path = true /\
  forall (j : nat) (e' : Extractor),
    registry !! j = Some e' -> Detect e' path = true ->
    Priority e' <= Priority e /\ (Priority e' = Priority e -> (i <= j)%nat).

(** The extractors of the sources, each registered with priority 1. *)
Definition cpp (detect : dir -> bool) : Extractor :=
  {| Name := "cpp"; Priority := 1; Detect := detect;
     Extract := Cpp.Extract |}.
Definition scala (detect : dir -> bool) : Extractor :=
  {| Name := "scala"; Priority := 1; Detect := detect;
     Extract := Scala.Extract |}.
Definition elixir (detect : dir -> bool) : Extractor :=
  {| Name := "elixir"; Priority := 1; Detect := detect;
     Extract := Elixir.Extract |}.

End Registry.

(** ** The Terraform version matrix *)

Module Terraform.

(** Modelled from the spec: [generateTerraformVersionMatrix] belongs to
    the Terraform extractor, whose source is not present (only its test
    file is).  The release lines currently supported, oldest first. *)
Definition supported : list (Z * Z * string) :=
  [(1, 5, "1.5"); (1, 6, "1.6"); (1, 7, "1.7"); (1, 8, "1.8");
   (1, 9, "1.9"); (1, 10, "1.10")].

(** Modelled from the spec: the short default list, the three most
    recent supported lines. *)
Definition recent : list string := ["1.8"; "1.9"; "1.10"].

Definition operator_char (c : ascii) : bool :=
  existsb (fun a => Ascii.eqb a c) [">"; "="; "~"; "^"; "<"; "!"; " "]%char.

(** Modelled from the spec: the constraint-stripping rule removes the
    leading operator ([>=], [~>], [^], [==]) and the blanks after it. *)
Fixpoint strip_constraint (s : string) : string :=
  match s with
  | String c s' => if operator_char c then strip_constraint s' else s
  | EmptyString => EmptyString
  end.

Fixpoint digits (acc : Z) (s : string) : option Z :=
  match s with
  | EmptyString => Some acc
  | String c s' =>
      if Chars.digit c
      then digits (10 * acc + Z.of_N (Chars.code c - 48)) s'
      else None
  end.

Definition number (s : string) : option Z :=
  match s with
  | EmptyString => None
  | _ => digits 0 s
  end.

Definition line_le (a b : Z * Z) : bool :=
  (fst a <? fst b) || ((fst a =? fst b) && (snd a <=? snd b)).

Definition oldest : Z * Z := (1, 5).

Definition is_supported (v : Z * Z) : bool :=
  existsb (fun l => (fst (fst l) =? fst v) && (snd (fst l) =? snd v))
          supported.

(** Modelled from the spec: a constraint naming an end-of-life version
    is clamped up to the oldest supported line; a supported floor yields
    that line and the newer ones, ascending; an empty, unparseable or
    unknown constraint yields the short default list. *)
Definition generateTerraformVersionMatrix (constraint : string)
    : list string :=
  match GoStrings.Split (strip_constraint constraint) "." with
  | major :: minor :: _ =>
      match number major, number minor with
      | Some a, Some b =>
          let floor := if line_le (a, b) oldest then oldest else (a, b) in
          if is_supported floor
          then map snd
                 (List.filter (fun l => line_le floor (fst l)) supported)
          else recent
      | _, _ => recent
      end
  | _ => recent
  end.

End Terraform.

(** ** Project directories used in the statements below *)

Module Fixtures.

(** Writes a double quote for every backquote of a literal, so that file
    contents can be given as one literal. *)
Fixpoint dq (s : string) : string :=
  match s with
  | EmptyString => EmptyString
  | String c s' =>
      String (if Ascii.eqb c "`" then Chars.dquote else c) (dq s')
  end.

Definition empty_dir : dir := fun _ => Absent.

(** The directory holding the single file [name]. *)
Definition single (name : string) (f : file) : dir :=
  fun x => if String.eqb x name then f else Absent.

(** cpp_test.go, TestExtractFromMesonWithComments *)
Definition meson_with_comments : string :=
"# This is a comment mentioning project('fake', version: '0.0.0')
project('realapp', 'cpp',
  version: '2.0.0',
  default_options: ['warning_level=3'])

# executable('commented_out', 'old.cpp')
executable('realexe', 'main.cpp')

# Old dependency that should be ignored:
# dependency('obsolete-lib')
dependency('actual-lib')

# Note: library('fake') is not real
shared_library('reallib', 'lib.cpp')

msg = 'This string has a # hash inside'  # but this is a comment
".

(** A meson.build whose first line is the comment [# text] and whose
    second line declares the executable [real]. *)
Definition meson_commented (text : string) : string :=
  "#" +:+ text +:+ String Chars.newline "executable('real', 'main.cpp')
".



(** The Scala test TestExtractFromBuildSbt: a block over several lines *)
Definition sbt_block : string := dq
"libraryDependencies ++= Seq(
  `org.typelevel` %% `cats-core` % `2.10.0`,
  `org.scalatest` %% `scalatest` % `3.2.17` % Test
)
".

(** A configure.ac whose version argument is blank *)
Definition autotools_blank_version : string :=
"AC_INIT([mytool], [ ])
".

(** cpp_test.go, TestExtractFromCMake, case with dependencies *)
Definition cmake_with_dependencies : string :=
"project(DependentProject)
find_package(Boost REQUIRED)
find_package(OpenCV)
find_package(Qt5 COMPONENTS Core Widgets)
".

Definition mix_exs : string := dq
"defmodule MyApp.MixProject do
  def project do
    [app: :my_app, version: `0.1.0`, elixir: `~> 1.14`, deps: deps()]
  end
  defp deps do
    [{:phoenix, `~> 1.7.0`}]
  end
end
".

End Fixtures.

(** ** Vocabulary of the statements *)

(** The file can be opened and read. *)
Definition readable (f : file) : bool :=
  match f with Contents _ => true | _ => false end.

(** The file can be opened and every line of it fits the scanner. *)
Definition scans (f : file) : bool :=
  match f with
  | Contents data =>
      match snd (Scanner.scan data) with None => true | Some _ => false end
  | _ => false
  end.

(** The keys other than [dependencies] and [dependency_count] that the
    three extractors write into [LanguageSpecific]. *)
Definition other_keys : list string :=
  ["cxx_standard"; "c_standard"; "executables"; "libraries"; "build_system";
   "organization"; "scala_version"; "scala_version_matrix"; "sbt_version";
   "build_tool"; "elixir_version"; "elixir_version_matrix"; "framework"].

Definition other_key (k : string) : bool := existsb (String.eqb k) other_keys.

(** A count field is a key ending in [_count]. *)
Definition is_count_field (k : string) : bool :=
  GoStrings.HasPrefix (GoStrings.rev k) (GoStrings.rev "_count").

(** [dependencies] and [dependency_count] are absent together, or present
    together with the count equal to the length of the list. *)
Definition dependencies_counted (ls : gmap string value) : Prop :=
  (ls !! "dependencies" = None /\ ls !! "dependency_count" = None) \/
  exists l : list string,
    ls !! "dependencies" = Some (VStrings l) /\
    ls !! "dependency_count" = Some (VInt (llen l)).

Definition no_newline (s : string) : bool :=
  negb (GoStrings.Contains s (String Chars.newline "")).

(** The requirements for which generateElixirVersionMatrix has a case of
    its own: major [1] and minor [12] to [16], after the operator prefix. *)
Definition elixir_recognised (requirement : string) : bool :=
  let parts := GoStrings.Split (Elixir.strip_operators requirement) "." in
  (2 <=? llen parts) && GoStrings.eqb (at_ parts 0) "1"
  && existsb (GoStrings.eqb (at_ parts 1)) ["12"; "13"; "14"; "15"; "16"].

(** The versions for which generateScalaVersionMatrix has a case of its
    own: major [3], or major [2] with minor [11], [12] or [13]. *)
Definition scala_recognised (version : string) : bool :=
  let parts := GoStrings.Split version "." in
  (2 <=? llen parts)
  && (GoStrings.eqb (at_ parts 0) "3"
      || (GoStrings.eqb (at_ parts 0) "2"
          && existsb (GoStrings.eqb (at_ parts 1)) ["11"; "12"; "13"])).

(** The [LanguageSpecific] map of the record is not the nil map. *)
Definition allocated (md : ProjectMetadata) : Prop :=
  LanguageSpecific md <> None.

(** The map holds only keys that the extractors write. *)
Definition known_keys (ls : gmap string value) : Prop :=
  forall k, is_Some (ls !! k) ->
            k = "dependencies" \/ k = "dependency_count" \/ other_key k = true.

(** The state of the map that every write of the extractors keeps. *)
Definition counted (md : ProjectMetadata) : Prop :=
  exists ls, LanguageSpecific md = Some ls /\ known_keys ls /\
             dependencies_counted ls.

(** [VersionSource] is set exactly when [Version] is. *)
Definition sourced (md : ProjectMetadata) : Prop :=
  VersionSource md <> "" <-> Version md <> "".

(** What the C/C++ extractor keeps of it: a version always has a source,
    and the converse holds unless the source is configure.ac. *)
Definition sourced_unless_autotools (md : ProjectMetadata) : Prop :=
  (Version md <> "" -> VersionSource md <> "") /\
  (VersionSource md <> "configure.ac" -> sourced md).

(** ** The summary helpers (package output) *)

Module Summary.

(** [strings.Join] *)
Fixpoint Join (elems : list string) (sep : string) : string :=
  match elems with
  | [] => ""
  | [e] => e
  | e :: rest => e +:+ sep +:+ Join rest sep
  end.

(** [strings.ToUpper(s[:1])] for the first byte [c] of [s]: an ASCII
    letter is upper-cased; a byte that is no ASCII (the one-byte string is
    then invalid UTF-8) is written as U+FFFD, bytes EF BF BD. *)
Definition ToUpper1 (c : ascii) : string :=
  if (Chars.code c <? 128)%N then
    String (if Chars.lower c then ascii_of_N (Chars.code c - 32) else c) ""
  else GoStrings.bytes [239; 191; 189]%N.

(** [strings.ToUpper(part[:1]) + part[1:]], for a part that is not empty *)
Definition capitalize (part : string) : string :=
  match part with
  | EmptyString => EmptyString
  | String c rest => ToUpper1 c +:+ rest
  end.

(** *** formatProjectType *)

Definition typeMap : gmap string string :=
  list_to_map
    [("python-modern", "Python (Modern)");
     ("python-legacy", "Python (Legacy)");
     ("javascript-npm", "JavaScript (npm)");
     ("javascript-yarn", "JavaScript (Yarn)");
     ("javascript-pnpm", "JavaScript (pnpm)");
     ("typescript-npm", "TypeScript (npm)");
     ("java-maven", "Java (Maven)");
     ("java-gradle", "Java (Gradle)");
     ("java-gradle-kts", "Java (Gradle Kotlin DSL)");
     ("csharp-project", "C# (.NET Project)");
     ("csharp-solution", "C# (.NET Solution)");
     ("dotnet-project", ".NET Project");
     ("go-module", "Go (Module)");
     ("rust-cargo", "Rust (Cargo)");
     ("ruby-gemspec", "Ruby (Gem)");
     ("ruby-bundler", "Ruby (Bundler)");
     ("php-composer", "PHP (Composer)");
     ("swift-package", "Swift (Package)");
     ("dart-flutter", "Dart/Flutter");
     ("terraform", "Terraform");
     ("terraform-opentofu", "OpenTofu");
     ("docker", "Docker");
     ("helm", "Helm Chart");
     ("c-cmake", "C/C++ (CMake)");
     ("c-qmake", "C/C++ (Qt qmake)");
     ("c-autoconf", "C/C++ (Autoconf)")].

Definition formatProjectType (projectType : string) : string :=
  match typeMap !! projectType with
  | Some display => display
  | None => Join (map capitalize (GoStrings.Split projectType "-")) " "
  end.

(** *** formatToolName *)

Definition nameMap : gmap string string :=
  list_to_map
    [("python3", "Python 3 Version");
     ("python", "Python Version");
     ("pip", "pip Version");
     ("node", "Node.js Version");
     ("npm", "npm Version");
     ("yarn", "Yarn Version");
     ("go", "Go Version");
     ("rustc", "Rust Version");
     ("cargo", "Cargo Version");
     ("java", "Java Version");
     ("javac", "Java Compiler Version");
     ("mvn", "Maven Version");
     ("gradle", "Gradle Version");
     ("dotnet", ".NET Version");
     ("php", "PHP Version");
     ("composer", "Composer Version");
     ("ruby", "Ruby Version");
     ("gem", "RubyGems Version");
     ("swift", "Swift Version");
     ("git", "Git Version");
     ("terraform", "Terraform Version");
     ("tofu", "OpenTofu Version");
     ("docker", "Docker Version");
     ("kubectl", "kubectl Version");
     ("helm", "Helm Version");
     ("dart", "Dart Version");
     ("flutter", "Flutter Version");
     ("gcc", "GCC Version");
     ("clang", "Clang Version");
     ("cmake", "CMake Version");
     ("make", "Make Version")].

Definition formatToolName (tool : string) : string :=
  match nameMap !! tool with
  | Some display => display
  | None =>
      match tool with
      | String c rest => ToUpper1 c +:+ rest +:+ " Version"
      | EmptyString => tool
      end
  end.

(** *** filterRelevantTools *)

(** [for _, tool := range tools { if version, ok := allTools[tool]; ok
    { relevant[tool] = version } }] on a fresh map *)
Definition pick (tools : list string) (allTools : gmap string string)
    : gmap string string :=
  fold_left
    (fun relevant tool =>
       match allTools !! tool with
       | Some version => <[tool:=version]> relevant
       | None => relevant
       end)
    tools ∅.

Definition filterRelevantTools (projectType : string)
    (allTools : gmap string string) : gmap string string :=
  let is_ := GoStrings.HasPrefix projectType in
  if GoStrings.eqb projectType "" || Nat.eqb (size allTools) 0 then ∅
  else if is_ "python" then pick ["pip"] allTools
  else if is_ "javascript" || is_ "typescript"
  then pick ["node"; "npm"; "yarn"] allTools
  else if is_ "java" then pick ["java"; "javac"; "mvn"; "gradle"] allTools
  else if is_ "go" then pick ["go"] allTools
  else if is_ "rust" then pick ["rustc"; "cargo"] allTools
  else if is_ "csharp" || is_ "dotnet" then pick ["dotnet"] allTools
  else if is_ "php" then pick ["php"; "composer"] allTools
  else if is_ "ruby" then pick ["ruby"; "gem"] allTools
  else if is_ "swift" then pick ["swift"] allTools
  else if is_ "terraform" then pick ["terraform"; "tofu"] allTools
  else if is_ "docker" then pick ["docker"; "kubectl"] allTools
  else if is_ "helm" then pick ["helm"; "kubectl"] allTools
  else if is_ "dart" then pick ["dart"; "flutter"] allTools
  else if is_ "c-" then pick ["gcc"; "clang"; "cmake"; "make"] allTools
  else ∅.

(** *** sortMapKeys *)

(** [if keys[i] > keys[j] { keys[i], keys[j] = keys[j], keys[i] }]; Go
    compares strings byte by byte.  The indices of the loops are always in
    range. *)
Definition swap_if_greater (i j : nat) (keys : list string) : list string :=
  match keys !! i, keys !! j with
  | Some a, Some b =>
      if String.ltb b a then <[j:=a]> (<[i:=b]> keys) else keys
  | _, _ => keys
  end.

(** [for j := i + 1; j < len(keys); j++ { ... }] *)
Definition inner_loop (i : nat) (keys : list string) : list string :=
  fold_left (fun ks j => swap_if_greater i j ks)
            (seq (S i) (length keys - S i)) keys.

(** [for i := 0; i < len(keys); i++ { ... }] *)
Definition sort_loop (keys : list string) : list string :=
  fold_left (fun ks i => inner_loop i ks) (seq 0 (length keys)) keys.

(** [for k := range m { keys = append(keys, k) }] visits the keys in an
    order that Go leaves unspecified; [order] is that order, any
    arrangement of the keys of the map. *)
Definition sortMapKeys (order : list string) : list string :=
  sort_loop order.

End Summary.

(** [strings.HasSuffix] *)
Definition HasSuffix (s suffix : string) : bool :=
  GoStrings.HasPrefix (GoStrings.rev s) (GoStrings.rev suffix).

(** [a <= b] in Go's order on strings (bytewise lexicographic). *)
Definition ascending (a b : string) : Prop := String.leb a b = true.

(** ** Detection

    [Detect] looks at more of the project than [Extract]: besides single
    files it asks whether a path is a directory and lets [filepath.Glob]
    list the names in a directory that match a pattern.  The project path
    is taken to hold none of the pattern characters of [filepath.Match],
    so that a pattern [filepath.Join(dir, "*" + suffix)] selects the names
    below [dir] that end in [suffix]; Glob reports no error for such a
    pattern and yields nothing for a directory that cannot be read. *)

Record tree : Type := {
  files : dir;                   (* the files, by path below the project path *)
  IsDir : string -> bool;        (* [info.IsDir()] of a path that Stat finds *)
  names : string -> list string  (* the names in a directory; [""] is the
                                    project path itself *)
}.

(** [filepath.Glob(filepath.Join(projectPath, d, "*" + suffix))] *)
Definition Glob (t : tree) (d suffix : string) : list string :=
  List.filter (fun name => HasSuffix name suffix) (names t d).

(** [matches, err := filepath.Glob(...); err == nil && len(matches) > 0] *)
Definition globs (t : tree) (d suffix : string) : bool :=
  0 <? llen (Glob t d suffix).

(** [info, err := os.Stat(d); err == nil && info.IsDir()] *)
Definition is_directory (t : tree) (d : string) : bool :=
  Stat (files t d) && IsDir t d.

Module Detect.

Definition cpp_patterns : list string :=
  [".cpp"; ".cc"; ".cxx"; ".hpp"; ".hxx"; ".h"].

(** Detect of the C/C++ extractor *)
Definition Cpp (t : tree) : bool :=
  if Stat (files t "CMakeLists.txt") then true
  else if Stat (files t ".qmake.conf") then true
  else if Stat (files t "Makefile") then true
  else if Stat (files t "configure.ac") then true
  else if Stat (files t "meson.build") then true
  else if existsb (globs t "") cpp_patterns then true
  else if is_directory t "src" && existsb (globs t "src") cpp_patterns
  then true
  else false.

(** Detect of the Scala extractor *)
Definition Scala (t : tree) : bool :=
  if Stat (files t "build.sbt") then true
  else if Stat (files t "project/build.properties") then true
  else if Stat (files t "build.sc") then true
  else if match files t "pom.xml" with
          | Contents content => GoStrings.Contains content "scala"
          | _ => false
          end
  then true
  else if is_directory t "src/main/scala" then true
  else existsb (fun d => globs t d ".scala") [""; "src"].

(** Detect of the Elixir extractor *)
Definition Elixir (t : tree) : bool :=
  if Stat (files t "mix.exs") then true
  else if is_directory t "lib" && globs t "lib" ".ex" then true
  else existsb (globs t "") [".ex"; ".exs"].

End Detect.

(** The label [Extract] of the C/C++ extractor gives a directory: the
    first build file, in the order CMake, qmake, Meson, Autotools, that can
    be parsed to the end. *)
Definition build_system (fs : dir) : string :=
  if scans (fs "CMakeLists.txt") then "CMake"
  else if scans (fs ".qmake.conf") then "qmake"
  else if readable (fs "meson.build") then "Meson"
  else if scans (fs "configure.ac") then "Autotools"
  else "Makefile".

(** Likewise for the Scala extractor. *)
Definition build_tool (fs : dir) : string :=
  if scans (fs "build.sbt") then "SBT"
  else if scans (fs "build.sc") then "Mill"
  else "unknown".

(** What stripMesonComments does to one line: it keeps a beginning of the
    line, and what it drops, if anything, starts with [#]. *)
Definition cuts_at_hash (line : string) : Prop :=
  exists cut,
    line = Cpp.strip_line line +:+ cut /\
    (cut = "" \/ GoStrings.HasPrefix cut "#" = true).

(** A dependency by which detectFramework recognises a framework. *)
Definition framework_marker (dep : string) : bool :=
  GoStrings.Contains dep "phoenix:" || GoStrings.Contains dep "nerves:"
  || GoStrings.Contains dep "plug:".

(** A line of mix.exs that opens a package block, and one that opens a
    links block. *)
Definition opens_package (text : string) : bool :=
  let line := GoStrings.TrimSpace text in
  Regexp.MatchString Elixir.packageBlockRegex line
  || Regexp.MatchString Elixir.packageFuncRegex line.

Definition opens_links (text : string) : bool :=
  Regexp.MatchString Elixir.linksRegex (GoStrings.TrimSpace text).

(** The release line [major.minor] that a dotted version names. *)
Definition release_line (version : string) : string :=
  let parts := GoStrings.Split version "." in
  at_ parts 0 +:+ "." +:+ at_ parts 1.

(** A line of [bufio.MaxScanTokenSize] bytes, which the scanner rejects. *)
Definition over_long_line : string := N.iter 65536 (String "x") "".

(** The fields [Repository] and [Authors]. *)
Definition origin (md : ProjectMetadata) : string * list string :=
  (Repository md, Authors md).

(** The fields [Homepage] and [License]. *)
Definition publication (md : ProjectMetadata) : string * string :=
  (Homepage md, License md).

(** Everything of the record but [Version] and [VersionSource]. *)
Definition unversioned (md : ProjectMetadata) : ProjectMetadata :=
  set_Version "" "" md.

(** What build.sc never provides. *)
Definition described (md : ProjectMetadata)
    : string * string * string * string * string :=
  (Version md, VersionSource md, Description md, Homepage md, License md).

(** The variables of the loops of extractFromBuildSbt and extractFromMill
    before the first line. *)
Definition sbt_start (metadata : ProjectMetadata) : Scala.sbt_state :=
  {| Scala.sb_metadata := metadata; Scala.sb_dependencies := [];
     Scala.sb_scalaVersion := ""; Scala.sb_inLibraryDependencies := false;
     Scala.sb_parenDepth := 0 |}.

Definition mill_start (metadata : ProjectMetadata) : Scala.mill_state :=
  {| Scala.ml_metadata := metadata; Scala.ml_dependencies := [];
     Scala.ml_scalaVersion := "" |}.

(** *** The bytes that a pattern takes *)

Definition all_bytes : list ascii := map ascii_of_nat (seq 0 256).

(** Every byte of the class [q] is in the class [p]. *)
Definition within (p q : ascii -> bool) : bool :=
  forallb (fun c => implb (q c) (p c)) all_bytes.

(** Every byte of [s] is in the class [p]. *)
Fixpoint all_of (p : ascii -> bool) (s : string) : bool :=
  match s with
  | EmptyString => true
  | String c s' => p c && all_of p s'
  end.

(** Every byte that a match of the pattern takes is in the class [p]. *)
Fixpoint over (p : ascii -> bool) (r : Regexp.regex) : bool :=
  match r with
  | Regexp.Eps | Regexp.Bol => true
  | Regexp.Class q | Regexp.Star q => within p q
  | Regexp.Cat r1 r2 | Regexp.Alt r1 r2 => over p r1 && over p r2
  | Regexp.Group _ r' => over p r'
  end.

(** Whatever a match of the pattern binds group [i] to consists of bytes
    of the class [p]. *)
Fixpoint captures_over (i : nat) (p : ascii -> bool) (r : Regexp.regex)
    : bool :=
  match r with
  | Regexp.Eps | Regexp.Bol | Regexp.Class _ | Regexp.Star _ => true
  | Regexp.Cat r1 r2 | Regexp.Alt r1 r2 =>
      captures_over i p r1 && captures_over i p r2
  | Regexp.Group j r' =>
      (if Nat.eqb i j then over p r' else true) && captures_over i p r'
  end.

(** A version made of digits and dots, and a name made of letters, digits
    and underscores. *)
Definition numeric (version : string) : bool :=
  all_of (fun c => Chars.digit c || Chars.chr "." c) version.

Definition identifier (name : string) : bool := all_of Chars.word name.

(** The version of the record is numeric if it was read from
    CMakeLists.txt or .qmake.conf. *)
Definition numeric_version (md : ProjectMetadata) : Prop :=
  VersionSource md = "CMakeLists.txt" \/ VersionSource md = ".qmake.conf" ->
  numeric (Version md) = true.

(** * Properties *)

(** ** The registry *)

Section ResolveProperties.

Import Registry.

Variable path : dir.

Lemma by_priority_filter_cons (a : Extractor) (reg : list Extractor) :
  by_priority (List.filter (fun e => Detect e path) (a :: reg)) =
  if Detect a path
  then place a (by_priority (List.filter (fun e => Detect e path) reg))
  else by_priority (List.filter (fun e => Detect e path) reg).
Proof. simpl. destruct (Detect a path); reflexivity. Qed.

Lemma head_place (a : Extractor) (l : list Extractor) :
  head (place a l) =
  Some (match head l with
        | Some x => if Priority a <? Priority x then x else a
        | None => a
        end).
Proof.
  destruct l as [|x l]; simpl; [reflexivity|].
  destruct (Priority a <? Priority x); reflexivity.
Qed.

Lemma Resolve_head (reg : list Extractor) :
  Resolve reg path =
  match head (by_priority (List.filter (fun e => Detect e path) reg)) with
  | Some e => Ok e
  | None => Err NoExtractorFound
  end.
Proof.
  unfold Resolve.
  destruct (by_priority _); reflexivity.
Qed.

Lemma selected_skip (a : Extractor) (reg : list Extractor) (i : nat)
    (e : Extractor) :
  selected reg path i e ->
  (Detect a path = true -> Priority a < Priority e) ->
  selected (a :: reg) path (S i) e.
Proof.
  intros (Hi & Hd & Hbest) Ha.
  split; [exact Hi|]. split; [exact Hd|].
  intros [|j] e' Hj Hd'; simpl in Hj.
  - injection Hj as <-. specialize (Ha Hd'). lia.
  - destruct (Hbest j e' Hj Hd') as [Hle Heq]. split; [exact Hle|].
    intros Hp. specialize (Heq Hp). lia.
Qed.

Lemma selected_first (a : Extractor) (reg : list Extractor) :
  Detect a path = true ->
  (forall (j : nat) (e' : Extractor),
      reg !! j = Some e' -> Detect e' path = true ->
      Priority e' <= Priority a) ->
  selected (a :: reg) path 0 a.
Proof.
  intros Ha Hmax.
  split; [reflexivity|]. split; [exact Ha|].
  intros [|j] e' Hj Hd'; simpl in Hj.
  - injection Hj as <-. split; lia.
  - split; [eapply Hmax; eauto | lia].
Qed.

(** The head of the ordered matches is the selected extractor, and there
    is no head exactly when nothing detects the path. *)
Lemma head_by_priority (reg : list Extractor) :
  match head (by_priority (List.filter (fun e => Detect e path) reg)) with
  | Some e => exists i, selected reg path i e
  | None => forall e, e ∈ reg -> Detect e path = false
  end.
Proof.
  induction reg as [|a reg IH].
  - simpl. intros e He. inversion He.
  - rewrite by_priority_filter_cons.
    destruct (Detect a path) eqn:Ha.
    + rewrite head_place.
      destruct (head (by_priority _)) as [x|].
      * destruct IH as [i Hsel].
        destruct (Priority a <? Priority x) eqn:Hlt.
        -- exists (S i). apply selected_skip; [exact Hsel|].
           intros _. lia.
        -- exists 0%nat. apply selected_first; [exact Ha|].
           intros j e' Hj Hd'.
           destruct Hsel as (_ & _ & Hbest).
           destruct (Hbest j e' Hj Hd') as [Hle _]. lia.
      * exists 0%nat. apply selected_first; [exact Ha|].
        intros j e' Hj Hd'.
        assert (Hin : e' ∈ reg) by (eapply list_elem_of_lookup_2; eauto).
        rewrite (IH e' Hin) in Hd'. discriminate.
    + destruct (head (by_priority _)) as [x|].
      * destruct IH as [i Hsel]. exists (S i).
        apply selected_skip; [exact Hsel|].
        intros Hd. rewrite Ha in Hd. discriminate.
      * intros e He. apply elem_of_cons in He as [->|He]; [exact Ha|].
        apply IH. exact He.
Qed.

Lemma selected_unique (reg : list Extractor) (i i' : nat)
    (e e' : Extractor) :
  selected reg path i e -> selected reg path i' e' -> i = i' /\ e = e'.
Proof.
  intros (Hi & Hd & Hbest) (Hi' & Hd' & Hbest').
  destruct (Hbest i' e' Hi' Hd') as [Hle Hfirst].
  destruct (Hbest' i e Hi Hd) as [Hle' Hfirst'].
  assert (Hp : Priority e' = Priority e) by lia.
  assert (i = i') by (specialize (Hfirst Hp); specialize (Hfirst' (eq_sym Hp)); lia).
  subst i'. split; [reflexivity|]. congruence.
Qed.

(** C1.  [Resolve] fails with [NoExtractorFound] exactly when no
    registered extractor detects the path; it returns [e] exactly when
    [e] is the registered extractor that detects the path, has the
    highest priority among those that do, and is the earliest registered
    among those of that priority.  These two cases are exhaustive and
    the selected extractor is unique, so the outcome is determined by
    the registration order. *)
Theorem Resolve_selects (reg : list Extractor) :
  (Resolve reg path = Err NoExtractorFound <->
   forall e, e ∈ reg -> Detect e path = false) /\
  (forall e, Resolve reg path = Ok e <-> exists i, selected reg path i e) /\
  (forall i i' e e',
      selected reg path i e -> selected reg path i' e' ->
      i = i' /\ e = e').
Proof.
  pose proof (head_by_priority reg) as H.
  rewrite Resolve_head.
  destruct (head (by_priority _)) as [x|].
  - destruct H as [i Hsel]. split; [|split].
    + split; [discriminate|].
      intros Hnone. destruct Hsel as (Hi & Hd & _).
      assert (Hin : x ∈ reg) by (eapply list_elem_of_lookup_2; eauto).
      rewrite (Hnone x Hin) in Hd. discriminate.
    + intros e. split.
      * intros [= <-]. exists i. exact Hsel.
      * intros [i' Hsel'].
        destruct (selected_unique _ _ _ _ _ Hsel Hsel') as [_ ->].
        reflexivity.
    + intros. eapply selected_unique; eauto.
  - split; [|split].
    + split; [intros _; exact H | reflexivity].
    + intros e. split; [discriminate|].
      intros [i (Hi & Hd & _)].
      assert (Hin : e ∈ reg) by (eapply list_elem_of_lookup_2; eauto).
      rewrite (H e Hin) in Hd. discriminate.
    + intros. eapply selected_unique; eauto.
Qed.

End ResolveProperties.

(** A polyglot directory that two extractors of priority 1 detect is
    resolved to the one registered first. *)
Lemma Resolve_selects_witness :
  Registry.Resolve
    [Registry.cpp (fun _ => true); Registry.scala (fun _ => true)]
    Fixtures.empty_dir
  = Ok (Registry.cpp (fun _ => true)).
Proof.
  destruct (Resolve_selects Fixtures.empty_dir
              [Registry.cpp (fun _ => true); Registry.scala (fun _ => true)])
    as (_ & Hok & _).
  apply Hok. exists 0%nat.
  split; [reflexivity|]. split; [reflexivity|].
  intros [|[|j]] e' Hj _; simpl in Hj; try discriminate;
    injection Hj as <-; simpl; split; lia.
Defined.

Example Resolve_prefers_priority :
  let low := {| Registry.Name := "low"; Registry.Priority := 1;
                Registry.Detect := fun _ => true;
                Registry.Extract := Cpp.Extract |} in
  let high := {| Registry.Name := "high"; Registry.Priority := 2;
                 Registry.Detect := fun _ => true;
                 Registry.Extract := Scala.Extract |} in
  Registry.Resolve (Registry.Register high (Registry.Register low []))
    Fixtures.empty_dir = Ok high /\
  Registry.Resolve [Registry.elixir (fun _ => false)] Fixtures.empty_dir
  = Err NoExtractorFound.
Proof. split; reflexivity. Qed.

(** ** The fuel of [TrimSpace] is enough *)

Section TrimFuel.

Import GoStrings.

Lemma drop_length (n : nat) (s : string) :
  String.length (drop n s) = (String.length s - n)%nat.
Proof.
  revert s. induction n as [|n IH]; intros [|c s]; simpl; auto.
Qed.

Lemma HasPrefix_length (s prefix : string) :
  HasPrefix s prefix = true ->
  (String.length prefix <= String.length s)%nat.
Proof.
  revert s. induction prefix as [|a p IH]; intros [|b s]; simpl;
    try lia; try discriminate.
  intros H. apply andb_true_iff in H as [_ H]. specialize (IH s H). lia.
Qed.

Variable encs : list string.
Hypothesis encs_nonempty : forall e, In e encs -> e <> "".

Lemma strip_one_shorter (s s' : string) :
  strip_one encs s = Some s' -> (String.length s' < String.length s)%nat.
Proof.
  unfold strip_one.
  destruct (List.find (fun e => HasPrefix s e) encs) as [e|] eqn:E;
    [|discriminate].
  intros [= <-]. apply List.find_some in E as [Hin Hpre].
  apply HasPrefix_length in Hpre. rewrite drop_length.
  specialize (encs_nonempty e Hin). destruct e; [congruence|]. simpl in *. lia.
Qed.

(** With one unit of fuel per byte, what [trim_left] returns starts with
    none of the encodings. *)
Lemma trim_left_done (fuel : nat) :
  forall s, (String.length s <= fuel)%nat ->
            strip_one encs (trim_left fuel encs s) = None.
Proof.
  induction fuel as [|fuel IH]; intros s Hlen; simpl.
  - destruct (strip_one encs s) as [s'|] eqn:E; [|reflexivity].
    apply strip_one_shorter in E. lia.
  - destruct (strip_one encs s) as [s'|] eqn:E; [|exact E].
    apply IH. apply strip_one_shorter in E. lia.
Qed.

End TrimFuel.

Lemma space_encodings_nonempty (e : string) :
  In e GoStrings.space_encodings -> e <> "".
Proof.
  intros H. vm_compute in H.
  repeat (destruct H as [<-|H]; [discriminate|]). destruct H.
Qed.

(** The first pass of [TrimSpace] leaves no leading white space. *)
Lemma TrimSpace_leading (s : string) :
  GoStrings.strip_one GoStrings.space_encodings
    (GoStrings.trim_left (String.length s) GoStrings.space_encodings s)
  = None.
Proof.
  apply trim_left_done; [exact space_encodings_nonempty | lia].
Qed.

(** ** Captures of the matcher *)

Section Captures.

Import Regexp.

Lemma take_positive (n : nat) (s : string) :
  (0 < n)%nat -> s <> "" -> GoStrings.take n s <> "".
Proof.
  destruct n as [|n]; [lia|]. destruct s as [|c s]; [congruence|].
  intros _ _. discriminate.
Qed.

(** A successful [star] has called its continuation, on a rest that is
    no longer than the text, with the captures it was given. *)
Lemma star_calls (p : ascii -> bool) (k : cont) (cs : caps)
    (res : string * caps) (s : string) (at0 : bool) :
  star p at0 s cs k = Some res ->
  exists b s', k b s' cs = Some res /\
               (String.length s' <= String.length s)%nat.
Proof.
  revert at0. induction s as [|c s IH]; intros at0; simpl.
  - intros H. exists at0, "". split; [exact H | simpl; lia].
  - destruct (p c).
    + destruct (star p false s cs k) as [r|] eqn:E.
      * intros [= <-]. destruct (IH false E) as (b & s' & Hk & Hlen).
        exists b, s'. split; [exact Hk | lia].
      * intros H. exists at0, (String c s). split; [exact H | simpl; lia].
    + intros H. exists at0, (String c s). split; [exact H | simpl; lia].
Qed.

(** What a successful [run] has done before calling its continuation. *)
Definition advanced (r : regex) (s s' : string) (cs cs' : caps) : Prop :=
  (String.length s' <= String.length s)%nat /\
  (consumes r = true -> (String.length s' < String.length s)%nat) /\
  (forall i, mentions i r = false -> capture i cs' = capture i cs) /\
  (forall i, binds i r = true -> capture i cs' <> "").

Lemma run_calls (r : regex) :
  forall (at0 : bool) (s : string) (cs : caps) (k : cont)
         (res : string * caps),
    run r at0 s cs k = Some res ->
    exists b s' cs', k b s' cs' = Some res /\ advanced r s s' cs cs'.
Proof.
  induction r as [| |p|r1 IH1 r2 IH2|r1 IH1 r2 IH2|p|j r IH];
    intros at0 s cs k res; simpl.
  - intros H. exists at0, s, cs. split; [exact H|].
    repeat split; auto; discriminate.
  - destruct at0; [|discriminate]. intros H. exists true, s, cs.
    split; [exact H|]. repeat split; auto; discriminate.
  - destruct s as [|c s]; [discriminate|]. destruct (p c); [|discriminate].
    intros H. exists false, s, cs. split; [exact H|].
    repeat split; simpl; auto; try lia; discriminate.
  - intros H.
    destruct (IH1 _ _ _ _ _ H) as (b1 & s1 & cs1 & H1 & L1 & C1 & M1 & B1).
    destruct (IH2 _ _ _ _ _ H1) as (b2 & s2 & cs2 & H2 & L2 & C2 & M2 & B2).
    exists b2, s2, cs2. split; [exact H2|]. repeat split.
    + lia.
    + intros Hc. apply orb_true_iff in Hc as [Hc|Hc];
        [specialize (C1 Hc) | specialize (C2 Hc)]; lia.
    + intros i Hm. apply orb_false_iff in Hm as [Hm1 Hm2].
      rewrite (M2 i Hm2). apply M1, Hm1.
    + intros i Hb. apply orb_true_iff in Hb as [Hb|Hb]; [|apply B2, Hb].
      apply andb_true_iff in Hb as [Hb Hm]. apply negb_true_iff in Hm.
      rewrite (M2 i Hm). apply B1, Hb.
  - destruct (run r1 at0 s cs k) as [r|] eqn:E.
    + intros [= <-].
      destruct (IH1 _ _ _ _ _ E) as (b & s' & cs' & H1 & L1 & C1 & M1 & B1).
      exists b, s', cs'. split; [exact H1|]. repeat split.
      * exact L1.
      * intros Hc. apply andb_true_iff in Hc as [Hc _]. auto.
      * intros i Hm. apply orb_false_iff in Hm as [Hm _]. auto.
      * intros i Hb. apply andb_true_iff in Hb as [Hb _]. auto.
    + intros H.
      destruct (IH2 _ _ _ _ _ H) as (b & s' & cs' & H2 & L2 & C2 & M2 & B2).
      exists b, s', cs'. split; [exact H2|]. repeat split.
      * exact L2.
      * intros Hc. apply andb_true_iff in Hc as [_ Hc]. auto.
      * intros i Hm. apply orb_false_iff in Hm as [_ Hm]. auto.
      * intros i Hb. apply andb_true_iff in Hb as [_ Hb]. auto.
  - intros H. destruct (star_calls _ _ _ _ _ _ H) as (b & s' & Hk & Hlen).
    exists b, s', cs. split; [exact Hk|].
    repeat split; auto; discriminate.
  - intros H.
    destruct (IH _ _ _ _ _ H) as (b & s' & cs' & Hk & L & C & M & B).
    eexists b, s', _. split; [exact Hk|]. repeat split.
    + exact L.
    + exact C.
    + intros i Hm. apply orb_false_iff in Hm as [Hij Hm]. simpl.
      rewrite Hij. apply M, Hm.
    + intros i. simpl. destruct (Nat.eqb i j).
      * intros Hc. specialize (C Hc). apply take_positive; [lia|].
        destruct s; [simpl in C; lia | discriminate].
      * apply B.
Qed.

Lemma search_runs (r : regex) (s : string) :
  forall (at0 : bool) (res : string * caps),
    search r at0 s = Some res ->
    exists b s0, run r b s0 [] accept = Some res.
Proof.
  induction s as [|c s IH]; intros at0 res; simpl.
  - destruct (run r at0 "" [] accept) eqn:E; [|discriminate].
    intros [= <-]. eauto.
  - destruct (run r at0 (String c s) [] accept) eqn:E.
    + intros [= <-]. eauto.
    + apply IH.
Qed.

Lemma at_submatches (r : regex) (cs : caps) (i : nat) :
  (i <= groups r)%nat -> at_ (submatches r cs) i = capture i cs.
Proof.
  intros Hi. unfold at_, submatches.
  rewrite (nth_indep _ "" (capture 0 cs))
    by (rewrite length_map, length_seq; lia).
  rewrite (map_nth (fun j => capture j cs)).
  rewrite seq_nth by lia. reflexivity.
Qed.

(** A group that every match binds to a non-empty string is non-empty in
    the slice returned by [FindStringSubmatch]. *)
Lemma FindStringSubmatch_binds (r : regex) (i : nat) (s : string)
    (m : list string) :
  FindStringSubmatch r s = Some m ->
  binds i (Group 0 r) = true -> (i <= groups r)%nat ->
  at_ m i <> "".
Proof.
  unfold FindStringSubmatch. intros H Hb Hi.
  destruct (search (Group 0 r) true s) as [[rest cs]|] eqn:E; [|discriminate].
  injection H as <-. rewrite at_submatches by exact Hi.
  destruct (search_runs _ _ _ _ E) as (b & s0 & Hrun).
  destruct (run_calls _ _ _ _ _ _ Hrun) as (b' & s' & cs' & Hk & _ & _ & _ & B).
  unfold accept in Hk. injection Hk as _ <-. apply B, Hb.
Qed.

End Captures.

(** ** The fuel of [FindAllStringSubmatch] is enough *)

Lemma search_rest (r : Regexp.regex) (s : string) :
  forall (at0 : bool) (rest : string) (cs : Regexp.caps),
    Regexp.search r at0 s = Some (rest, cs) ->
    (String.length rest <= String.length s)%nat.
Proof.
  induction s as [|c s IH]; intros at0 rest cs; simpl.
  - destruct (Regexp.run r at0 "" [] Regexp.accept) as [res|] eqn:E;
      [|discriminate].
    intros [= ->].
    destruct (run_calls _ _ _ _ _ _ E) as (b & s' & cs' & Hk & L & _).
    injection Hk as -> _. exact L.
  - destruct (Regexp.run r at0 (String c s) [] Regexp.accept) as [res|] eqn:E.
    + intros [= ->].
      destruct (run_calls _ _ _ _ _ _ E) as (b & s' & cs' & Hk & L & _).
      injection Hk as -> _. exact L.
    + intros H. specialize (IH _ _ _ H). simpl. lia.
Qed.

(** Any fuel above the length of the text gives the same matches. *)
Lemma find_all_fuel (r : Regexp.regex) (fuel : nat) :
  forall (fuel' : nat) (at0 after : bool) (s : string),
    (String.length s < fuel)%nat -> (String.length s < fuel')%nat ->
    Regexp.find_all fuel r at0 after s = Regexp.find_all fuel' r at0 after s.
Proof.
  induction fuel as [|fuel IH]; intros fuel' at0 after s H H'; [lia|].
  destruct fuel' as [|fuel']; [lia|]. simpl.
  destruct (Regexp.search r at0 s) as [[rest cs]|] eqn:E; [|reflexivity].
  pose proof (search_rest _ _ _ _ _ E) as Hrest.
  destruct (Nat.eqb (String.length rest) (String.length s)) eqn:Heq.
  - destruct s as [|c s]; [reflexivity|]. simpl in H, H'.
    rewrite (IH fuel') by lia. reflexivity.
  - apply Nat.eqb_neq in Heq. rewrite (IH fuel') by lia. reflexivity.
Qed.
(** ** Properties kept by every write of the extractors *)

Lemma fold_left_invariant {A B : Type} (J : A -> Prop) (step : A -> B -> A)
    (l : list B) (init : A) :
  (forall a b, J a -> J (step a b)) -> J init -> J (fold_left step l init).
Proof.
  intros Hstep. revert init.
  induction l as [|b l IH]; simpl; intros init Hinit; [exact Hinit|].
  apply IH, Hstep, Hinit.
Qed.

Lemma on_match_invariant {A : Type} (J : A -> Prop) (r : Regexp.regex)
      (line : string) (f : list string -> A -> A) (a : A) :
    (forall m x, Regexp.FindStringSubmatch r line = Some m -> J x -> J (f m x)) ->
    J a -> J (on_match r line f a).
Proof.
    intros Hf Ha. unfold on_match.
    destruct (Regexp.FindStringSubmatch r line) eqn:E; auto.
Qed.

Lemma nonempty_true (s : string) : nonempty s = true -> s <> "".
Proof.
    unfold nonempty, GoStrings.eqb. intros H ->. discriminate.
Qed.

(** The version written is a non-empty capture, or has been tested to be
      non-empty. *)
Ltac version_nonempty :=
    first
      [ eapply FindStringSubmatch_binds;
        [eassumption | reflexivity | simpl; lia]
      | match goal with
        | H : (_ && nonempty ?v) = true |- ?v <> "" =>
            apply andb_true_iff in H as [_ H]; apply nonempty_true; exact H
        end ].

Section Preservation.

(** A property of the record under construction that each kind of write
    keeps.  [Version] is only ever written together with a literal,
    non-empty [VersionSource]; the version written is non-empty, except in
    extractFromAutotools, which trims it after matching. *)
Variable I : ProjectMetadata -> Prop.
Hypothesis I_Name : forall v m, I m -> I (set_Name v m).
Hypothesis I_Version :
  forall v src m,
    src <> "" -> src <> "configure.ac" -> v <> "" -> I m ->
    I (set_Version v src m).
Hypothesis I_Version_autotools :
  forall v m, I m -> I (set_Version v "configure.ac" m).
Hypothesis I_Description : forall v m, I m -> I (set_Description v m).
Hypothesis I_Homepage : forall v m, I m -> I (set_Homepage v m).
Hypothesis I_License : forall v m, I m -> I (set_License v m).
Hypothesis I_ls :
  forall k v m, other_key k = true -> I m -> I (set_ls k v m).
Hypothesis I_dependencies : forall l m, I m -> I (store_dependencies l m).

Ltac write :=
  repeat first
    [ assumption
    | apply I_Name
    | apply I_Description
    | apply I_Homepage
    | apply I_License
    | apply I_dependencies
    | apply I_ls; [reflexivity|]
    | apply I_Version_autotools
    | apply I_Version; [discriminate | discriminate | version_nonempty |]
    | apply on_match_invariant; [intros ? ? ? ?|]
    | match goal with
      | |- I (if ?b then _ else _) => destruct b eqn:?
      | |- I (match ?x with Some _ => _ | None => _ end) => destruct x eqn:?
      end ].

Lemma store_list_invariant k l m :
  other_key k = true -> I m -> I (store_list k l m).
Proof. intros Hk Hm. unfold store_list. destruct (0 <? llen l); auto. Qed.

(** *** C/C++ *)

Lemma cmake_line_invariant st text :
  I (Cpp.cm_metadata st) -> I (Cpp.cm_metadata (Cpp.cmake_line st text)).
Proof.
  intros H. unfold Cpp.cmake_line.
  destruct (GoStrings.HasPrefix _ _); [exact H|]. simpl.
  unfold Cpp.cmake_project. write.
Qed.

Lemma extractFromCMake_invariant fs path md :
  I md -> I (fst (Cpp.extractFromCMake fs path md)).
Proof.
  intros H. unfold Cpp.extractFromCMake.
  destruct (fs path) as [| |data]; try exact H.
  destruct (Scanner.scan data) as [lines [e|]]; simpl.
  - apply (fold_left_invariant (fun st => I (Cpp.cm_metadata st)));
      [intros; apply cmake_line_invariant; assumption | exact H].
  - apply I_dependencies.
    do 2 (apply store_list_invariant; [reflexivity|]).
    apply (fold_left_invariant (fun st => I (Cpp.cm_metadata st)));
      [intros; apply cmake_line_invariant; assumption | exact H].
Qed.

Lemma qmake_line_invariant md line : I md -> I (Cpp.qmake_line md line).
Proof.
  intros H. unfold Cpp.qmake_line, Cpp.on_match_gt1. write.
Qed.

Lemma extractFromQmake_invariant fs path md :
  I md -> I (fst (Cpp.extractFromQmake fs path md)).
Proof.
  intros H. unfold Cpp.extractFromQmake.
  destruct (fs path) as [| |data]; try exact H.
  destruct (Scanner.scan data) as [lines e]; simpl.
  apply fold_left_invariant; [intros; apply qmake_line_invariant|]; auto.
Qed.

Lemma meson_fields_invariant content md :
  I md -> I (Cpp.meson_fields content md).
Proof.
  intros H. unfold Cpp.meson_fields.
  apply I_dependencies.
  do 2 (apply store_list_invariant; [reflexivity|]).
  write.
Qed.

Lemma extractFromMeson_invariant fs path md :
  I md -> I (fst (Cpp.extractFromMeson fs path md)).
Proof.
  intros H. unfold Cpp.extractFromMeson.
  destruct (fs path); try exact H.
  apply meson_fields_invariant, H.
Qed.

Lemma autotools_line_invariant st text :
  I (fst st) -> I (fst (Cpp.autotools_line st text)).
Proof.
  intros H. unfold Cpp.autotools_line.
  destruct (_ || _); [exact H|]. simpl.
  unfold Cpp.ac_init. write.
Qed.

Lemma extractFromAutotools_invariant fs path md :
  I md -> I (fst (Cpp.extractFromAutotools fs path md)).
Proof.
  intros H. unfold Cpp.extractFromAutotools.
  destruct (fs path) as [| |data]; try exact H.
  destruct (Scanner.scan data) as [lines e]; simpl.
  apply I_dependencies.
  apply (fold_left_invariant (fun st => I (fst st)));
    [intros; apply autotools_line_invariant; assumption | exact H].
Qed.

(** What one attempt of [Extract] leaves: on success the labelled record,
    on failure the record as the parser left it. *)
Lemma try_build_file_shape fs path label parse md :
  (forall md', I md' -> I (fst (parse fs path md'))) ->
  I md ->
  match Cpp.try_build_file fs path label parse md with
  | inl md' =>
      exists m, md' = set_ls "build_system" (VString label) m /\ I m /\
                Stat (fs path) = true /\ snd (parse fs path md) = None
  | inr md' =>
      I md' /\ (Stat (fs path) = false \/ snd (parse fs path md) <> None)
  end.
Proof.
  intros Hparse H. unfold Cpp.try_build_file.
  destruct (Stat (fs path)); [|split; [exact H | left; reflexivity]].
  specialize (Hparse md H).
  destruct (parse fs path md) as [md' [e|]]; simpl in *.
  - split; [exact Hparse | right; discriminate].
  - exists md'. repeat split. exact Hparse.
Qed.

Lemma try_build_file_invariant fs path label parse md :
  (forall md', I md' -> I (fst (parse fs path md'))) ->
  I md ->
  match Cpp.try_build_file fs path label parse md with
  | inl md' | inr md' => I md'
  end.
Proof.
  intros Hparse H.
  pose proof (try_build_file_shape fs path label parse md Hparse H) as Hs.
  destruct (Cpp.try_build_file fs path label parse md) as [m|m].
  - destruct Hs as (m' & -> & Hm & _). apply I_ls; [reflexivity | exact Hm].
  - apply Hs.
Qed.

Theorem cpp_Extract_invariant fs md :
  I new_metadata -> Cpp.Extract fs = Ok md -> I md.
Proof.
  intros H0. unfold Cpp.Extract.
  pose proof (try_build_file_invariant fs "CMakeLists.txt" "CMake"
                Cpp.extractFromCMake new_metadata
                (extractFromCMake_invariant fs _) H0) as H1.
  destruct (Cpp.try_build_file fs "CMakeLists.txt" _ _ _) as [m1|m1];
    [intros [= <-]; exact H1|].
  pose proof (try_build_file_invariant fs ".qmake.conf" "qmake"
                Cpp.extractFromQmake m1
                (extractFromQmake_invariant fs _) H1) as H2.
  destruct (Cpp.try_build_file fs ".qmake.conf" _ _ _) as [m2|m2];
    [intros [= <-]; exact H2|].
  pose proof (try_build_file_invariant fs "meson.build" "Meson"
                Cpp.extractFromMeson m2
                (extractFromMeson_invariant fs _) H2) as H3.
  destruct (Cpp.try_build_file fs "meson.build" _ _ _) as [m3|m3];
    [intros [= <-]; exact H3|].
  pose proof (try_build_file_invariant fs "configure.ac" "Autotools"
                Cpp.extractFromAutotools m3
                (extractFromAutotools_invariant fs _) H3) as H4.
  destruct (Cpp.try_build_file fs "configure.ac" _ _ _) as [m4|m4];
    intros [= <-]; [exact H4|].
  apply I_ls; [reflexivity | exact H4].
Qed.

(** *** Scala *)

Lemma sbt_line_invariant st text :
  I (Scala.sb_metadata st) -> I (Scala.sb_metadata (Scala.sbt_line st text)).
Proof.
  intros H. unfold Scala.sbt_line.
  destruct (GoStrings.HasPrefix _ _); [exact H|].
  destruct (_ && _); [|destruct (Scala.sb_inLibraryDependencies st)];
    simpl; write.
Qed.

Lemma extractFromBuildSbt_invariant fs path md :
  I md -> I (fst (Scala.extractFromBuildSbt fs path md)).
Proof.
  intros H. unfold Scala.extractFromBuildSbt.
  destruct (fs path) as [| |data]; try exact H.
  destruct (Scanner.scan data) as [lines e]; simpl.
  assert (Hst : I (Scala.sb_metadata
                     (fold_left Scala.sbt_line lines
                        {| Scala.sb_metadata := md;
                           Scala.sb_dependencies := [];
                           Scala.sb_scalaVersion := "";
                           Scala.sb_inLibraryDependencies := false;
                           Scala.sb_parenDepth := 0 |}))).
  { apply (fold_left_invariant (fun st => I (Scala.sb_metadata st)));
      [intros; apply sbt_line_invariant; assumption | exact H]. }
  destruct e; simpl; [exact Hst|]. write.
Qed.

Lemma extractSbtVersion_invariant fs md :
  I md -> I (Scala.extractSbtVersion fs md).
Proof.
  intros H. unfold Scala.extractSbtVersion.
  destruct (fs _); try exact H. write.
Qed.

Lemma mill_line_invariant st text :
  I (Scala.ml_metadata st) -> I (Scala.ml_metadata (Scala.mill_line st text)).
Proof.
  intros H. unfold Scala.mill_line.
  destruct (GoStrings.HasPrefix _ _); [exact H|]. simpl. write.
Qed.

Lemma extractFromMill_invariant fs path md :
  I md -> I (fst (Scala.extractFromMill fs path md)).
Proof.
  intros H. unfold Scala.extractFromMill.
  destruct (fs path) as [| |data]; try exact H.
  destruct (Scanner.scan data) as [lines e]; simpl.
  assert (Hst : I (Scala.ml_metadata
                     (fold_left Scala.mill_line lines
                        {| Scala.ml_metadata := md;
                           Scala.ml_dependencies := [];
                           Scala.ml_scalaVersion := "" |}))).
  { apply (fold_left_invariant (fun st => I (Scala.ml_metadata st)));
      [intros; apply mill_line_invariant; assumption | exact H]. }
  destruct e; simpl; [exact Hst|]. write.
Qed.

Theorem scala_Extract_invariant fs md :
  I new_metadata -> Scala.Extract fs = Ok md -> I md.
Proof.
  intros H0. unfold Scala.Extract.
  pose proof (extractFromBuildSbt_invariant fs "build.sbt" _ H0) as H1.
  destruct (Stat (fs "build.sbt")).
  - destruct (Scala.extractFromBuildSbt fs "build.sbt" new_metadata)
      as [m1 [e|]]; simpl in H1.
    + pose proof (extractFromMill_invariant fs "build.sc" _ H1) as H2.
      destruct (Stat (fs "build.sc")).
      * destruct (Scala.extractFromMill fs "build.sc" m1) as [m2 [e'|]];
          simpl in H2; intros [= <-]; write.
      * intros [= <-]. write.
    + intros [= <-]. apply extractSbtVersion_invariant. write.
  - pose proof (extractFromMill_invariant fs "build.sc" _ H0) as H2.
    destruct (Stat (fs "build.sc")).
    + destruct (Scala.extractFromMill fs "build.sc" new_metadata)
        as [m2 [e'|]]; simpl in H2; intros [= <-]; write.
    + intros [= <-]. write.
Qed.

(** *** Elixir *)

Lemma mix_line_invariant st text :
  I (Elixir.mx_metadata st) ->
  I (Elixir.mx_metadata (Elixir.mix_line st text)).
Proof.
  intros H. unfold Elixir.mix_line.
  destruct (GoStrings.HasPrefix _ _); [exact H|]. simpl.
  unfold Elixir.link_homepage. write.
Qed.

Lemma extractFromMixExs_invariant fs path md :
  I md -> I (fst (Elixir.extractFromMixExs fs path md)).
Proof.
  intros H. unfold Elixir.extractFromMixExs.
  destruct (fs path) as [| |data]; try exact H.
  destruct (Scanner.scan data) as [lines e]; simpl.
  assert (Hst : I (Elixir.mx_metadata
                     (fold_left Elixir.mix_line lines
                        {| Elixir.mx_metadata := md;
                           Elixir.mx_dependencies := [];
                           Elixir.mx_inPackageBlock := false;
                           Elixir.mx_inLinksBlock := false;
                           Elixir.mx_elixirVersion := "" |}))).
  { apply (fold_left_invariant (fun st => I (Elixir.mx_metadata st)));
      [intros; apply mix_line_invariant; assumption | exact H]. }
  destruct e; simpl; [exact Hst|]. write.
Qed.

Theorem elixir_Extract_invariant fs md :
  I new_metadata -> Elixir.Extract fs = Ok md -> I md.
Proof.
  intros H0. unfold Elixir.Extract.
  pose proof (extractFromMixExs_invariant fs "mix.exs" _ H0) as H1.
  destruct (Stat (fs "mix.exs")).
  - destruct (Elixir.extractFromMixExs fs "mix.exs" new_metadata)
      as [m1 [e|]]; simpl in H1; [discriminate|].
    intros [= <-]. write.
  - intros [= <-]. write.
Qed.

End Preservation.

(** ** [LanguageSpecific] is allocated *)

Lemma allocated_set_ls k v md : allocated md -> allocated (set_ls k v md).
Proof.
  unfold allocated, set_ls. intros H.
  destruct (LanguageSpecific md) eqn:E; simpl; congruence.
Qed.

Lemma allocated_store_dependencies l md :
  allocated md -> allocated (store_dependencies l md).
Proof.
  intros H. unfold store_dependencies.
  destruct (0 <? llen l); [|exact H].
  do 2 apply allocated_set_ls. exact H.
Qed.

Lemma allocated_new : allocated new_metadata.
Proof. discriminate. Qed.

(** On an allocated map a write is read back ([set_ls] never takes the
    nil branch). *)
Lemma get_set_ls k v md :
  allocated md -> get_ls k (set_ls k v md) = Some v.
Proof.
  unfold allocated, get_ls, set_ls. intros H.
  destruct (LanguageSpecific md) as [ls|]; [|congruence].
  simpl. apply lookup_insert_eq.
Qed.

(** C3.  Whenever the C/C++, Scala or Elixir [Extract] succeeds, the
    [LanguageSpecific] map of the returned record is not nil. *)
Theorem Extract_LanguageSpecific_not_nil (fs : dir) (md : ProjectMetadata) :
  Cpp.Extract fs = Ok md \/ Scala.Extract fs = Ok md \/
  Elixir.Extract fs = Ok md ->
  LanguageSpecific md <> None.
Proof.
  assert (Hs : forall k v m, allocated m -> allocated (set_ls k v m))
    by (intros; apply allocated_set_ls; assumption).
  intros [H|[H|H]]; revert H;
    [ apply (cpp_Extract_invariant allocated)
    | apply (scala_Extract_invariant allocated)
    | apply (elixir_Extract_invariant allocated) ];
    auto using allocated_new, allocated_store_dependencies.
Qed.

Lemma Extract_LanguageSpecific_not_nil_witness :
  exists md,
    Elixir.Extract (Fixtures.single "mix.exs" (Contents Fixtures.mix_exs))
      = Ok md /\
    LanguageSpecific md <> None.
Proof.
  eexists. split; [vm_compute; reflexivity|].
  eapply (Extract_LanguageSpecific_not_nil
            (Fixtures.single "mix.exs" (Contents Fixtures.mix_exs))).
  right. right. vm_compute. reflexivity.
Defined.

(** ** Count fields *)

Lemma counted_new : counted new_metadata.
Proof.
  exists ∅. split; [reflexivity|]. split.
  - intros k [v Hv]. rewrite lookup_empty in Hv. discriminate.
  - left. split; apply lookup_empty.
Qed.

Lemma other_key_not_dependencies k :
  other_key k = true -> k <> "dependencies" /\ k <> "dependency_count".
Proof.
  intros H. split; intros ->; vm_compute in H; discriminate.
Qed.

Lemma counted_set_ls k v md :
  other_key k = true -> counted md -> counted (set_ls k v md).
Proof.
  intros Hk (ls & E & Hkeys & Hdeps).
  destruct (other_key_not_dependencies k Hk) as [Hne1 Hne2].
  unfold set_ls. rewrite E.
  exists (<[k:=v]> ls). split; [reflexivity|]. split.
  - intros k' Hs. destruct (decide (k = k')) as [<-|Hne]; [auto|].
    rewrite lookup_insert_ne in Hs by exact Hne. apply Hkeys, Hs.
  - unfold dependencies_counted.
    rewrite !lookup_insert_ne by assumption. exact Hdeps.
Qed.

Lemma counted_store_dependencies l md :
  counted md -> counted (store_dependencies l md).
Proof.
  intros (ls & E & Hkeys & Hdeps). unfold store_dependencies.
  destruct (0 <? llen l); [|exists ls; auto].
  unfold set_ls at 2. rewrite E. unfold set_ls. simpl.
  eexists. split; [reflexivity|]. split.
  - intros k Hs.
    destruct (decide ("dependency_count" = k)) as [<-|Hne1]; [auto|].
    destruct (decide ("dependencies" = k)) as [<-|Hne2]; [auto|].
    rewrite !lookup_insert_ne in Hs by assumption. apply Hkeys, Hs.
  - right. exists l. split.
    + rewrite lookup_insert_ne by discriminate. apply lookup_insert_eq.
    + apply lookup_insert_eq.
Qed.

Lemma count_field_is_dependency_count k :
  is_count_field k = true ->
  k = "dependencies" \/ k = "dependency_count" \/ other_key k = true ->
  k = "dependency_count".
Proof.
  intros Hc [->|[->|Hk]]; [vm_compute in Hc; discriminate | reflexivity |].
  unfold other_key in Hk. apply existsb_exists in Hk as (x & Hin & Heq).
  apply String.eqb_eq in Heq. subst x. unfold other_keys in Hin.
  repeat (destruct Hin as [<-|Hin]; [vm_compute in Hc; discriminate|]).
  destruct Hin.
Qed.

Lemma Extract_counted (fs : dir) (md : ProjectMetadata) :
  Cpp.Extract fs = Ok md \/ Scala.Extract fs = Ok md \/
  Elixir.Extract fs = Ok md ->
  counted md.
Proof.
  assert (Hf : forall m m', LanguageSpecific m' = LanguageSpecific m ->
                            counted m -> counted m').
  { intros m m' E (ls & E' & H). exists ls. split; [congruence | exact H]. }
  intros [H|[H|H]]; revert H;
    [ apply (cpp_Extract_invariant counted)
    | apply (scala_Extract_invariant counted)
    | apply (elixir_Extract_invariant counted) ];
    try (intros; eapply Hf; [|eassumption]; reflexivity);
    auto using counted_new, counted_store_dependencies, counted_set_ls.
Qed.

(** C4.  In a successful result of the C/C++, Scala or Elixir [Extract],
    every count field present in [LanguageSpecific] is [dependency_count];
    its sequence [dependencies] is present as well and the count equals
    the length of that sequence. *)
Theorem count_fields_equal_lengths (fs : dir) (md : ProjectMetadata)
    (k : string) (c : value) :
  Cpp.Extract fs = Ok md \/ Scala.Extract fs = Ok md \/
  Elixir.Extract fs = Ok md ->
  is_count_field k = true ->
  get_ls k md = Some c ->
  k = "dependency_count" /\
  exists l : list string,
    get_ls "dependencies" md = Some (VStrings l) /\ c = VInt (llen l).
Proof.
  intros Hex Hk Hc.
  destruct (Extract_counted fs md Hex) as (ls & E & Hkeys & Hdeps).
  unfold get_ls in *. rewrite E in *.
  assert (k = "dependency_count") as ->.
  { apply count_field_is_dependency_count; [exact Hk|].
    apply Hkeys. rewrite Hc. eauto. }
  split; [reflexivity|].
  destruct Hdeps as [[_ Hnone]|(l & Hd & Hn)]; [congruence|].
  exists l. split; [exact Hd | congruence].
Qed.

Lemma count_fields_equal_lengths_witness :
  exists md,
    Cpp.Extract (Fixtures.single "CMakeLists.txt"
                   (Contents Fixtures.cmake_with_dependencies)) = Ok md /\
    get_ls "dependency_count" md = Some (VInt 3) /\
    "dependency_count" = "dependency_count" /\
    exists l : list string,
      get_ls "dependencies" md = Some (VStrings l) /\ VInt 3 = VInt (llen l).
Proof.
  eexists. split; [vm_compute; reflexivity|].
  split; [vm_compute; reflexivity|].
  eapply (count_fields_equal_lengths
            (Fixtures.single "CMakeLists.txt"
               (Contents Fixtures.cmake_with_dependencies))).
  - left. vm_compute. reflexivity.
  - reflexivity.
  - vm_compute. reflexivity.
Defined.

(** ** Version and VersionSource *)

Lemma sourced_new : sourced new_metadata.
Proof. split; intros H; exact H. Qed.

Lemma sourced_same (m m' : ProjectMetadata) :
  Version m' = Version m /\ VersionSource m' = VersionSource m ->
  sourced m -> sourced m'.
Proof. unfold sourced. intros [-> ->]. auto. Qed.

Lemma sourced_unless_same (m m' : ProjectMetadata) :
  Version m' = Version m /\ VersionSource m' = VersionSource m ->
  sourced_unless_autotools m -> sourced_unless_autotools m'.
Proof. unfold sourced_unless_autotools, sourced. intros [-> ->]. auto. Qed.

Lemma version_kept_by_set_ls k v md :
  Version (set_ls k v md) = Version md /\
  VersionSource (set_ls k v md) = VersionSource md.
Proof. unfold set_ls. destruct (LanguageSpecific md); split; reflexivity. Qed.

Lemma version_kept_by_store_dependencies l md :
  Version (store_dependencies l md) = Version md /\
  VersionSource (store_dependencies l md) = VersionSource md.
Proof.
  unfold store_dependencies. destruct (0 <? llen l); [|split; reflexivity].
  destruct (version_kept_by_set_ls "dependency_count" (VInt (llen l))
              (set_ls "dependencies" (VStrings l) md)) as [-> ->].
  apply version_kept_by_set_ls.
Qed.

Ltac sourced_write :=
  intros;
  first
    [ (eapply sourced_same || eapply sourced_unless_same); [|eassumption];
      first [ split; reflexivity | apply version_kept_by_set_ls
            | apply version_kept_by_store_dependencies ]
    | unfold sourced_unless_autotools, sourced; simpl;
      repeat split; intros; first [assumption | congruence] ].

(** In the Scala and the Elixir extractor the invariant holds as the spec
    states it: the patterns capture a non-empty version, and the source is
    written with it. *)
Lemma Extract_sourced (fs : dir) (md : ProjectMetadata) :
  Scala.Extract fs = Ok md \/ Elixir.Extract fs = Ok md -> sourced md.
Proof.
  intros [H|H]; revert H;
    [ apply (scala_Extract_invariant sourced)
    | apply (elixir_Extract_invariant sourced) ];
    try exact sourced_new; sourced_write.
Qed.

(** In the C/C++ extractor a version always has a source, and a source
    other than configure.ac always has a version. *)
Lemma cpp_Extract_sourced (fs : dir) (md : ProjectMetadata) :
  Cpp.Extract fs = Ok md -> sourced_unless_autotools md.
Proof.
  apply (cpp_Extract_invariant sourced_unless_autotools);
    try (split; [intros H; exact H | intros _; exact sourced_new]);
    sourced_write.
Qed.

(** C5.  The invariant fails in extractFromAutotools: for a configure.ac
    whose [AC_INIT] has a blank version argument, the version group
    matches the blank, [strings.TrimSpace] empties it, and [Version] is
    left empty while [VersionSource] is set to [configure.ac]. *)
Theorem autotools_blank_version_has_source :
  exists md,
    Cpp.Extract (Fixtures.single "configure.ac"
                   (Contents Fixtures.autotools_blank_version)) = Ok md /\
    Name md = "mytool" /\
    Version md = "" /\
    VersionSource md = "configure.ac" /\
    get_ls "build_system" md = Some (VString "Autotools") /\
    ~ sourced md.
Proof.
  eexists. split; [vm_compute; reflexivity|].
  repeat split; try (vm_compute; reflexivity).
  unfold sourced. intros [H _]. apply H; [discriminate | reflexivity].
Qed.

(** ** Errors of [Extract] *)


Lemma scans_Stat f : scans f = true -> Stat f = true.
Proof. destruct f; simpl; (discriminate || reflexivity). Qed.

Lemma fold_left_invariant_in {A B : Type} (J : A -> Prop) (step : A -> B -> A)
    (l : list B) (init : A) :
  (forall a b, In b l -> J a -> J (step a b)) ->
  J init -> J (fold_left step l init).
Proof.
  revert init.
  induction l as [|b l IH]; simpl; intros init Hstep Hinit; [exact Hinit|].
  apply IH; [intros; apply Hstep; auto | apply Hstep; auto].
Qed.

Lemma on_match_field {A : Type} (g : ProjectMetadata -> A) r line f md :
  (forall m x, g (f m x) = g x) -> g (on_match r line f md) = g md.
Proof.
  intros Hf. unfold on_match.
  destruct (Regexp.FindStringSubmatch r line); auto.
Qed.





(** ** When the parsers of the C/C++ extractor fail *)

Lemma extractFromCMake_error fs path md :
  snd (Cpp.extractFromCMake fs path md) = None <-> scans (fs path) = true.
Proof.
  unfold Cpp.extractFromCMake, scans.
  destruct (fs path) as [| |data]; simpl; try (split; discriminate).
  destruct (Scanner.scan data) as [lines [e|]]; simpl;
    split; (discriminate || reflexivity).
Qed.

Lemma extractFromQmake_error fs path md :
  snd (Cpp.extractFromQmake fs path md) = None <-> scans (fs path) = true.
Proof.
  unfold Cpp.extractFromQmake, scans.
  destruct (fs path) as [| |data]; simpl; try (split; discriminate).
  destruct (Scanner.scan data) as [lines [e|]]; simpl;
    split; (discriminate || reflexivity).
Qed.

Lemma extractFromMeson_error fs path md :
  snd (Cpp.extractFromMeson fs path md) = None <-> readable (fs path) = true.
Proof.
  unfold Cpp.extractFromMeson, readable.
  destruct (fs path); simpl; split; (discriminate || reflexivity).
Qed.

Lemma extractFromAutotools_error fs path md :
  snd (Cpp.extractFromAutotools fs path md) = None <-> scans (fs path) = true.
Proof.
  unfold Cpp.extractFromAutotools, scans.
  destruct (fs path) as [| |data]; simpl; try (split; discriminate).
  destruct (Scanner.scan data) as [lines [e|]]; simpl;
    split; (discriminate || reflexivity).
Qed.


Ltac allocated_parser lemma :=
  intros; apply (lemma allocated);
  auto using allocated_set_ls, allocated_store_dependencies.



(** ** Version matrices *)

(** C6.  The Terraform matrix of the constraints [>= 1.0.0] and [>= 1.5.0]
    is the six lines 1.5 to 1.10 (an end-of-life floor is clamped up to
    the oldest supported line), and that of the empty constraint is the
    three lines 1.8, 1.9, 1.10. *)
Theorem terraform_matrix_clamps_eol :
  Terraform.generateTerraformVersionMatrix ">= 1.0.0"
  = ["1.5"; "1.6"; "1.7"; "1.8"; "1.9"; "1.10"] /\
  Terraform.generateTerraformVersionMatrix ">= 1.5.0"
  = ["1.5"; "1.6"; "1.7"; "1.8"; "1.9"; "1.10"] /\
  Terraform.generateTerraformVersionMatrix "" = ["1.8"; "1.9"; "1.10"].
Proof. repeat split; vm_compute; reflexivity. Qed.

(** The remaining cases of TestGenerateTerraformVersionMatrix. *)
Example terraform_matrix_test_cases :
  map (fun c => length (Terraform.generateTerraformVersionMatrix c))
      ["~> 1.5.0"; "~> 1.3"; ">= 0.15.0"; ">= 99.0"]
  = [6; 6; 6; 3]%nat.
Proof. vm_compute. reflexivity. Qed.

(** C7, as stated, fails for Scala: an empty or unrecognised version is
    returned as the only entry of the matrix, so no default list exists. *)
Lemma scala_matrix_echoes_input :
  scala_recognised "" = false /\
  scala_recognised "2.10.7" = false /\
  Scala.generateScalaVersionMatrix "" = [""] /\
  Scala.generateScalaVersionMatrix "2.10.7" = ["2.10.7"] /\
  ~ (exists default : list string,
        Scala.generateScalaVersionMatrix "" = default /\
        Scala.generateScalaVersionMatrix "2.10.7" = default).
Proof.
  repeat split; try (vm_compute; reflexivity).
  intros (d & H1 & H2). vm_compute in H1, H2. congruence.
Qed.

(** C7, amended.  generateElixirVersionMatrix yields the default list
    1.14, 1.15, 1.16 for every requirement it does not recognise, the
    empty one included; generateScalaVersionMatrix has no default list and
    yields the version itself as the only entry. *)
Theorem version_matrix_fallbacks :
  (forall requirement,
      elixir_recognised requirement = false ->
      Elixir.generateElixirVersionMatrix requirement
      = ["1.14"; "1.15"; "1.16"]) /\
  (forall version,
      scala_recognised version = false ->
      Scala.generateScalaVersionMatrix version = [version]).
Proof.
  split.
  - intros requirement. unfold elixir_recognised,
      Elixir.generateElixirVersionMatrix.
    set (parts := GoStrings.Split _ _).
    destruct (llen parts <? 2) eqn:Hlen; [reflexivity|].
    apply Z.ltb_ge in Hlen. apply Z.leb_le in Hlen. rewrite Hlen. simpl.
    destruct (GoStrings.eqb (at_ parts 0) "1"); [|reflexivity]. simpl.
    destruct (GoStrings.eqb (at_ parts 1) "16");
      [rewrite ?orb_true_r; discriminate|].
    destruct (GoStrings.eqb (at_ parts 1) "15");
      [rewrite ?orb_true_r; discriminate|].
    destruct (GoStrings.eqb (at_ parts 1) "14");
      [rewrite ?orb_true_r; discriminate|].
    destruct (GoStrings.eqb (at_ parts 1) "13");
      [rewrite ?orb_true_r; discriminate|].
    destruct (GoStrings.eqb (at_ parts 1) "12");
      [rewrite ?orb_true_r; discriminate|].
    reflexivity.
  - intros version. unfold scala_recognised,
      Scala.generateScalaVersionMatrix.
    set (parts := GoStrings.Split _ _).
    destruct (llen parts <? 2) eqn:Hlen; [reflexivity|].
    apply Z.ltb_ge in Hlen. apply Z.leb_le in Hlen. rewrite Hlen. simpl.
    destruct (GoStrings.eqb (at_ parts 0) "3"); [discriminate|].
    destruct (GoStrings.eqb (at_ parts 0) "2"); [|reflexivity]. simpl.
    destruct (GoStrings.eqb (at_ parts 1) "13");
      [rewrite ?orb_true_r; discriminate|].
    destruct (GoStrings.eqb (at_ parts 1) "12");
      [rewrite ?orb_true_r; discriminate|].
    destruct (GoStrings.eqb (at_ parts 1) "11");
      [rewrite ?orb_true_r; discriminate|].
    reflexivity.
Qed.

Lemma version_matrix_fallbacks_witness :
  Elixir.generateElixirVersionMatrix "" = ["1.14"; "1.15"; "1.16"] /\
  Elixir.generateElixirVersionMatrix "~> 2.0" = ["1.14"; "1.15"; "1.16"] /\
  Scala.generateScalaVersionMatrix "" = [""] /\
  Scala.generateScalaVersionMatrix "2.10.7" = ["2.10.7"].
Proof.
  destruct version_matrix_fallbacks as [Helixir Hscala].
  split; [apply Helixir; reflexivity|].
  split; [apply Helixir; reflexivity|].
  split; apply Hscala; reflexivity.
Defined.

(** ** Meson comments *)

Lemma no_newline_cons (c : ascii) (a : string) :
  no_newline (String c a)
  = negb (Ascii.eqb Chars.newline c) && no_newline a.
Proof.
  unfold no_newline.
  change (GoStrings.Contains (String c a) (String Chars.newline ""))
    with (Ascii.eqb Chars.newline c && GoStrings.HasPrefix a ""
          || GoStrings.Contains a (String Chars.newline "")).
  replace (GoStrings.HasPrefix a "") with true by (destruct a; reflexivity).
  rewrite andb_true_r, negb_orb. reflexivity.
Qed.

Lemma Split_cons (c sep : ascii) (s : string) :
  GoStrings.Split (String c s) sep
  = if Ascii.eqb c sep then "" :: GoStrings.Split s sep
    else match GoStrings.Split s sep with
         | p :: ps => String c p :: ps
         | [] => [String c ""]
         end.
Proof. reflexivity. Qed.

Lemma Split_line (a b : string) :
  no_newline a = true ->
  GoStrings.Split (a +:+ String Chars.newline b) Chars.newline
  = a :: GoStrings.Split b Chars.newline.
Proof.
  induction a as [|c a IH]; intros H.
  - change ("" +:+ String Chars.newline b) with (String Chars.newline b).
    rewrite Split_cons, Ascii.eqb_refl. reflexivity.
  - rewrite no_newline_cons in H. apply andb_true_iff in H as [Hc Ha].
    apply negb_true_iff in Hc. rewrite Ascii.eqb_sym in Hc.
    change (String c a +:+ String Chars.newline b)
      with (String c (a +:+ String Chars.newline b)).
    rewrite Split_cons, Hc, (IH Ha). reflexivity.
Qed.

Lemma strip_line_comment (text : string) :
  Cpp.strip_line (String "#" text) = "".
Proof. reflexivity. Qed.

Lemma stripMesonComments_comment_line (text rest : string) :
  no_newline text = true ->
  Cpp.stripMesonComments ("#" +:+ text +:+ String Chars.newline rest)
  = String Chars.newline (Cpp.stripMesonComments rest).
Proof.
  intros H. unfold Cpp.stripMesonComments.
  change ("#" +:+ text +:+ String Chars.newline rest)
    with (String "#" text +:+ String Chars.newline rest).
  rewrite Split_line by exact H.
  cbn [Cpp.write_lines]. rewrite strip_line_comment. reflexivity.
Qed.

Lemma Extract_meson_only (content : string) :
  Cpp.Extract (Fixtures.single "meson.build" (Contents content))
  = Ok (set_ls "build_system" (VString "Meson")
          (Cpp.meson_fields (Cpp.stripMesonComments content) new_metadata)).
Proof. reflexivity. Qed.

(** C8.  For a meson.build whose first line is a comment, whatever its
    text (a commented-out [executable('fake', ...)] in particular), and
    whose second line is [executable('real', 'main.cpp')], the extracted
    executables are exactly [real]; a [#] inside a quoted string is kept
    and the comment after the string is cut; on the file of
    TestExtractFromMesonWithComments only the uncommented declarations
    are extracted. *)
Theorem meson_commented_executable_ignored (text : string) :
  no_newline text = true ->
  (exists md,
      Cpp.Extract (Fixtures.single "meson.build"
                     (Contents (Fixtures.meson_commented text))) = Ok md /\
      get_ls "executables" md = Some (VStrings ["real"])) /\
  Cpp.strip_line
    "msg = 'This string has a # hash inside'  # but this is a comment"
  = "msg = 'This string has a # hash inside'  " /\
  (exists md,
      Cpp.Extract (Fixtures.single "meson.build"
                     (Contents Fixtures.meson_with_comments)) = Ok md /\
      Name md = "realapp" /\ Version md = "2.0.0" /\
      get_ls "executables" md = Some (VStrings ["realexe"]) /\
      get_ls "libraries" md = Some (VStrings ["reallib"]) /\
      get_ls "dependencies" md = Some (VStrings ["actual-lib"])).
Proof.
  intros H. split; [|split].
  - eexists. split; [apply Extract_meson_only|].
    unfold Fixtures.meson_commented.
    rewrite stripMesonComments_comment_line by exact H.
    vm_compute. reflexivity.
  - vm_compute. reflexivity.
  - eexists. split; [vm_compute; reflexivity|].
    vm_compute. auto 6.
Qed.

Lemma meson_commented_executable_ignored_witness :
  exists md,
    Cpp.Extract
      (Fixtures.single "meson.build"
         (Contents (Fixtures.meson_commented " executable('fake', 'old.cpp')")))
    = Ok md /\
    get_ls "executables" md = Some (VStrings ["real"]).
Proof.
  apply (meson_commented_executable_ignored " executable('fake', 'old.cpp')").
  reflexivity.
Defined.

(** ** Dependencies of a build.sbt *)



(** A declaration over several lines (TestExtractFromBuildSbt): each entry
    of the block is counted once, by the in-block pattern. *)
Example sbt_block_counted :
  exists md,
    Scala.Extract (Fixtures.single "build.sbt" (Contents Fixtures.sbt_block))
    = Ok md /\
    get_ls "dependencies" md
    = Some (VStrings ["org.typelevel:cats-core:2.10.0";
                      "org.scalatest:scalatest:3.2.17"]) /\
    get_ls "dependency_count" md = Some (VInt 2).
Proof. eexists. split; [vm_compute; reflexivity|]. vm_compute. auto. Qed.
(** ** sortMapKeys *)


Section SortMapKeys.

Local Open Scope nat_scope.

Import Summary.

Lemma ascii_compare_trans (a b c : ascii) (o : comparison) :
  Ascii.compare a b = o -> Ascii.compare b c = o -> Ascii.compare a c = o.
Proof.
  unfold Ascii.compare. destruct o; intros H1 H2.
  - apply N.compare_eq_iff in H1. apply N.compare_eq_iff in H2.
    apply N.compare_eq_iff. congruence.
  - apply N.compare_lt_iff in H1. apply N.compare_lt_iff in H2.
    apply N.compare_lt_iff. eapply N.lt_trans; eassumption.
  - apply N.compare_gt_iff in H1. apply N.compare_gt_iff in H2.
    apply N.compare_gt_iff. eapply N.lt_trans; eassumption.
Qed.

Lemma string_compare_lt_trans (a : string) :
  forall b c, String.compare a b = Lt -> String.compare b c = Lt ->
              String.compare a c = Lt.
Proof.
  induction a as [|x a IH]; intros [|y b] [|z c]; simpl;
    try discriminate; try reflexivity.
  destruct (Ascii.compare x y) eqn:Hxy; try discriminate;
    destruct (Ascii.compare y z) eqn:Hyz; try discriminate; intros H1 H2.
  - rewrite (ascii_compare_trans _ _ _ _ Hxy Hyz). eapply IH; eauto.
  - apply Ascii.compare_eq_iff in Hxy. subst y. rewrite Hyz. reflexivity.
  - apply Ascii.compare_eq_iff in Hyz. subst z. rewrite Hxy. reflexivity.
  - rewrite (ascii_compare_trans _ _ _ _ Hxy Hyz). reflexivity.
Qed.

Lemma ascending_trans (a b c : string) :
  ascending a b -> ascending b c -> ascending a c.
Proof.
  unfold ascending, String.leb. intros H1 H2.
  destruct (String.compare a b) eqn:Hab; try discriminate;
    destruct (String.compare b c) eqn:Hbc; try discriminate.
  - apply String.compare_eq_iff in Hab. subst b. rewrite Hbc. reflexivity.
  - apply String.compare_eq_iff in Hab. subst b. rewrite Hbc. reflexivity.
  - apply String.compare_eq_iff in Hbc. subst c. rewrite Hab. reflexivity.
  - rewrite (string_compare_lt_trans _ _ _ Hab Hbc). reflexivity.
Qed.

Lemma ltb_ascending (a b : string) : String.ltb a b = true -> ascending a b.
Proof.
  unfold ascending, String.ltb, String.leb.
  destruct (String.compare a b); (discriminate || reflexivity).
Qed.

Lemma not_ltb_ascending (a b : string) :
  String.ltb b a = false -> ascending a b.
Proof.
  unfold ascending, String.ltb, String.leb.
  rewrite (String.compare_antisym a b).
  destruct (String.compare b a); simpl; (discriminate || reflexivity).
Qed.

Lemma swap_middle (pre : list string) (x y : string) (mid ys : list string) :
  <[S (length pre) + length mid:=x]>
    (<[length pre:=y]> (pre ++ x :: mid ++ y :: ys))
  = pre ++ y :: mid ++ x :: ys.
Proof.
  rewrite (insert_app_r_alt pre) by lia. rewrite Nat.sub_diag.
  cbn [insert list_insert].
  rewrite (insert_app_r_alt pre) by lia.
  replace (S (length pre) + length mid - length pre)%nat
    with (S (length mid)) by lia.
  cbn [insert list_insert].
  rewrite (insert_app_r_alt mid) by lia. rewrite Nat.sub_diag.
  reflexivity.
Qed.

(** One pass of the inner loop from index [j] on: [x] is the entry at
    index [i], [mid] the entries already compared with it.  The pass
    leaves the least entry at index [i]. *)
Lemma inner_pass (pre : list string) (rest : list string) :
  forall (x : string) (mid : list string),
    Forall (ascending x) mid ->
    exists (m : string) (tail : list string),
      fold_left (fun ks j => swap_if_greater (length pre) j ks)
        (seq (S (length pre) + length mid) (length rest))
        (pre ++ x :: mid ++ rest)
      = pre ++ m :: tail /\
      Forall (ascending m) tail /\
      m :: tail ≡ₚ x :: mid ++ rest.
Proof.
  induction rest as [|y ys IH]; intros x mid Hmid.
  - exists x, mid. rewrite app_nil_r. simpl. auto.
  - cbn [length seq fold_left].
    assert (Hi : (pre ++ x :: mid ++ y :: ys) !! length pre = Some x)
      by (apply list_lookup_middle; reflexivity).
    assert (Hj : (pre ++ x :: mid ++ y :: ys) !! (S (length pre) + length mid)
                 = Some y).
    { replace (pre ++ x :: mid ++ y :: ys)
        with ((pre ++ x :: mid) ++ y :: ys)
        by (rewrite <- app_assoc; reflexivity).
      apply list_lookup_middle. rewrite length_app. simpl. lia. }
    unfold swap_if_greater at 2. rewrite Hi, Hj.
    replace (S (S (length pre) + length mid))
      with (S (length pre) + length (mid ++ [x]))
      by (rewrite length_app; simpl; lia).
    destruct (String.ltb y x) eqn:Hlt.
    + assert (E : <[S (length pre) + length mid:=x]>
                    (<[length pre:=y]> (pre ++ x :: mid ++ y :: ys))
                  = pre ++ y :: (mid ++ [x]) ++ ys)
        by (rewrite <- app_assoc; apply swap_middle).
      rewrite E.
      destruct (IH y (mid ++ [x])) as (m & tail & Hfold & Hmin & Hperm).
      { apply Forall_app. split.
        - eapply Forall_impl; [exact Hmid|].
          intros z Hz. eapply ascending_trans; [|exact Hz].
          apply ltb_ascending, Hlt.
        - constructor; [apply ltb_ascending, Hlt | constructor]. }
      replace (length (mid ++ [x])) with (length (mid ++ [y]))
        by (rewrite !length_app; reflexivity).
      exists m, tail. split; [|split; [exact Hmin|]].
      * rewrite <- Hfold. rewrite !length_app. reflexivity.
      * rewrite Hperm, <- app_assoc. simpl.
        rewrite <- !Permutation_middle. apply perm_swap.
    + destruct (IH x (mid ++ [y])) as (m & tail & Hfold & Hmin & Hperm).
      { apply Forall_app. split; [exact Hmid|].
        constructor; [apply not_ltb_ascending, Hlt | constructor]. }
      exists m, tail. split; [|split; [exact Hmin|]].
      * rewrite <- Hfold, <- app_assoc, !length_app. reflexivity.
      * rewrite Hperm, <- app_assoc. reflexivity.
Qed.

Lemma inner_loop_pass (pre : list string) (x : string) (rest : list string) :
  exists (m : string) (tail : list string),
    inner_loop (length pre) (pre ++ x :: rest) = pre ++ m :: tail /\
    Forall (ascending m) tail /\
    m :: tail ≡ₚ x :: rest.
Proof.
  destruct (inner_pass pre rest x [] (Forall_nil_2 _))
    as (m & tail & Hfold & Hmin & Hperm).
  exists m, tail. split; [|split; assumption].
  unfold inner_loop. rewrite <- Hfold. simpl.
  rewrite length_app. simpl.
  replace (length pre + S (length rest) - S (length pre))%nat
    with (length rest) by lia.
  rewrite Nat.add_0_r. reflexivity.
Qed.

Lemma outer_pass (n : nat) :
  forall (pre suffix : list string),
    length suffix = n ->
    exists sorted,
      fold_left (fun ks i => inner_loop i ks) (seq (length pre) n)
        (pre ++ suffix)
      = pre ++ sorted /\
      StronglySorted ascending sorted /\ sorted ≡ₚ suffix.
Proof.
  induction n as [|n IH]; intros pre suffix Hlen.
  - destruct suffix; [|discriminate]. exists []. simpl.
    repeat split; constructor.
  - destruct suffix as [|x rest]; [discriminate|].
    injection Hlen as Hlen. cbn [seq fold_left].
    destruct (inner_loop_pass pre x rest) as (m & tail & Hin & Hmin & Hperm).
    rewrite Hin.
    assert (Htail : length tail = n).
    { apply Permutation_length in Hperm. simpl in Hperm. lia. }
    destruct (IH (pre ++ [m]) tail Htail) as (s & Hfold & Hsorted & Hs).
    rewrite length_app in Hfold. simpl in Hfold.
    rewrite Nat.add_1_r in Hfold.
    rewrite <- app_assoc in Hfold. simpl in Hfold.
    exists (m :: s). split; [|split].
    + rewrite Hfold, <- app_assoc. reflexivity.
    + constructor; [exact Hsorted|]. rewrite Hs. exact Hmin.
    + rewrite Hs. exact Hperm.
Qed.

Lemma sort_loop_sorted (keys : list string) :
  StronglySorted ascending (sort_loop keys) /\ sort_loop keys ≡ₚ keys.
Proof.
  destruct (outer_pass (length keys) [] keys eq_refl) as (s & Hfold & Hs).
  unfold sort_loop. simpl in Hfold. rewrite Hfold. exact Hs.
Qed.

Lemma ascending_antisym (a b : string) :
  ascending a b -> ascending b a -> a = b.
Proof. apply String.leb_antisym. Qed.

(** X1.  Whatever the order in which the map is iterated, sortMapKeys
    returns the keys of the map, each once, in ascending byte order; the
    result does not depend on the iteration order. *)
Theorem sortMapKeys_sorted (m : gmap string string)
    (order order' : list string) :
  order ≡ₚ (map_to_list m).*1 ->
  order' ≡ₚ (map_to_list m).*1 ->
  StronglySorted ascending (sortMapKeys order) /\
  NoDup (sortMapKeys order) /\
  (forall k, k ∈ sortMapKeys order <-> is_Some (m !! k)) /\
  length (sortMapKeys order) = size m /\
  sortMapKeys order = sortMapKeys order'.
Proof.
  intros Horder Horder'. unfold sortMapKeys.
  destruct (sort_loop_sorted order) as [Hsorted Hperm].
  destruct (sort_loop_sorted order') as [Hsorted' Hperm'].
  split; [exact Hsorted|]. split; [|split; [|split]].
  - rewrite Hperm, Horder. apply NoDup_fst_map_to_list.
  - intros k. rewrite Hperm, Horder. rewrite list_elem_of_fmap. split.
    + intros ([k' v] & -> & Hin). apply elem_of_map_to_list in Hin. eauto.
    + intros [v Hv]. exists (k, v). split; [reflexivity|].
      apply elem_of_map_to_list, Hv.
  - rewrite Hperm, Horder, length_fmap. apply length_map_to_list.
  - apply (StronglySorted_unique_strong ascending); try assumption.
    + intros; apply ascending_antisym; assumption.
    + rewrite Hperm, Hperm', Horder, Horder'. reflexivity.
Qed.

End SortMapKeys.

Lemma sortMapKeys_sorted_witness :
  Summary.sortMapKeys ["z"; "m"; "a"] = Summary.sortMapKeys ["m"; "a"; "z"] /\
  length (Summary.sortMapKeys ["z"; "m"; "a"]) = 3%nat.
Proof.
  destruct (sortMapKeys_sorted
              (list_to_map [("z", "1"); ("m", "2"); ("a", "3")])
              ["z"; "m"; "a"] ["m"; "a"; "z"])
    as (_ & _ & _ & Hlen & Heq).
  - refine (bool_decide_unpack _ _). vm_compute. exact I.
  - refine (bool_decide_unpack _ _). vm_compute. exact I.
  - split; [exact Heq | exact Hlen].
Defined.

(** ** filterRelevantTools *)

Section FilterRelevantTools.

Import Summary.

Lemma pick_fold_lookup (allTools : gmap string string) (tools : list string) :
  forall (acc : gmap string string) (k : string),
    fold_left
      (fun relevant tool =>
         match allTools !! tool with
         | Some version => <[tool:=version]> relevant
         | None => relevant
         end)
      tools acc !! k
    = match (if decide (k ∈ tools) then allTools !! k else None) with
      | Some v => Some v
      | None => acc !! k
      end.
Proof.
  induction tools as [|t tools IH]; intros acc k.
  - cbn [fold_left]. destruct (decide (k ∈ [])) as [H|_]; [inversion H|].
    reflexivity.
  - cbn [fold_left]. rewrite IH.
    destruct (decide (k ∈ tools)) as [Hin|Hnot];
      destruct (decide (k ∈ t :: tools)) as [Hin'|Hnot'].
    + destruct (allTools !! k) as [v|] eqn:Ek; [reflexivity|].
      destruct (allTools !! t) as [v|] eqn:Et; [|reflexivity].
      apply lookup_insert_ne. congruence.
    + exfalso. apply Hnot'. right. exact Hin.
    + apply elem_of_cons in Hin' as [->|Hin']; [|contradiction].
      destruct (allTools !! t) as [v|] eqn:E; [|reflexivity].
      apply lookup_insert_eq.
    + destruct (allTools !! t); [|reflexivity].
      apply lookup_insert_ne. intros ->. apply Hnot'. left.
Qed.

(** A tool is picked exactly when it is listed and installed. *)
Lemma pick_lookup (tools : list string) (allTools : gmap string string)
    (k : string) :
  pick tools allTools !! k
  = if decide (k ∈ tools) then allTools !! k else None.
Proof.
  unfold pick. rewrite pick_fold_lookup, lookup_empty.
  destruct (decide (k ∈ tools)); [|reflexivity].
  destruct (allTools !! k); reflexivity.
Qed.

Lemma pick_subseteq (tools : list string) (allTools : gmap string string) :
  pick tools allTools ⊆ allTools.
Proof.
  apply map_subseteq_spec. intros k v. rewrite pick_lookup.
  destruct (decide (k ∈ tools)); [auto | discriminate].
Qed.

Lemma HasPrefix_app (s prefix : string) :
  GoStrings.HasPrefix s prefix = true -> exists rest, s = prefix +:+ rest.
Proof.
  revert s. induction prefix as [|a p IH]; intros s; simpl.
  - intros _. exists s. reflexivity.
  - destruct s as [|b s]; [discriminate|]. intros H.
    apply andb_true_iff in H as [Hab Hp]. apply Ascii.eqb_eq in Hab as <-.
    destruct (IH s Hp) as [rest ->]. exists rest. reflexivity.
Qed.

Lemma HasPrefix_prepend (prefix rest : string) :
  GoStrings.HasPrefix (prefix +:+ rest) prefix = true.
Proof.
  induction prefix as [|a p IH]; simpl.
  - destruct rest; reflexivity.
  - rewrite Ascii.eqb_refl. exact IH.
Qed.

(** X2.  filterRelevantTools only ever returns entries of [allTools]; it
    returns nothing for an empty project type or an empty tool map; for a
    Python project it reports pip alone (python3 is left out on purpose),
    and for a JavaScript project, although its type also starts with
    [java], it reports node, npm and yarn and never the Java tools. *)
Theorem filterRelevantTools_subset (projectType : string)
    (allTools : gmap string string) :
  filterRelevantTools projectType allTools ⊆ allTools /\
  (projectType = "" \/ allTools = ∅ ->
   filterRelevantTools projectType allTools = ∅) /\
  (GoStrings.HasPrefix projectType "python" = true ->
   forall k, filterRelevantTools projectType allTools !! k
             = if decide (k = "pip") then allTools !! k else None) /\
  (GoStrings.HasPrefix projectType "javascript" = true ->
   forall k, is_Some (filterRelevantTools projectType allTools !! k) ->
             k ∈ ["node"; "npm"; "yarn"]).
Proof.
  split; [|split; [|split]].
  - unfold filterRelevantTools.
    repeat match goal with
           | |- (if ?b then _ else _) ⊆ _ => destruct b
           end;
      first [apply pick_subseteq | apply map_empty_subseteq].
  - intros [Hty|Hall]; subst; unfold filterRelevantTools; [reflexivity|].
    rewrite map_size_empty, orb_true_r. reflexivity.
  - intros Hpy k. apply HasPrefix_app in Hpy as [rest ->].
    unfold filterRelevantTools. cbv beta zeta.
    rewrite (HasPrefix_prepend "python" rest).
    change (GoStrings.eqb ("python" +:+ rest) "") with false.
    cbn [orb].
    destruct (Nat.eqb (size allTools) 0) eqn:Hsize.
    + apply Nat.eqb_eq, map_size_empty_iff in Hsize. subst allTools.
      rewrite !lookup_empty. destruct (decide (k = "pip")); reflexivity.
    + rewrite pick_lookup.
      destruct (decide (k = "pip")) as [->|Hne];
        destruct (decide (_ ∈ ["pip"])) as [Hin|Hnot]; try reflexivity.
      * exfalso. apply Hnot. left.
      * apply list_elem_of_singleton in Hin. contradiction.
  - intros Hjs k. apply HasPrefix_app in Hjs as [rest ->].
    unfold filterRelevantTools. cbv beta zeta.
    rewrite (HasPrefix_prepend "javascript" rest).
    change (GoStrings.eqb ("javascript" +:+ rest) "") with false.
    change (GoStrings.HasPrefix ("javascript" +:+ rest) "python") with false.
    cbn [orb].
    destruct (Nat.eqb (size allTools) 0).
    + rewrite lookup_empty. intros [v Hv]. discriminate.
    + rewrite pick_lookup.
      destruct (decide (k ∈ ["node"; "npm"; "yarn"])); [auto|].
      intros [v Hv]. discriminate.
Qed.

Lemma filterRelevantTools_subset_witness :
  filterRelevantTools "python-modern"
    (list_to_map [("python3", "3.12"); ("pip", "24.0")]) !! "python3" = None /\
  filterRelevantTools "" (list_to_map [("pip", "24.0")]) = ∅.
Proof.
  destruct (filterRelevantTools_subset "python-modern"
              (list_to_map [("python3", "3.12"); ("pip", "24.0")]))
    as (_ & _ & Hpy & _).
  destruct (filterRelevantTools_subset ""
              (list_to_map [("pip", "24.0")])) as (_ & Hempty & _).
  split; [rewrite (Hpy eq_refl); reflexivity | apply Hempty; left; reflexivity].
Defined.

End FilterRelevantTools.

(** ** formatToolName *)

Section FormatToolName.

Import Summary.

Lemma append_assoc (a b c : string) :
  (a +:+ b) +:+ c = a +:+ (b +:+ c).
Proof.
  induction a as [|x a IH]; [reflexivity|].
  change (String x ((a +:+ b) +:+ c) = String x (a +:+ (b +:+ c))).
  rewrite IH. reflexivity.
Qed.

Lemma rev_onto_append (a b acc : string) :
  GoStrings.rev_onto (a +:+ b) acc
  = GoStrings.rev_onto b (GoStrings.rev_onto a acc).
Proof.
  revert acc. induction a as [|c a IH]; intros acc; [reflexivity|].
  apply IH.
Qed.

Lemma rev_onto_acc (s acc : string) :
  GoStrings.rev_onto s acc = GoStrings.rev s +:+ acc.
Proof.
  unfold GoStrings.rev. revert acc.
  induction s as [|c s IH]; intros acc; simpl; [reflexivity|].
  rewrite IH, (IH (String c "")), append_assoc. reflexivity.
Qed.

Lemma HasSuffix_append (a suffix : string) :
  HasSuffix (a +:+ suffix) suffix = true.
Proof.
  unfold HasSuffix, GoStrings.rev at 1.
  rewrite rev_onto_append, rev_onto_acc. apply HasPrefix_prepend.
Qed.

Lemma nameMap_values (tool display : string) :
  nameMap !! tool = Some display -> HasSuffix display " Version" = true.
Proof.
  intros H. apply elem_of_list_to_map_2 in H.
  repeat (apply elem_of_cons in H as [H|H];
          [injection H as -> ->; reflexivity|]).
  inversion H.
Qed.

Lemma nameMap_empty : nameMap !! "" = None.
Proof. reflexivity. Qed.

(** X3.  formatToolName labels every tool: whatever the tool name, as long
    as it is not empty the result ends in [ Version], for the names of the
    table as well as for the fallback; only the empty name gives an empty
    label. *)
Theorem formatToolName_suffix (tool : string) :
  (tool <> "" -> HasSuffix (formatToolName tool) " Version" = true) /\
  (formatToolName tool = "" <-> tool = "").
Proof.
  assert (Hsuffix : tool <> "" ->
                    HasSuffix (formatToolName tool) " Version" = true).
  { intros Hne. unfold formatToolName.
    destruct (nameMap !! tool) as [display|] eqn:E.
    - exact (nameMap_values _ _ E).
    - destruct tool as [|c rest]; [congruence|].
      rewrite <- append_assoc. apply HasSuffix_append. }
  split; [exact Hsuffix|]. split.
  - intros Hempty. destruct tool as [|c rest]; [reflexivity|].
    assert (H : HasSuffix (formatToolName (String c rest)) " Version" = true)
      by (apply Hsuffix; discriminate).
    rewrite Hempty in H. discriminate.
  - intros ->. reflexivity.
Qed.

Lemma formatToolName_suffix_witness :
  HasSuffix (formatToolName "ninja") " Version" = true.
Proof. apply (formatToolName_suffix "ninja"). discriminate. Defined.

End FormatToolName.

(** ** formatProjectType *)

Section FormatProjectType.

Import Summary.

Lemma HasPrefix_empty (s : string) : GoStrings.HasPrefix s "" = true.
Proof. destruct s; reflexivity. Qed.

Lemma Contains_byte_cons (c d : ascii) (s : string) :
  GoStrings.Contains (String c s) (String d "")
  = Ascii.eqb d c || GoStrings.Contains s (String d "").
Proof.
  change (GoStrings.Contains (String c s) (String d ""))
    with (Ascii.eqb d c && GoStrings.HasPrefix s ""
          || GoStrings.Contains s (String d "")).
  rewrite HasPrefix_empty, andb_true_r. reflexivity.
Qed.

Lemma Contains_byte_append (a b : string) (d : ascii) :
  GoStrings.Contains (a +:+ b) (String d "")
  = GoStrings.Contains a (String d "") || GoStrings.Contains b (String d "").
Proof.
  induction a as [|c a IH]; [reflexivity|].
  change (String c a +:+ b) with (String c (a +:+ b)).
  rewrite !Contains_byte_cons, IH, orb_assoc. reflexivity.
Qed.

(** No piece of [strings.Split(s, sep)] contains the separator. *)
Lemma Split_pieces (s : string) (sep : ascii) :
  Forall (fun p => GoStrings.Contains p (String sep "") = false)
         (GoStrings.Split s sep).
Proof.
  induction s as [|c s IH].
  - repeat constructor.
  - rewrite Split_cons. destruct (Ascii.eqb c sep) eqn:E.
    + constructor; [reflexivity | exact IH].
    + destruct (GoStrings.Split s sep) as [|p ps].
      * constructor; [|constructor].
        rewrite Contains_byte_cons, Ascii.eqb_sym, E. reflexivity.
      * inversion IH as [|? ? Hp Hps]; subst. constructor; [|exact Hps].
        rewrite Contains_byte_cons, Ascii.eqb_sym, E. exact Hp.
Qed.

Lemma Join_lacks (d : ascii) (sep : string) (elems : list string) :
  GoStrings.Contains sep (String d "") = false ->
  Forall (fun p => GoStrings.Contains p (String d "") = false) elems ->
  GoStrings.Contains (Join elems sep) (String d "") = false.
Proof.
  intros Hsep. induction 1 as [|e rest He Hrest IH]; [reflexivity|].
  destruct rest as [|e' rest]; [exact He|].
  change (Join (e :: e' :: rest) sep)
    with (e +:+ sep +:+ Join (e' :: rest) sep).
  rewrite !Contains_byte_append, He, Hsep, IH. reflexivity.
Qed.

Lemma ToUpper1_hyphen (c : ascii) :
  Ascii.eqb "-" c = false -> GoStrings.Contains (ToUpper1 c) "-" = false.
Proof.
  destruct c as [[] [] [] [] [] [] [] []]; vm_compute; congruence.
Qed.

Lemma capitalize_hyphen (part : string) :
  GoStrings.Contains part "-" = false ->
  GoStrings.Contains (capitalize part) "-" = false.
Proof.
  destruct part as [|c rest]; [reflexivity|].
  rewrite Contains_byte_cons. intros H. apply orb_false_iff in H as [Hc Hrest].
  unfold capitalize. rewrite Contains_byte_append, (ToUpper1_hyphen c Hc).
  exact Hrest.
Qed.

Lemma typeMap_values (projectType display : string) :
  typeMap !! projectType = Some display ->
  GoStrings.Contains display "-" = false.
Proof.
  intros H. apply elem_of_list_to_map_2 in H.
  repeat (apply elem_of_cons in H as [H|H];
          [injection H as -> ->; reflexivity|]).
  inversion H.
Qed.

(** X4.  The display name that formatProjectType gives a project type
    never contains a hyphen: the names of the table have none, and for
    any other type every hyphen is replaced by a space. *)
Theorem formatProjectType_no_hyphen (projectType : string) :
  GoStrings.Contains (formatProjectType projectType) "-" = false.
Proof.
  unfold formatProjectType.
  destruct (typeMap !! projectType) as [display|] eqn:E.
  - exact (typeMap_values _ _ E).
  - apply Join_lacks; [reflexivity|].
    apply Forall_map. eapply Forall_impl; [apply Split_pieces|].
    intros p Hp. apply capitalize_hyphen. exact Hp.
Qed.

End FormatProjectType.

(** ** Which build file decides *)

Lemma not_scans_Stat (f : file) : Stat f = false -> scans f = false.
Proof. destruct f; simpl; (discriminate || reflexivity). Qed.

Lemma not_readable_Stat (f : file) : Stat f = false -> readable f = false.
Proof. destruct f; simpl; (discriminate || reflexivity). Qed.

Lemma get_set_ls_other (k k' : string) (v : value) (md : ProjectMetadata) :
  k <> k' -> get_ls k (set_ls k' v md) = get_ls k md.
Proof.
  intros Hne. unfold get_ls, set_ls.
  destruct (LanguageSpecific md) as [ls|] eqn:E; simpl; [|rewrite E; reflexivity].
  apply lookup_insert_ne. congruence.
Qed.

Lemma get_ls_store_dependencies (k : string) (l : list string)
    (md : ProjectMetadata) :
  k <> "dependencies" -> k <> "dependency_count" ->
  get_ls k (store_dependencies l md) = get_ls k md.
Proof.
  intros H1 H2. unfold store_dependencies.
  destruct (0 <? llen l); [|reflexivity].
  rewrite !get_set_ls_other by assumption. reflexivity.
Qed.

(** One attempt of the C/C++ [Extract], for a parser that succeeds
    exactly on the files that [ok] accepts. *)
Lemma try_build_file_label fs path label parse md (ok : file -> bool) :
  (forall md', allocated md' -> allocated (fst (parse fs path md'))) ->
  (forall md', snd (parse fs path md') = None <-> ok (fs path) = true) ->
  (Stat (fs path) = false -> ok (fs path) = false) ->
  allocated md ->
  match Cpp.try_build_file fs path label parse md with
  | inl md' =>
      ok (fs path) = true /\
      get_ls "build_system" md' = Some (VString label)
  | inr md' => ok (fs path) = false /\ allocated md'
  end.
Proof.
  intros Hparse Hok Hstat H.
  pose proof (try_build_file_shape allocated fs path label parse md Hparse H)
    as Hs.
  destruct (Cpp.try_build_file fs path label parse md) as [m|m].
  - destruct Hs as (m' & -> & Hm & _ & Herr).
    split; [apply Hok in Herr; exact Herr | apply get_set_ls, Hm].
  - destruct Hs as [Hm [Hno|Herr]]; (split; [|exact Hm]).
    + apply Hstat, Hno.
    + destruct (ok (fs path)) eqn:E; [|reflexivity].
      exfalso. apply Herr. apply Hok. reflexivity.
Qed.

(** X5.  The C/C++ [Extract] labels the record with the first build file,
    in the order CMakeLists.txt, .qmake.conf, meson.build, configure.ac,
    that can be parsed to the end, and with [Makefile] when there is
    none: a build file that exists but cannot be read, or has a line the
    scanner rejects, is passed over in favour of the next one. *)
Theorem cpp_build_system_precedence (fs : dir) :
  exists md,
    Cpp.Extract fs = Ok md /\
    get_ls "build_system" md = Some (VString (build_system fs)).
Proof.
  unfold Cpp.Extract, build_system.
  pose proof (try_build_file_label fs "CMakeLists.txt" "CMake"
                Cpp.extractFromCMake new_metadata scans
                ltac:(allocated_parser extractFromCMake_invariant)
                (extractFromCMake_error fs _)
                (not_scans_Stat _) allocated_new) as H1.
  destruct (Cpp.try_build_file fs "CMakeLists.txt" _ _ _) as [m1|m1];
    destruct H1 as [-> H1]; [eauto|].
  pose proof (try_build_file_label fs ".qmake.conf" "qmake"
                Cpp.extractFromQmake m1 scans
                ltac:(allocated_parser extractFromQmake_invariant)
                (extractFromQmake_error fs _)
                (not_scans_Stat _) H1) as H2.
  destruct (Cpp.try_build_file fs ".qmake.conf" _ _ _) as [m2|m2];
    destruct H2 as [-> H2]; [eauto|].
  pose proof (try_build_file_label fs "meson.build" "Meson"
                Cpp.extractFromMeson m2 readable
                ltac:(allocated_parser extractFromMeson_invariant)
                (extractFromMeson_error fs _)
                (not_readable_Stat _) H2) as H3.
  destruct (Cpp.try_build_file fs "meson.build" _ _ _) as [m3|m3];
    destruct H3 as [-> H3]; [eauto|].
  pose proof (try_build_file_label fs "configure.ac" "Autotools"
                Cpp.extractFromAutotools m3 scans
                ltac:(allocated_parser extractFromAutotools_invariant)
                (extractFromAutotools_error fs _)
                (not_scans_Stat _) H3) as H4.
  destruct (Cpp.try_build_file fs "configure.ac" _ _ _) as [m4|m4];
    destruct H4 as [-> H4]; [eauto|].
  eexists. split; [reflexivity | apply get_set_ls, H4].
Qed.

Lemma extractFromBuildSbt_error fs path md :
  snd (Scala.extractFromBuildSbt fs path md) = None <-> scans (fs path) = true.
Proof.
  unfold Scala.extractFromBuildSbt, scans.
  destruct (fs path) as [| |data]; simpl; try (split; discriminate).
  destruct (Scanner.scan data) as [lines [e|]]; simpl;
    split; (discriminate || reflexivity).
Qed.

Lemma extractFromMill_error fs path md :
  snd (Scala.extractFromMill fs path md) = None <-> scans (fs path) = true.
Proof.
  unfold Scala.extractFromMill, scans.
  destruct (fs path) as [| |data]; simpl; try (split; discriminate).
  destruct (Scanner.scan data) as [lines [e|]]; simpl;
    split; (discriminate || reflexivity).
Qed.

(** What the Scala parsers leave alone in [LanguageSpecific]: reading a
    line of build.sbt writes no key but [organization], reading a line of
    build.sc writes none. *)
Lemma sbt_line_get_ls (k : string) st text :
  k <> "organization" ->
  get_ls k (Scala.sb_metadata (Scala.sbt_line st text))
  = get_ls k (Scala.sb_metadata st).
Proof.
  intros Hk. unfold Scala.sbt_line.
  destruct (GoStrings.HasPrefix _ _); [reflexivity|].
  destruct (_ && _); [|destruct (Scala.sb_inLibraryDependencies st)];
    cbn [Scala.sb_metadata];
    rewrite !(on_match_field (get_ls k));
    try reflexivity; intros; try reflexivity;
    apply get_set_ls_other; exact Hk.
Qed.

Lemma mill_line_get_ls (k : string) st text :
  get_ls k (Scala.ml_metadata (Scala.mill_line st text))
  = get_ls k (Scala.ml_metadata st).
Proof.
  unfold Scala.mill_line.
  destruct (GoStrings.HasPrefix _ _); [reflexivity|].
  cbn [Scala.ml_metadata]. apply on_match_field.
  intros m x. destruct (GoStrings.eqb (Name x) ""); reflexivity.
Qed.

Lemma fold_left_field {S B A : Type} (g : S -> A) (step : S -> B -> S)
    (l : list B) (init : S) :
  (forall s b, g (step s b) = g s) -> g (fold_left step l init) = g init.
Proof.
  intros Hstep. revert init.
  induction l as [|b l IH]; intros init; simpl; [reflexivity|].
  rewrite IH. apply Hstep.
Qed.

Lemma extractFromBuildSbt_get_ls (k : string) fs path md :
  ~ In k ["organization"; "scala_version"; "scala_version_matrix";
          "dependencies"; "dependency_count"] ->
  get_ls k (fst (Scala.extractFromBuildSbt fs path md)) = get_ls k md.
Proof.
  intros Hk. unfold Scala.extractFromBuildSbt.
  destruct (fs path) as [| |data]; try reflexivity.
  destruct (Scanner.scan data) as [lines e].
  assert (Hfold : forall init,
             get_ls k (Scala.sb_metadata (fold_left Scala.sbt_line lines init))
             = get_ls k (Scala.sb_metadata init)).
  { intros init.
    apply (fold_left_field (fun st => get_ls k (Scala.sb_metadata st))).
    intros. apply sbt_line_get_ls. intros ->. apply Hk. simpl. tauto. }
  destruct e; simpl; [apply Hfold|].
  rewrite get_ls_store_dependencies
    by (intros ->; apply Hk; simpl; tauto).
  destruct (nonempty _); [|apply Hfold].
  destruct (0 <? llen _);
    rewrite !get_set_ls_other by (intros ->; apply Hk; simpl; tauto);
    apply Hfold.
Qed.

Lemma extractFromMill_get_ls (k : string) fs path md :
  k <> "scala_version" -> k <> "dependencies" -> k <> "dependency_count" ->
  get_ls k (fst (Scala.extractFromMill fs path md)) = get_ls k md.
Proof.
  intros H1 H2 H3. unfold Scala.extractFromMill.
  destruct (fs path) as [| |data]; try reflexivity.
  destruct (Scanner.scan data) as [lines e].
  assert (Hfold : forall init,
             get_ls k (Scala.ml_metadata (fold_left Scala.mill_line lines init))
             = get_ls k (Scala.ml_metadata init)).
  { intros init.
    apply (fold_left_field (fun st => get_ls k (Scala.ml_metadata st))).
    intros. apply mill_line_get_ls. }
  destruct e; simpl; [apply Hfold|].
  rewrite get_ls_store_dependencies by assumption.
  destruct (nonempty _); [rewrite get_set_ls_other by assumption|];
    apply Hfold.
Qed.

Lemma extractSbtVersion_get_ls (k : string) fs md :
  k <> "sbt_version" ->
  get_ls k (Scala.extractSbtVersion fs md) = get_ls k md.
Proof.
  intros Hk. unfold Scala.extractSbtVersion.
  destruct (fs _); try reflexivity.
  apply on_match_field. intros. apply get_set_ls_other, Hk.
Qed.

Lemma extractSbtVersion_unreadable fs md :
  readable (fs "project/build.properties") = false ->
  Scala.extractSbtVersion fs md = md.
Proof.
  unfold Scala.extractSbtVersion, readable.
  destruct (fs _); (discriminate || reflexivity).
Qed.

Lemma get_ls_new (k : string) : get_ls k new_metadata = None.
Proof. apply lookup_empty. Qed.

(** X6.  The Scala [Extract] labels the record [SBT] when build.sbt can be
    parsed to the end, else [Mill] when build.sc can, else [unknown].
    The sbt version of project/build.properties is reported only in the
    first case: without a build.sbt that parses, the record has no
    [sbt_version], whatever project/build.properties holds. *)
Theorem scala_build_tool_precedence (fs : dir) :
  exists md,
    Scala.Extract fs = Ok md /\
    get_ls "build_tool" md = Some (VString (build_tool fs)) /\
    (get_ls "sbt_version" md <> None ->
     scans (fs "build.sbt") = true /\
     readable (fs "project/build.properties") = true).
Proof.
  assert (Hs : forall k v m, allocated m -> allocated (set_ls k v m))
    by (intros; apply allocated_set_ls; assumption).
  assert (Hmill : forall m1,
    allocated m1 -> get_ls "sbt_version" m1 = None ->
    exists md,
      match
        (if Stat (fs "build.sc")
         then match Scala.extractFromMill fs "build.sc" m1 with
              | (md, None) => inl (set_ls "build_tool" (VString "Mill") md)
              | (md, Some _) => inr md
              end
         else inr m1)
      with
      | inl md => Ok md
      | inr metadata => Ok (set_ls "build_tool" (VString "unknown") metadata)
      end = Ok md /\
      get_ls "build_tool" md
      = Some (VString (if scans (fs "build.sc") then "Mill" else "unknown")) /\
      get_ls "sbt_version" md = None).
  { intros m1 Hm1 Hno.
    assert (Hm2 : allocated (fst (Scala.extractFromMill fs "build.sc" m1)))
      by (apply (extractFromMill_invariant allocated);
          auto using allocated_store_dependencies).
    pose proof (extractFromMill_get_ls "sbt_version" fs "build.sc" m1
                  ltac:(discriminate) ltac:(discriminate)
                  ltac:(discriminate)) as Hk.
    pose proof (extractFromMill_error fs "build.sc" m1) as Herr.
    destruct (Stat (fs "build.sc")) eqn:Hstat.
    - destruct (Scala.extractFromMill fs "build.sc" m1) as [m2 [e|]];
        simpl in *; eexists; (split; [reflexivity|]).
      + destruct (scans (fs "build.sc"));
          [destruct Herr as [_ Herr]; discriminate (Herr eq_refl)|].
        split; [apply get_set_ls, Hm2|].
        rewrite get_set_ls_other by discriminate. congruence.
      + destruct Herr as [Herr _]. rewrite (Herr eq_refl).
        split; [apply get_set_ls, Hm2|].
        rewrite get_set_ls_other by discriminate. congruence.
    - rewrite (not_scans_Stat _ Hstat). eexists.
      split; [reflexivity|]. split; [apply get_set_ls, Hm1|].
      rewrite get_set_ls_other by discriminate. exact Hno. }
  unfold Scala.Extract, build_tool. cbv zeta.
  assert (Hm1 : allocated
                  (fst (Scala.extractFromBuildSbt fs "build.sbt" new_metadata)))
    by (apply (extractFromBuildSbt_invariant allocated);
        auto using allocated_store_dependencies, allocated_new).
  pose proof (extractFromBuildSbt_error fs "build.sbt" new_metadata) as Herr.
  pose proof (extractFromBuildSbt_get_ls "sbt_version" fs "build.sbt"
                new_metadata) as Hsbt.
  assert (Hkey : ~ In "sbt_version"
                     ["organization"; "scala_version"; "scala_version_matrix";
                      "dependencies"; "dependency_count"])
    by (simpl; intros H; repeat destruct H as [H|H]; discriminate || exact H).
  specialize (Hsbt Hkey).
  destruct (Stat (fs "build.sbt")) eqn:Hstat.
  - destruct (Scala.extractFromBuildSbt fs "build.sbt" new_metadata)
      as [m1 [e|]]; simpl in Hm1, Herr, Hsbt.
    + destruct (scans (fs "build.sbt"));
        [destruct Herr as [_ Herr]; discriminate (Herr eq_refl)|].
      destruct (Hmill m1 Hm1) as (md & Hmd & Htool & Hno).
      { rewrite <- (get_ls_new "sbt_version"), <- Hsbt. reflexivity. }
      exists md. split; [exact Hmd|]. split; [exact Htool|].
      intros Hyes. contradiction.
    + destruct Herr as [Herr _]. rewrite (Herr eq_refl).
      eexists. split; [reflexivity|]. split.
      * rewrite extractSbtVersion_get_ls by discriminate.
        apply get_set_ls, Hm1.
      * intros Hyes. split; [reflexivity|].
        destruct (readable (fs "project/build.properties")) eqn:Hr;
          [reflexivity|].
        rewrite (extractSbtVersion_unreadable _ _ Hr) in Hyes.
        exfalso. apply Hyes.
        rewrite get_set_ls_other by discriminate.
        rewrite <- (get_ls_new "sbt_version"), <- Hsbt. reflexivity.
  - rewrite (not_scans_Stat _ Hstat).
    destruct (Hmill new_metadata allocated_new (get_ls_new _))
      as (md & Hmd & Htool & Hno).
    exists md. split; [exact Hmd|]. split; [exact Htool|].
    intros Hyes. contradiction.
Qed.

Lemma scala_build_tool_precedence_witness :
  exists md,
    Scala.Extract
      (Fixtures.single "build.sc" (Contents "object app extends ScalaModule"))
    = Ok md /\
    get_ls "build_tool" md = Some (VString "Mill").
Proof.
  destruct (scala_build_tool_precedence
              (Fixtures.single "build.sc"
                 (Contents "object app extends ScalaModule")))
    as (md & Hmd & Htool & _).
  exists md. split; [exact Hmd | exact Htool].
Defined.

Lemma cpp_build_system_precedence_witness :
  exists md,
    Cpp.Extract
      (fun name =>
         if String.eqb name "CMakeLists.txt" then Unreadable
         else if String.eqb name "configure.ac"
              then Contents "AC_INIT([tool], [1.0])"
              else Absent)
    = Ok md /\
    get_ls "build_system" md = Some (VString "Autotools").
Proof.
  destruct (cpp_build_system_precedence
              (fun name =>
                 if String.eqb name "CMakeLists.txt" then Unreadable
                 else if String.eqb name "configure.ac"
                      then Contents "AC_INIT([tool], [1.0])"
                      else Absent))
    as (md & Hmd & Hlabel).
  exists md. split; [exact Hmd | exact Hlabel].
Defined.

(** ** Detect and Extract *)

Lemma if_true_false (b c : bool) :
  (if b then true else c) = false -> b = false /\ c = false.
Proof. destruct b; [discriminate | auto]. Qed.

(** X7.  [Extract] reads no build file that [Detect] does not look for:
    on a project that the C/C++, Scala or Elixir [Detect] rejects, the
    [Extract] of the same extractor succeeds with the empty record that
    carries its fallback label and nothing else. *)
Theorem undetected_Extract_bare (t : tree) :
  (Detect.Cpp t = false ->
   Cpp.Extract (files t)
   = Ok (set_ls "build_system" (VString "Makefile") new_metadata)) /\
  (Detect.Scala t = false ->
   Scala.Extract (files t)
   = Ok (set_ls "build_tool" (VString "unknown") new_metadata)) /\
  (Detect.Elixir t = false ->
   Elixir.Extract (files t)
   = Ok (set_ls "build_tool" (VString "Mix") new_metadata)).
Proof.
  split; [|split].
  - unfold Detect.Cpp. intros H.
    apply if_true_false in H as [Hcmake H].
    apply if_true_false in H as [Hqmake H].
    apply if_true_false in H as [_ H].
    apply if_true_false in H as [Hac H].
    apply if_true_false in H as [Hmeson _].
    unfold Cpp.Extract, Cpp.try_build_file.
    rewrite Hcmake, Hqmake, Hmeson, Hac. reflexivity.
  - unfold Detect.Scala. intros H.
    apply if_true_false in H as [Hsbt H].
    apply if_true_false in H as [_ H].
    apply if_true_false in H as [Hsc _].
    unfold Scala.Extract. rewrite Hsbt, Hsc. reflexivity.
  - unfold Detect.Elixir. intros H.
    apply if_true_false in H as [Hmix _].
    unfold Elixir.Extract. rewrite Hmix. reflexivity.
Qed.

Lemma undetected_Extract_bare_witness :
  Cpp.Extract (fun name => if String.eqb name "README.md"
                           then Contents "notes" else Absent)
  = Ok (set_ls "build_system" (VString "Makefile") new_metadata).
Proof.
  apply (undetected_Extract_bare
           {| files := fun name => if String.eqb name "README.md"
                                   then Contents "notes" else Absent;
              IsDir := fun _ => false;
              names := fun d => if String.eqb d "" then ["README.md"] else [] |}).
  reflexivity.
Defined.
(** ** Fields that an extractor leaves empty *)

Section Untouched.

(** Something read off the record that no write to [LanguageSpecific]
    changes. *)
Context {A : Type} (g : ProjectMetadata -> A).
Hypothesis g_ls_free :
  forall m ls,
    g {| Name := Name m; Version := Version m;
         VersionSource := VersionSource m; Description := Description m;
         Homepage := Homepage m; License := License m;
         Repository := Repository m; Authors := Authors m;
         LanguageSpecific := ls |} = g m.

Lemma untouched_set_ls k v m : g (set_ls k v m) = g m.
Proof.
  unfold set_ls. destruct (LanguageSpecific m); [apply g_ls_free | reflexivity].
Qed.

Lemma untouched_store_dependencies l m : g (store_dependencies l m) = g m.
Proof.
  unfold store_dependencies. destruct (0 <? llen l); [|reflexivity].
  rewrite !untouched_set_ls. reflexivity.
Qed.

End Untouched.

(** X8.  None of the three extractors ever fills in [Repository] or
    [Authors], and the C/C++ extractor, whichever build file it reads,
    fills in neither [Homepage] nor [License]. *)
Theorem fields_never_filled (fs : dir) (md : ProjectMetadata) :
  (Cpp.Extract fs = Ok md \/ Scala.Extract fs = Ok md \/
   Elixir.Extract fs = Ok md ->
   Repository md = "" /\ Authors md = []) /\
  (Cpp.Extract fs = Ok md -> Homepage md = "" /\ License md = "").
Proof.
  assert (Horigin : forall m ls,
             origin {| Name := Name m; Version := Version m;
                       VersionSource := VersionSource m;
                       Description := Description m;
                       Homepage := Homepage m; License := License m;
                       Repository := Repository m; Authors := Authors m;
                       LanguageSpecific := ls |} = origin m)
    by reflexivity.
  assert (Hpublication : forall m ls,
             publication {| Name := Name m; Version := Version m;
                            VersionSource := VersionSource m;
                            Description := Description m;
                            Homepage := Homepage m; License := License m;
                            Repository := Repository m; Authors := Authors m;
                            LanguageSpecific := ls |} = publication m)
    by reflexivity.
  split.
  - intros H.
    enough (E : origin md = origin new_metadata)
      by (injection E as -> ->; split; reflexivity).
    destruct H as [H|[H|H]]; revert H;
      [ apply (cpp_Extract_invariant
                 (fun m => origin m = origin new_metadata))
      | apply (scala_Extract_invariant
                 (fun m => origin m = origin new_metadata))
      | apply (elixir_Extract_invariant
                 (fun m => origin m = origin new_metadata)) ];
      try reflexivity; intros;
      rewrite ?(untouched_set_ls origin Horigin),
              ?(untouched_store_dependencies origin Horigin);
      assumption.
  - intros H.
    enough (E : publication md = publication new_metadata)
      by (injection E as -> ->; split; reflexivity).
    revert H.
    apply (cpp_Extract_invariant
             (fun m => publication m = publication new_metadata));
      try reflexivity; intros;
      rewrite ?(untouched_set_ls publication Hpublication),
              ?(untouched_store_dependencies publication Hpublication);
      assumption.
Qed.

Lemma fields_never_filled_witness :
  exists md,
    Elixir.Extract (Fixtures.single "mix.exs" (Contents Fixtures.mix_exs))
    = Ok md /\ Repository md = "" /\ Authors md = [].
Proof.
  eexists. split; [vm_compute; reflexivity|].
  eapply (fields_never_filled
            (Fixtures.single "mix.exs" (Contents Fixtures.mix_exs))).
  right. right. vm_compute. reflexivity.
Defined.

(** X9.  A .qmake.conf contributes a version and nothing else: when there
    is no CMakeLists.txt and .qmake.conf can be parsed, the record that
    the C/C++ [Extract] returns has no name, no description and no entry
    in [LanguageSpecific] other than the label [qmake]. *)
Theorem qmake_only_version (fs : dir) :
  Stat (fs "CMakeLists.txt") = false ->
  scans (fs ".qmake.conf") = true ->
  exists md,
    Cpp.Extract fs = Ok md /\
    unversioned md
    = set_ls "build_system" (VString "qmake") new_metadata.
Proof.
  intros Hcmake Hqmake. unfold Cpp.Extract, Cpp.try_build_file.
  rewrite Hcmake, (scans_Stat _ Hqmake).
  pose proof (extractFromQmake_error fs ".qmake.conf" new_metadata) as Herr.
  assert (Hsame : unversioned
                    (fst (Cpp.extractFromQmake fs ".qmake.conf" new_metadata))
                  = unversioned new_metadata).
  { apply (extractFromQmake_invariant
             (fun m => unversioned m = unversioned new_metadata));
      [intros; assumption | reflexivity]. }
  destruct (Cpp.extractFromQmake fs ".qmake.conf" new_metadata) as [m [e|]];
    simpl in Herr, Hsame.
  - destruct Herr as [_ Herr]. discriminate (Herr Hqmake).
  - eexists. split; [reflexivity|].
    transitivity (set_ls "build_system" (VString "qmake") (unversioned m));
      [|rewrite Hsame; reflexivity].
    unfold unversioned, set_ls, set_Version. simpl.
    destruct (LanguageSpecific m) eqn:E; simpl; rewrite ?E; reflexivity.
Qed.

Lemma qmake_only_version_witness :
  exists md,
    Cpp.Extract (Fixtures.single ".qmake.conf"
                   (Contents "MODULE_VERSION = 6.5.0"))
    = Ok md /\
    unversioned md = set_ls "build_system" (VString "qmake") new_metadata.
Proof.
  apply (qmake_only_version
           (Fixtures.single ".qmake.conf" (Contents "MODULE_VERSION = 6.5.0")));
    reflexivity.
Defined.

(** X10.  Mill's build.sc yields a name and entries of [LanguageSpecific]
    only: when there is no build.sbt, the record that the Scala [Extract]
    returns has no version, version source, description, homepage or
    license, whatever build.sc holds. *)
Theorem mill_only_name (fs : dir) (md : ProjectMetadata) :
  Stat (fs "build.sbt") = false ->
  Scala.Extract fs = Ok md ->
  Version md = "" /\ VersionSource md = "" /\ Description md = "" /\
  Homepage md = "" /\ License md = "".
Proof.
  intros Hsbt.
  assert (Hfree : forall m ls,
             described {| Name := Name m; Version := Version m;
                          VersionSource := VersionSource m;
                          Description := Description m;
                          Homepage := Homepage m; License := License m;
                          Repository := Repository m; Authors := Authors m;
                          LanguageSpecific := ls |} = described m)
    by reflexivity.
  assert (Hmill : described
                    (fst (Scala.extractFromMill fs "build.sc" new_metadata))
                  = described new_metadata).
  { apply (extractFromMill_invariant
             (fun m => described m = described new_metadata));
      try reflexivity; intros;
      rewrite ?(untouched_set_ls described Hfree),
              ?(untouched_store_dependencies described Hfree);
      assumption. }
  unfold Scala.Extract. rewrite Hsbt. cbv zeta.
  enough (E : forall m, Ok m = Ok md -> described m = described new_metadata ->
                        Version md = "" /\ VersionSource md = "" /\
                        Description md = "" /\ Homepage md = "" /\
                        License md = "").
  { destruct (Stat (fs "build.sc")).
    - destruct (Scala.extractFromMill fs "build.sc" new_metadata)
        as [m [e|]]; simpl in Hmill; intros H; apply (E _ H);
        rewrite (untouched_set_ls described Hfree); exact Hmill.
    - intros H. apply (E _ H). reflexivity. }
  intros m [= ->] Hd. unfold described in Hd. simpl in Hd.
  injection Hd as -> -> -> -> ->. repeat split; reflexivity.
Qed.

Lemma mill_only_name_witness :
  exists md,
    Scala.Extract
      (Fixtures.single "build.sc" (Contents "object app extends ScalaModule"))
    = Ok md /\ Version md = "".
Proof.
  eexists. split; [vm_compute; reflexivity|].
  eapply (mill_only_name
            (Fixtures.single "build.sc"
               (Contents "object app extends ScalaModule")));
    vm_compute; reflexivity.
Defined.
(** ** The version of a .qmake.conf *)

Lemma FindStringSubmatch_length (r : Regexp.regex) (s : string)
    (m : list string) :
  Regexp.FindStringSubmatch r s = Some m ->
  llen m = Z.of_nat (S (Regexp.groups r)).
Proof.
  unfold Regexp.FindStringSubmatch.
  destruct (Regexp.search _ _ _) as [[rest cs]|]; [|discriminate].
  intros [= <-]. unfold llen, Regexp.submatches.
  rewrite length_map, length_seq. reflexivity.
Qed.

Lemma eqb_empty_false (v : string) : v <> "" -> GoStrings.eqb v "" = false.
Proof. intros H. apply String.eqb_neq, H. Qed.

(** A line with MODULE_VERSION sets the version, whatever it was. *)
Lemma qmake_line_module (md : ProjectMetadata) (line : string)
    (m : list string) :
  Regexp.FindStringSubmatch Cpp.moduleVersionRegex line = Some m ->
  Cpp.qmake_line md line = set_Version (at_ m 1) ".qmake.conf" md /\
  at_ m 1 <> "".
Proof.
  intros H.
  assert (Hne : at_ m 1 <> "")
    by (eapply FindStringSubmatch_binds; [exact H | reflexivity | simpl; lia]).
  split; [|exact Hne].
  unfold Cpp.qmake_line, Cpp.on_match_gt1. rewrite H.
  rewrite (FindStringSubmatch_length _ _ _ H).
  change (1 <? Z.of_nat (S (Regexp.groups Cpp.moduleVersionRegex)))
    with true.
  cbn [Version set_Version]. rewrite (eqb_empty_false _ Hne). reflexivity.
Qed.

(** Once there is a version, only a line with MODULE_VERSION changes it. *)
Lemma qmake_line_kept (md : ProjectMetadata) (line : string) :
  Regexp.FindStringSubmatch Cpp.moduleVersionRegex line = None ->
  Version md <> "" ->
  Cpp.qmake_line md line = md.
Proof.
  intros H Hne. unfold Cpp.qmake_line, Cpp.on_match_gt1. rewrite H.
  rewrite (eqb_empty_false _ Hne). reflexivity.
Qed.

Lemma qmake_lines_kept (lines : list string) (md : ProjectMetadata) :
  Forall (fun l => Regexp.FindStringSubmatch Cpp.moduleVersionRegex l = None)
         lines ->
  Version md <> "" ->
  fold_left Cpp.qmake_line lines md = md.
Proof.
  induction 1 as [|l lines Hl Hlines IH]; intros Hne; [reflexivity|].
  simpl. rewrite (qmake_line_kept md l Hl Hne). apply IH, Hne.
Qed.

(** While there is no version, a line without VERSION changes nothing. *)
Lemma qmake_line_skipped (md : ProjectMetadata) (line : string) :
  Regexp.FindStringSubmatch Cpp.moduleVersionRegex line = None ->
  Regexp.FindStringSubmatch Cpp.versionRegex line = None ->
  Cpp.qmake_line md line = md.
Proof.
  intros H H'. unfold Cpp.qmake_line, Cpp.on_match_gt1. rewrite H, H'.
  destruct (GoStrings.eqb _ _); reflexivity.
Qed.

Lemma qmake_lines_skipped (lines : list string) (md : ProjectMetadata) :
  Forall (fun l => Regexp.FindStringSubmatch Cpp.moduleVersionRegex l = None)
         lines ->
  Forall (fun l => Regexp.FindStringSubmatch Cpp.versionRegex l = None)
         lines ->
  fold_left Cpp.qmake_line lines md = md.
Proof.
  induction 1 as [|l lines Hl Hlines IH]; intros H'; [reflexivity|].
  inversion H' as [|? ? Hl' Hlines']; subst.
  simpl. rewrite (qmake_line_skipped md l Hl Hl'). apply IH, Hlines'.
Qed.

Lemma qmake_line_plain (md : ProjectMetadata) (line : string)
    (m : list string) :
  Version md = "" ->
  Regexp.FindStringSubmatch Cpp.moduleVersionRegex line = None ->
  Regexp.FindStringSubmatch Cpp.versionRegex line = Some m ->
  Cpp.qmake_line md line = set_Version (at_ m 1) ".qmake.conf" md /\
  at_ m 1 <> "".
Proof.
  intros Hmd H H'.
  assert (Hne : at_ m 1 <> "")
    by (eapply FindStringSubmatch_binds; [exact H' | reflexivity | simpl; lia]).
  split; [|exact Hne].
  unfold Cpp.qmake_line, Cpp.on_match_gt1. rewrite H, H', Hmd.
  rewrite (FindStringSubmatch_length _ _ _ H'). reflexivity.
Qed.

(** X11.  In a .qmake.conf the last line with MODULE_VERSION decides the
    version, wherever the lines with a plain VERSION stand; when no line
    has MODULE_VERSION and no version is known yet, the first line with
    VERSION decides and later ones are ignored.  Nothing else of the
    record changes. *)
Theorem qmake_version_precedence (before after : list string)
    (line : string) (m : list string) (md : ProjectMetadata) :
  let unmatched r := Forall (fun l => Regexp.FindStringSubmatch r l = None) in
  (Regexp.FindStringSubmatch Cpp.moduleVersionRegex line = Some m /\
   unmatched Cpp.moduleVersionRegex after)
  \/
  (Version md = "" /\
   unmatched Cpp.moduleVersionRegex (before ++ line :: after) /\
   unmatched Cpp.versionRegex before /\
   Regexp.FindStringSubmatch Cpp.versionRegex line = Some m) ->
  fold_left Cpp.qmake_line (before ++ line :: after) md
  = set_Version (at_ m 1) ".qmake.conf" md.
Proof.
  intros unmatched. rewrite fold_left_app. simpl.
  intros [[Hline Hafter] | (Hmd & Hnone & Hbefore & Hline)].
  - destruct (qmake_line_module (fold_left Cpp.qmake_line before md) line m
                Hline) as [-> Hne].
    rewrite (qmake_lines_kept after (set_Version (at_ m 1) ".qmake.conf" _)
               Hafter Hne).
    assert (Hversion : forall l x,
               set_Version (at_ m 1) ".qmake.conf" (Cpp.qmake_line x l)
               = set_Version (at_ m 1) ".qmake.conf" x).
    { intros l x. unfold Cpp.qmake_line, Cpp.on_match_gt1.
      repeat match goal with
             | |- context [match ?o with Some _ => _ | None => _ end] =>
                 destruct o
             | |- context [if ?b then _ else _] => destruct b
             end; reflexivity. }
    clear Hne. revert md.
    induction before as [|l before IH]; intros md; [reflexivity|].
    simpl. rewrite IH. apply Hversion.
  - apply Forall_app in Hnone as [Hnone_before Hnone_rest].
    inversion Hnone_rest as [|? ? Hnone_line Hnone_after]; subst.
    rewrite (qmake_lines_skipped before md Hnone_before Hbefore).
    destruct (qmake_line_plain md line m Hmd Hnone_line Hline) as [-> Hne].
    apply (qmake_lines_kept after (set_Version (at_ m 1) ".qmake.conf" md)
             Hnone_after Hne).
Qed.

Lemma qmake_version_precedence_witness :
  fold_left Cpp.qmake_line
    (["VERSION = 1.0"] ++ "MODULE_VERSION = 6.5.0" :: ["VERSION = 2.0"])
    new_metadata
  = set_Version "6.5.0" ".qmake.conf" new_metadata.
Proof.
  apply (qmake_version_precedence ["VERSION = 1.0"] ["VERSION = 2.0"]
           "MODULE_VERSION = 6.5.0" ["MODULE_VERSION = 6.5.0"; "6.5.0"]).
  left. split; [vm_compute; reflexivity|].
  repeat constructor.
Defined.
(** ** stripMesonComments *)

Lemma len_length (s : string) : GoStrings.len s = Z.of_nat (String.length s).
Proof.
  induction s as [|c s IH]; [reflexivity|].
  change (GoStrings.len (String c s)) with (1 + GoStrings.len s).
  rewrite IH. simpl String.length. lia.
Qed.

Lemma take_append (pre post : string) :
  GoStrings.take (String.length pre) (pre +:+ post) = pre.
Proof.
  induction pre as [|c pre IH]; simpl.
  - destruct post; reflexivity.
  - change (String c pre +:+ post) with (String c (pre +:+ post)).
    cbn [GoStrings.take]. rewrite IH. reflexivity.
Qed.

(** The scan of a line stops at a [#] of the line, or finds none. *)
Lemma comment_scan_found (rest : string) :
  forall (i : Z) (prev : ascii) (inString : bool) (stringChar : ascii),
    Cpp.comment_scan i prev inString stringChar rest = -1 \/
    exists pre post,
      rest = pre +:+ String "#" post /\
      Cpp.comment_scan i prev inString stringChar rest = i + GoStrings.len pre.
Proof.
  induction rest as [|c rest IH]; intros i prev inString stringChar;
    [left; reflexivity|].
  assert (Hnext : forall prev' inString' stringChar',
             Cpp.comment_scan (i + 1) prev' inString' stringChar' rest = -1 \/
             exists pre post,
               String c rest = pre +:+ String "#" post /\
               Cpp.comment_scan (i + 1) prev' inString' stringChar' rest
               = i + GoStrings.len pre).
  { intros prev' inString' stringChar'.
    destruct (IH (i + 1) prev' inString' stringChar')
      as [Hnone | (pre & post & -> & Hfound)]; [left; exact Hnone|].
    right. exists (String c pre), post. split; [reflexivity|].
    rewrite Hfound.
    change (GoStrings.len (String c pre)) with (1 + GoStrings.len pre). lia. }
  cbn [Cpp.comment_scan].
  destruct (negb inString && (Chars.chr Chars.squote c || Chars.chr Chars.dquote c));
    [apply Hnext|].
  destruct (inString && Ascii.eqb c stringChar); [apply Hnext|].
  destruct (negb inString && Chars.chr "#" c) eqn:E; [|apply Hnext].
  right. exists "", rest. apply andb_true_iff in E as [_ E].
  unfold Chars.chr in E. apply Ascii.eqb_eq in E. subst c.
  split; [reflexivity | simpl; lia].
Qed.

Lemma Contains_hash_append (pre post : string) :
  GoStrings.Contains (pre +:+ String "#" post) "#" = true.
Proof.
  rewrite Contains_byte_append, Contains_byte_cons, Ascii.eqb_refl.
  apply orb_true_r.
Qed.

(** What [strip_line] removes from a line starts with [#]. *)
Lemma strip_line_cut (line : string) :
  cuts_at_hash line.
Proof.
  unfold cuts_at_hash, Cpp.strip_line, Cpp.commentStart.
  destruct (comment_scan_found line 0 "000"%char false "000"%char)
    as [-> | (pre & post & -> & ->)].
  - exists "". split; [|left; reflexivity].
    change (0 <=? -1) with false. cbv iota.
    clear. induction line as [|c line IH]; [reflexivity|].
    change (String c line +:+ "") with (String c (line +:+ "")).
    rewrite <- IH. reflexivity.
  - exists (String "#" post). rewrite Z.add_0_l, len_length.
    destruct (0 <=? Z.of_nat (String.length pre)) eqn:E;
      [|apply Z.leb_gt in E; lia].
    rewrite Nat2Z.id, take_append. split; [reflexivity|].
    right. exact (HasPrefix_prepend "#" post).
Qed.

Lemma strip_line_plain (line : string) :
  GoStrings.Contains line "#" = false -> Cpp.strip_line line = line.
Proof.
  intros Hno. unfold Cpp.strip_line, Cpp.commentStart.
  destruct (comment_scan_found line 0 "000"%char false "000"%char)
    as [-> | (pre & post & -> & _)]; [reflexivity|].
  rewrite Contains_hash_append in Hno. discriminate.
Qed.

Lemma Count_append (a b : string) (c : ascii) :
  GoStrings.Count (a +:+ b) c = GoStrings.Count a c + GoStrings.Count b c.
Proof.
  induction a as [|x a IH]; [reflexivity|].
  change (String x a +:+ b) with (String x (a +:+ b)).
  cbn [GoStrings.Count]. rewrite IH. lia.
Qed.

Lemma Count_nonnegative (s : string) (c : ascii) : 0 <= GoStrings.Count s c.
Proof.
  induction s as [|x s IH]; cbn [GoStrings.Count]; [lia|].
  destruct (Ascii.eqb x c); lia.
Qed.

(** [strings.Split] cuts at every separator: the pieces hold none and
    there is one piece more than there are separators. *)
Lemma Split_count (s : string) (sep : ascii) :
  Forall (fun p => GoStrings.Count p sep = 0) (GoStrings.Split s sep) /\
  llen (GoStrings.Split s sep) = GoStrings.Count s sep + 1.
Proof.
  induction s as [|c s [IHp IHn]]; [split; [repeat constructor | reflexivity]|].
  rewrite Split_cons. cbn [GoStrings.Count]. unfold llen in *.
  destruct (Ascii.eqb c sep) eqn:E.
  - split; [constructor; [reflexivity | exact IHp]|].
    cbn [length]. lia.
  - destruct (GoStrings.Split s sep) as [|p ps]; [simpl in IHn; pose proof (Count_nonnegative s sep); lia|].
    inversion IHp as [|? ? Hp Hps]; subst.
    split; [constructor; [|exact Hps]|].
    + cbn [GoStrings.Count]. rewrite E, Hp. reflexivity.
    + cbn [length] in *. lia.
Qed.

Lemma write_lines_count (lines : list string) :
  Forall (fun p => GoStrings.Count p Chars.newline = 0) lines ->
  GoStrings.Count (Cpp.write_lines lines) Chars.newline = llen lines.
Proof.
  induction 1 as [|l lines Hl Hlines IH]; [reflexivity|].
  cbn [Cpp.write_lines]. rewrite Count_append.
  cbn [GoStrings.Count]. rewrite Ascii.eqb_refl, IH.
  destruct (strip_line_cut l) as (cut & Hcut & _).
  rewrite Hcut, Count_append in Hl.
  pose proof (Count_nonnegative (Cpp.strip_line l) Chars.newline).
  pose proof (Count_nonnegative cut Chars.newline).
  unfold llen. cbn [length]. lia.
Qed.

Lemma Split_plain (s : string) (sep d : ascii) :
  GoStrings.Contains s (String d "") = false ->
  Forall (fun p => GoStrings.Contains p (String d "") = false)
         (GoStrings.Split s sep).
Proof.
  induction s as [|c s IH]; intros H; [repeat constructor|].
  rewrite Contains_byte_cons in H. apply orb_false_iff in H as [Hc Hs].
  specialize (IH Hs). rewrite Split_cons.
  destruct (Ascii.eqb c sep); [constructor; [reflexivity | exact IH]|].
  destruct (GoStrings.Split s sep) as [|p ps].
  - constructor; [|constructor]. rewrite Contains_byte_cons, Hc. reflexivity.
  - inversion IH as [|? ? Hp Hps]; subst. constructor; [|exact Hps].
    rewrite Contains_byte_cons, Hc. exact Hp.
Qed.

Lemma write_lines_plain (content : string) :
  GoStrings.Contains content "#" = false ->
  Cpp.write_lines (GoStrings.Split content Chars.newline)
  = content +:+ String Chars.newline "".
Proof.
  induction content as [|c content IH]; intros H; [reflexivity|].
  pose proof (Split_plain _ Chars.newline _ H) as Hpieces.
  rewrite Contains_byte_cons in H. apply orb_false_iff in H as [Hc Hs].
  specialize (IH Hs). rewrite Split_cons in *.
  change (String c content +:+ String Chars.newline "")
    with (String c (content +:+ String Chars.newline "")).
  destruct (Ascii.eqb c Chars.newline) eqn:E.
  - apply Ascii.eqb_eq in E. subst c.
    cbn [Cpp.write_lines]. rewrite IH. reflexivity.
  - destruct (GoStrings.Split content Chars.newline) as [|p ps] eqn:Es.
    + pose proof (proj2 (Split_count content Chars.newline)) as Hn.
      rewrite Es in Hn. unfold llen in Hn. simpl in Hn.
      pose proof (Count_nonnegative content Chars.newline). lia.
    + inversion Hpieces as [|? ? Hcp _]; subst.
      cbn [Cpp.write_lines] in *. rewrite (strip_line_plain _ Hcp).
      rewrite Contains_byte_cons in Hcp.
      apply orb_false_iff in Hcp as [_ Hp].
      rewrite (strip_line_plain _ Hp) in IH.
      change (String c p +:+ String Chars.newline (Cpp.write_lines ps))
        with (String c (p +:+ String Chars.newline (Cpp.write_lines ps))).
      rewrite IH. reflexivity.
Qed.

(** X12.  stripMesonComments keeps the lines of a meson.build apart: of
    each line it keeps a beginning, and what it drops starts with [#]; the
    result has one newline for every line of the input, so that the lines
    keep their numbers; and content without any [#] comes back unchanged
    but for a final newline. *)
Theorem stripMesonComments_lines (content : string) :
  (forall line, cuts_at_hash line) /\
  GoStrings.Count (Cpp.stripMesonComments content) Chars.newline
  = GoStrings.Count content Chars.newline + 1 /\
  (GoStrings.Contains content "#" = false ->
   Cpp.stripMesonComments content = content +:+ String Chars.newline "").
Proof.
  split; [exact strip_line_cut|]. unfold Cpp.stripMesonComments. split.
  - destruct (Split_count content Chars.newline) as [Hpieces Hn].
    rewrite (write_lines_count _ Hpieces). exact Hn.
  - apply write_lines_plain.
Qed.

Lemma stripMesonComments_lines_witness :
  Cpp.stripMesonComments "project('app')"
  = "project('app')" +:+ String Chars.newline "".
Proof.
  apply (stripMesonComments_lines "project('app')"). reflexivity.
Defined.
(** ** The Elixir extractor *)

Lemma LanguageSpecific_set_ls k v md ls :
  LanguageSpecific md = Some ls ->
  LanguageSpecific (set_ls k v md) = Some (<[k:=v]> ls).
Proof. intros H. unfold set_ls. rewrite H. reflexivity. Qed.

(** Reading a line of mix.exs writes nothing into [LanguageSpecific]. *)
Lemma mix_line_LanguageSpecific st text :
  LanguageSpecific (Elixir.mx_metadata (Elixir.mix_line st text))
  = LanguageSpecific (Elixir.mx_metadata st).
Proof.
  unfold Elixir.mix_line.
  destruct (GoStrings.HasPrefix _ _); [reflexivity|].
  cbn [Elixir.mx_metadata].
  repeat match goal with
         | |- LanguageSpecific (if ?b then _ else _) = _ => destruct b
         | |- LanguageSpecific (on_match _ _ _ _) = _ =>
             rewrite (on_match_field LanguageSpecific);
             [|intros; unfold Elixir.link_homepage;
               try destruct (_ || _); reflexivity]
         end; reflexivity.
Qed.

Lemma generateElixirVersionMatrix_length (requirement : string) :
  llen (Elixir.generateElixirVersionMatrix requirement) = 2 \/
  llen (Elixir.generateElixirVersionMatrix requirement) = 3.
Proof.
  unfold Elixir.generateElixirVersionMatrix.
  repeat match goal with
         | |- context [if ?b then _ else _] => destruct b
         end; auto.
Qed.

Lemma detectFramework_nil_free (dependencies : list string) :
  Elixir.detectFramework dependencies <> "" -> dependencies <> [].
Proof. destruct dependencies; [intros H; contradiction | discriminate]. Qed.

(** Reads the entries of a record built by a chain of [set_ls] on a
    record whose map is empty. *)
Ltac entries Hls :=
  repeat first
    [ rewrite get_set_ls_other by discriminate
    | rewrite get_set_ls
        by (repeat apply allocated_set_ls; unfold allocated;
            rewrite Hls; discriminate) ];
  unfold get_ls; rewrite ?Hls, ?lookup_empty;
  repeat split; intros; congruence.

(** The writes that close extractFromMixExs and [Extract], on a record
    whose [LanguageSpecific] is still empty. *)
Lemma mix_final_writes (m0 : ProjectMetadata) (ev fw : string)
    (matrix deps : list string) :
  LanguageSpecific m0 = Some ∅ ->
  0 < llen matrix ->
  (fw <> "" -> deps <> []) ->
  let md1 :=
    if nonempty ev then
      let md := set_ls "elixir_version" (VString ev) m0 in
      if 0 <? llen matrix
      then set_ls "elixir_version_matrix" (VStrings matrix) md
      else md
    else m0 in
  let md2 := store_dependencies deps md1 in
  let md3 := if nonempty fw then set_ls "framework" (VString fw) md2
             else md2 in
  let md := set_ls "build_tool" (VString "Mix") md3 in
  (get_ls "elixir_version_matrix" md <> None <->
   get_ls "elixir_version" md <> None) /\
  (get_ls "framework" md <> None -> get_ls "dependencies" md <> None) /\
  get_ls "build_tool" md = Some (VString "Mix").
Proof.
  intros Hls Hmatrix Hfw. cbv zeta.
  apply Z.ltb_lt in Hmatrix. rewrite Hmatrix.
  unfold store_dependencies.
  destruct (0 <? llen deps) eqn:Hdeps.
  - destruct (nonempty ev); destruct (nonempty fw); entries Hls.
  - assert (Hnil : deps = [])
      by (destruct deps; [reflexivity | discriminate Hdeps]).
    destruct (nonempty fw) eqn:Hn;
      [apply nonempty_true in Hn; apply Hfw in Hn; contradiction|].
    destruct (nonempty ev); entries Hls.
Qed.

(** X13.  In the record of an Elixir project the entries of
    [LanguageSpecific] come together: [elixir_version_matrix] is present
    exactly when [elixir_version] is (the matrix is never empty), a
    [framework] is only reported along with [dependencies], and
    [build_tool] is always [Mix]. *)
Theorem elixir_entries_paired (fs : dir) (md : ProjectMetadata) :
  Elixir.Extract fs = Ok md ->
  (get_ls "elixir_version_matrix" md <> None <->
   get_ls "elixir_version" md <> None) /\
  (get_ls "framework" md <> None -> get_ls "dependencies" md <> None) /\
  get_ls "build_tool" md = Some (VString "Mix").
Proof.
  unfold Elixir.Extract.
  destruct (Stat (fs "mix.exs")).
  - unfold Elixir.extractFromMixExs.
    destruct (fs "mix.exs") as [| |data]; try discriminate.
    destruct (Scanner.scan data) as [lines [e|]]; [discriminate|].
    set (st := fold_left Elixir.mix_line lines _).
    assert (Hls : LanguageSpecific (Elixir.mx_metadata st) = Some ∅).
    { unfold st.
      rewrite (fold_left_field
                 (fun s => LanguageSpecific (Elixir.mx_metadata s)));
        [reflexivity | intros; apply mix_line_LanguageSpecific]. }
    intros [= <-].
    apply (mix_final_writes (Elixir.mx_metadata st)
             (Elixir.mx_elixirVersion st)
             (Elixir.detectFramework (Elixir.mx_dependencies st))
             (Elixir.generateElixirVersionMatrix (Elixir.mx_elixirVersion st))
             (Elixir.mx_dependencies st) Hls).
    + destruct (generateElixirVersionMatrix_length
                  (Elixir.mx_elixirVersion st)); lia.
    + apply detectFramework_nil_free.
  - intros [= <-]. assert (Hls : LanguageSpecific new_metadata = Some ∅)
      by reflexivity.
    entries Hls.
Qed.

Lemma elixir_entries_paired_witness :
  exists md,
    Elixir.Extract (Fixtures.single "mix.exs" (Contents Fixtures.mix_exs))
    = Ok md /\
    get_ls "build_tool" md = Some (VString "Mix").
Proof.
  eexists. split; [vm_compute; reflexivity|].
  eapply (elixir_entries_paired
            (Fixtures.single "mix.exs" (Contents Fixtures.mix_exs))).
  vm_compute. reflexivity.
Defined.

(** X14.  detectFramework goes by the first dependency that carries one of
    the markers [phoenix:], [nerves:], [plug:]: the dependencies before
    it and after it play no part, and without such a dependency no
    framework is reported. *)
Theorem detectFramework_first_marker (before after : list string)
    (dep : string) :
  (Elixir.detectFramework before = "" <->
   Forall (fun d => framework_marker d = false) before) /\
  (Forall (fun d => framework_marker d = false) before ->
   framework_marker dep = true ->
   Elixir.detectFramework (before ++ dep :: after)
   = Elixir.detectFramework [dep] /\
   In (Elixir.detectFramework [dep]) ["Phoenix"; "Nerves"; "Plug"]).
Proof.
  split.
  - induction before as [|d before IH]; [split; [constructor | reflexivity]|].
    cbn [Elixir.detectFramework]. split.
    + intros H.
      destruct (GoStrings.Contains d "phoenix:") eqn:E1; [discriminate|].
      destruct (GoStrings.Contains d "nerves:") eqn:E2; [discriminate|].
      destruct (GoStrings.Contains d "plug:") eqn:E3; [discriminate|].
      constructor; [|apply IH, H].
      unfold framework_marker. rewrite E1, E2, E3. reflexivity.
    + intros H. inversion H as [|? ? Hd Hbefore]; subst.
      unfold framework_marker in Hd.
      apply orb_false_iff in Hd as [Hd Hplug].
      apply orb_false_iff in Hd as [Hphoenix Hnerves].
      rewrite Hphoenix, Hnerves, Hplug. apply IH, Hbefore.
  - intros Hbefore Hdep. split.
    + induction Hbefore as [|d before Hd Hbefore IH].
      * cbn [app Elixir.detectFramework]. unfold framework_marker in Hdep.
        destruct (GoStrings.Contains dep "phoenix:"); [reflexivity|].
        destruct (GoStrings.Contains dep "nerves:"); [reflexivity|].
        destruct (GoStrings.Contains dep "plug:"); [reflexivity|].
        discriminate.
      * cbn [app]. rewrite <- IH.
        change (Elixir.detectFramework (d :: before ++ dep :: after))
          with (if GoStrings.Contains d "phoenix:" then "Phoenix"
                else if GoStrings.Contains d "nerves:" then "Nerves"
                else if GoStrings.Contains d "plug:" then "Plug"
                else Elixir.detectFramework (before ++ dep :: after)).
        unfold framework_marker in Hd.
        apply orb_false_iff in Hd as [Hd Hplug].
        apply orb_false_iff in Hd as [Hphoenix Hnerves].
        rewrite Hphoenix, Hnerves, Hplug. reflexivity.
    + cbn [Elixir.detectFramework]. unfold framework_marker in Hdep.
      destruct (GoStrings.Contains dep "phoenix:"); [simpl; tauto|].
      destruct (GoStrings.Contains dep "nerves:"); [simpl; tauto|].
      destruct (GoStrings.Contains dep "plug:"); [simpl; tauto|].
      discriminate.
Qed.

Lemma detectFramework_first_marker_witness :
  Elixir.detectFramework (["jason:1.4"] ++ "plug:1.15" :: ["phoenix:1.7"])
  = Elixir.detectFramework ["plug:1.15"].
Proof.
  apply (detectFramework_first_marker ["jason:1.4"] ["phoenix:1.7"]
           "plug:1.15");
    [repeat constructor | reflexivity].
Defined.

(** Outside a package block a line leaves [License] alone, and the block
    stays closed unless the line opens one. *)
Lemma mix_line_License st text :
  opens_package text = false ->
  Elixir.mx_inPackageBlock st = false ->
  Elixir.mx_inPackageBlock (Elixir.mix_line st text) = false /\
  License (Elixir.mx_metadata (Elixir.mix_line st text))
  = License (Elixir.mx_metadata st).
Proof.
  unfold opens_package. cbv zeta. intros Hopen Hblock.
  unfold Elixir.mix_line. cbv zeta.
  destruct (GoStrings.HasPrefix _ _); [split; [exact Hblock | reflexivity]|].
  rewrite Hopen, Hblock. cbn [Elixir.mx_inPackageBlock Elixir.mx_metadata].
  split; [destruct (GoStrings.Contains _ "]"); reflexivity|].
  repeat match goal with
         | |- License (if ?b then _ else _) = _ => destruct b
         | |- License (on_match _ _ _ _) = _ =>
             rewrite (on_match_field License);
             [|intros; unfold Elixir.link_homepage;
               try match goal with
                   | |- context [if ?c then _ else _] => destruct c
                   end; reflexivity]
         end; reflexivity.
Qed.

Lemma mix_line_Homepage st text :
  opens_links text = false ->
  Elixir.mx_inLinksBlock st = false ->
  Elixir.mx_inLinksBlock (Elixir.mix_line st text) = false /\
  Homepage (Elixir.mx_metadata (Elixir.mix_line st text))
  = Homepage (Elixir.mx_metadata st).
Proof.
  unfold opens_links. intros Hopen Hblock.
  unfold Elixir.mix_line. cbv zeta.
  destruct (GoStrings.HasPrefix _ _); [split; [exact Hblock | reflexivity]|].
  rewrite Hopen, Hblock. cbn [Elixir.mx_inLinksBlock Elixir.mx_metadata].
  split; [destruct (GoStrings.Contains _ "}"); reflexivity|].
  repeat match goal with
         | |- Homepage (if ?b then _ else _) = _ => destruct b
         | |- Homepage (on_match _ _ _ _) = _ =>
             rewrite (on_match_field Homepage); [|intros; reflexivity]
         end; reflexivity.
Qed.

(** The closing writes of extractFromMixExs and [Extract] go to
    [LanguageSpecific] only. *)
Lemma mix_Extract_fields {A : Type} (g : ProjectMetadata -> A) fs data md :
  (forall m ls,
      g {| Name := Name m; Version := Version m;
           VersionSource := VersionSource m; Description := Description m;
           Homepage := Homepage m; License := License m;
           Repository := Repository m; Authors := Authors m;
           LanguageSpecific := ls |} = g m) ->
  fs "mix.exs" = Contents data ->
  Elixir.Extract fs = Ok md ->
  g md
  = g (Elixir.mx_metadata
         (fold_left Elixir.mix_line (fst (Scanner.scan data))
            {| Elixir.mx_metadata := new_metadata;
               Elixir.mx_dependencies := [];
               Elixir.mx_inPackageBlock := false;
               Elixir.mx_inLinksBlock := false;
               Elixir.mx_elixirVersion := "" |})).
Proof.
  intros Hg Hfile. unfold Elixir.Extract, Elixir.extractFromMixExs.
  rewrite Hfile. cbn [Stat].
  destruct (Scanner.scan data) as [lines [e|]]; [discriminate|].
  intros [= <-]. cbn [fst].
  rewrite (untouched_set_ls g Hg).
  destruct (nonempty (Elixir.detectFramework _));
    rewrite ?(untouched_set_ls g Hg), (untouched_store_dependencies g Hg);
    destruct (nonempty _); try destruct (0 <? llen _);
    rewrite ?(untouched_set_ls g Hg); reflexivity.
Qed.

(** X15.  The Elixir extractor reads a license only inside a package
    block and a homepage only inside a links block: a mix.exs in which no
    line opens a package block yields no [License], and one in which no
    line opens a links block yields no [Homepage]. *)
Theorem mix_blocks_scope (fs : dir) (data : string) (md : ProjectMetadata) :
  fs "mix.exs" = Contents data ->
  Elixir.Extract fs = Ok md ->
  (Forall (fun text => opens_package text = false) (fst (Scanner.scan data)) ->
   License md = "") /\
  (Forall (fun text => opens_links text = false) (fst (Scanner.scan data)) ->
   Homepage md = "").
Proof.
  intros Hfile Hmd. split; intros Hlines.
  - rewrite (mix_Extract_fields License fs data md) by auto.
    apply (fold_left_invariant_in
             (fun st => Elixir.mx_inPackageBlock st = false /\
                        License (Elixir.mx_metadata st) = ""));
      [|split; reflexivity].
    intros st text Hin [Hblock Hlicense].
    rewrite List.Forall_forall in Hlines.
    destruct (mix_line_License st text (Hlines _ Hin) Hblock) as [H1 H2].
    split; [exact H1 | rewrite H2; exact Hlicense].
  - rewrite (mix_Extract_fields Homepage fs data md) by auto.
    apply (fold_left_invariant_in
             (fun st => Elixir.mx_inLinksBlock st = false /\
                        Homepage (Elixir.mx_metadata st) = ""));
      [|split; reflexivity].
    intros st text Hin [Hblock Hhome].
    rewrite List.Forall_forall in Hlines.
    destruct (mix_line_Homepage st text (Hlines _ Hin) Hblock) as [H1 H2].
    split; [exact H1 | rewrite H2; exact Hhome].
Qed.

Lemma mix_blocks_scope_witness :
  exists md,
    Elixir.Extract
      (Fixtures.single "mix.exs"
         (Contents (Fixtures.dq "licenses: [`MIT`]"))) = Ok md /\
    License md = "".
Proof.
  eexists. split; [vm_compute; reflexivity|].
  eapply (mix_blocks_scope
            (Fixtures.single "mix.exs"
               (Contents (Fixtures.dq "licenses: [`MIT`]"))));
    [reflexivity | vm_compute; reflexivity|].
  vm_compute. repeat constructor.
Defined.
(** ** Where a version matrix starts *)

Lemma eqb_true (a b : string) : GoStrings.eqb a b = true -> a = b.
Proof. apply String.eqb_eq. Qed.

(** X16.  The matrix of a recognised version starts at the release line of
    the project itself: for an Elixir requirement of 1.12 to 1.16, with or
    without an operator in front, and for a Scala version of 2.11 to 2.13,
    the first entry of the matrix is the [major.minor] of the version.
    (Scala 3 is different: the matrix is 3.3, 3.4 for every 3.x.) *)
Theorem matrix_starts_at_release_line (version : string) :
  (elixir_recognised version = true ->
   hd "" (Elixir.generateElixirVersionMatrix version)
   = release_line (Elixir.strip_operators version)) /\
  (scala_recognised version = true ->
   at_ (GoStrings.Split version ".") 0 <> "3" ->
   hd "" (Scala.generateScalaVersionMatrix version) = release_line version) /\
  (at_ (GoStrings.Split version ".") 0 = "3" ->
   2 <= llen (GoStrings.Split version ".") ->
   Scala.generateScalaVersionMatrix version = ["3.3"; "3.4"]).
Proof.
  split; [|split].
  - unfold elixir_recognised, Elixir.generateElixirVersionMatrix,
      release_line.
    set (parts := GoStrings.Split _ _). cbv zeta. intros H.
    apply andb_true_iff in H as [H Hminor].
    apply andb_true_iff in H as [Hlen Hmajor].
    apply Z.leb_le in Hlen.
    destruct (llen parts <? 2) eqn:E; [apply Z.ltb_lt in E; lia|].
    rewrite Hmajor. apply eqb_true in Hmajor. rewrite Hmajor.
    cbn [existsb] in Hminor.
    repeat match goal with
           | |- context [GoStrings.eqb (at_ parts 1) ?v] =>
               destruct (GoStrings.eqb (at_ parts 1) v) eqn:?
           end;
      try discriminate;
      match goal with
      | Heq : GoStrings.eqb (at_ parts 1) _ = true |- _ =>
          apply eqb_true in Heq; rewrite Heq; reflexivity
      end.
  - unfold scala_recognised, Scala.generateScalaVersionMatrix, release_line.
    set (parts := GoStrings.Split _ _). cbv zeta. intros H Hnot3.
    apply andb_true_iff in H as [Hlen H].
    apply Z.leb_le in Hlen.
    destruct (llen parts <? 2) eqn:E; [apply Z.ltb_lt in E; lia|].
    destruct (GoStrings.eqb (at_ parts 0) "3") eqn:E3;
      [apply eqb_true in E3; contradiction|].
    cbn [orb] in H. apply andb_true_iff in H as [Hmajor Hminor].
    rewrite Hmajor. apply eqb_true in Hmajor. rewrite Hmajor.
    cbn [existsb andb] in Hminor |- *.
    repeat match goal with
           | |- context [GoStrings.eqb (at_ parts 1) ?v] =>
               destruct (GoStrings.eqb (at_ parts 1) v) eqn:?
           end;
      try discriminate;
      match goal with
      | Heq : GoStrings.eqb (at_ parts 1) _ = true |- _ =>
          apply eqb_true in Heq; rewrite Heq; reflexivity
      end.
  - unfold Scala.generateScalaVersionMatrix.
    set (parts := GoStrings.Split _ _). cbv zeta. intros -> Hlen.
    destruct (llen parts <? 2) eqn:E; [apply Z.ltb_lt in E; lia|].
    reflexivity.
Qed.

Lemma matrix_starts_at_release_line_witness :
  hd "" (Elixir.generateElixirVersionMatrix "~> 1.15") = "1.15" /\
  Scala.generateScalaVersionMatrix "3.5.0" = ["3.3"; "3.4"].
Proof.
  destruct (matrix_starts_at_release_line "~> 1.15") as [Helixir _].
  destruct (matrix_starts_at_release_line "3.5.0") as (_ & _ & Hscala).
  split; [apply Helixir; reflexivity | apply Hscala; [reflexivity|]].
  vm_compute. discriminate.
Defined.
(** ** The Scala extractor *)

(** *** A pattern that begins with a literal *)

Lemma run_literal (s : string) :
  forall (at0 : bool) (text : string) (cs : Regexp.caps) (k : Regexp.cont)
         (res : string * Regexp.caps),
    Regexp.run (Regexp.lit s) at0 text cs k = Some res ->
    GoStrings.HasPrefix text s = true.
Proof.
  induction s as [|c s IH]; intros at0 text cs k res.
  - intros _. apply HasPrefix_empty.
  - cbn [Regexp.lit Regexp.run Regexp.ch].
    destruct text as [|x text]; [discriminate|].
    unfold Chars.chr. destruct (Ascii.eqb c x) eqn:E; [|discriminate].
    intros H. apply IH in H.
    cbn [GoStrings.HasPrefix]. rewrite E, H. reflexivity.
Qed.

Lemma search_literal (s : string) (r : Regexp.regex) (text : string) :
  forall (at0 : bool) (res : string * Regexp.caps),
    Regexp.search (Regexp.Group 0 (Regexp.Cat (Regexp.lit s) r)) at0 text
    = Some res ->
    GoStrings.Contains text s = true.
Proof.
  induction text as [|x text IH]; intros at0 res;
    cbn [Regexp.search GoStrings.Contains].
  - destruct (Regexp.run _ at0 "" [] Regexp.accept) eqn:E; [|discriminate].
    intros _. cbn [Regexp.run] in E. apply run_literal in E. rewrite E.
    reflexivity.
  - destruct (Regexp.run _ at0 (String x text) [] Regexp.accept) eqn:E.
    + intros _. cbn [Regexp.run] in E. apply run_literal in E. rewrite E.
      reflexivity.
    + intros H. apply IH in H. rewrite H. apply orb_true_r.
Qed.

(** A pattern that begins with a literal matches no text without it. *)
Lemma FindStringSubmatch_literal (s : string) (r : Regexp.regex)
    (text : string) :
  GoStrings.Contains text s = false ->
  Regexp.FindStringSubmatch (Regexp.Cat (Regexp.lit s) r) text = None.
Proof.
  intros Hno. unfold Regexp.FindStringSubmatch.
  destruct (Regexp.search _ true text) as [[rest cs]|] eqn:E; [|reflexivity].
  apply search_literal in E. congruence.
Qed.

(** *** The block of libraryDependencies *)

Lemma sbt_line_flag st text :
  Scala.sb_inLibraryDependencies st = (0 <? Scala.sb_parenDepth st) ->
  Scala.sb_inLibraryDependencies (Scala.sbt_line st text)
  = (0 <? Scala.sb_parenDepth (Scala.sbt_line st text)).
Proof.
  intros H. unfold Scala.sbt_line.
  destruct (GoStrings.HasPrefix _ _); [exact H|].
  destruct (_ && _);
    [|destruct (Scala.sb_inLibraryDependencies st) eqn:E];
    cbn [Scala.sb_inLibraryDependencies Scala.sb_parenDepth];
    try match goal with
        | |- context [?d <=? 0] => destruct (d <=? 0) eqn:Hd
        end;
    cbn [negb]; symmetry;
    first [ apply Z.ltb_lt; apply Z.leb_gt in Hd; lia
          | apply Z.ltb_ge; apply Z.leb_le in Hd; lia
          | reflexivity
          | exact (eq_sym H) ].
Qed.

(** X17.  While build.sbt is read, the flag [inLibraryDependencies] and
    the counter [parenDepth] never disagree: after every line the flag is
    set exactly when the depth is positive. *)
Theorem sbt_block_flag_is_depth (lines : list string)
    (metadata : ProjectMetadata) :
  let st := fold_left Scala.sbt_line lines (sbt_start metadata) in
  Scala.sb_inLibraryDependencies st = (0 <? Scala.sb_parenDepth st).
Proof.
  apply (fold_left_invariant
           (fun st => Scala.sb_inLibraryDependencies st
                      = (0 <? Scala.sb_parenDepth st)));
    [intros; apply sbt_line_flag; assumption | reflexivity].
Qed.

Lemma sbt_line_no_keyword st text :
  GoStrings.Contains (GoStrings.TrimSpace text) "libraryDependencies" = false ->
  Scala.sb_inLibraryDependencies st = false ->
  Scala.sb_inLibraryDependencies (Scala.sbt_line st text) = false /\
  Scala.sb_dependencies (Scala.sbt_line st text) = Scala.sb_dependencies st.
Proof.
  intros Hno Hout. unfold Scala.sbt_line. cbv zeta.
  destruct (GoStrings.HasPrefix _ _); [split; [exact Hout | reflexivity]|].
  rewrite Hno, Hout.
  cbn [andb Scala.sb_inLibraryDependencies Scala.sb_dependencies].
  split; [reflexivity|].
  assert (Hnone : Regexp.FindStringSubmatch Scala.libraryDependencyRegex
                    (GoStrings.TrimSpace text) = None)
    by exact (FindStringSubmatch_literal "libraryDependencies" _ _ Hno).
  unfold on_match. rewrite Hnone. reflexivity.
Qed.

Lemma store_dependencies_nil (md : ProjectMetadata) :
  store_dependencies [] md = md.
Proof. reflexivity. Qed.

(** X18.  A build.sbt in which no line holds the word
    [libraryDependencies] adds no dependency, however many lines of it
    look like one: extractFromBuildSbt leaves [dependencies] and
    [dependency_count] as they were. *)
Theorem sbt_dependencies_need_keyword (fs : dir) (path data : string)
    (metadata : ProjectMetadata) :
  fs path = Contents data ->
  Forall (fun text =>
            GoStrings.Contains (GoStrings.TrimSpace text)
              "libraryDependencies" = false)
         (fst (Scanner.scan data)) ->
  let md := fst (Scala.extractFromBuildSbt fs path metadata) in
  get_ls "dependencies" md = get_ls "dependencies" metadata /\
  get_ls "dependency_count" md = get_ls "dependency_count" metadata.
Proof.
  intros Hfile Hlines. cbv zeta. unfold Scala.extractFromBuildSbt.
  rewrite Hfile.
  destruct (Scanner.scan data) as [lines e]. cbn [fst] in Hlines.
  change {| Scala.sb_metadata := metadata; Scala.sb_dependencies := [];
            Scala.sb_scalaVersion := "";
            Scala.sb_inLibraryDependencies := false;
            Scala.sb_parenDepth := 0 |} with (sbt_start metadata).
  set (st := fold_left Scala.sbt_line lines (sbt_start metadata)).
  assert (Hkeys : forall k, k <> "organization" ->
             get_ls k (Scala.sb_metadata st) = get_ls k metadata).
  { intros k Hk. unfold st.
    rewrite (fold_left_field (fun s => get_ls k (Scala.sb_metadata s)));
      [reflexivity | intros; apply sbt_line_get_ls, Hk]. }
  assert (Hdeps : Scala.sb_inLibraryDependencies st = false /\
                  Scala.sb_dependencies st = []).
  { unfold st.
    apply (fold_left_invariant_in
             (fun s => Scala.sb_inLibraryDependencies s = false /\
                       Scala.sb_dependencies s = []));
      [|split; reflexivity].
    intros s text Hin [Hout Hnone].
    rewrite List.Forall_forall in Hlines.
    destruct (sbt_line_no_keyword s text (Hlines _ Hin) Hout) as [H1 H2].
    split; [exact H1 | rewrite H2; exact Hnone]. }
  destruct Hdeps as [_ Hdeps].
  destruct e; cbn [fst]; [split; apply Hkeys; discriminate|].
  rewrite Hdeps, store_dependencies_nil.
  destruct (nonempty _); [destruct (0 <? llen _)|];
    rewrite ?get_set_ls_other by discriminate;
    split; apply Hkeys; discriminate.
Qed.

Lemma sbt_dependencies_need_keyword_witness :
  get_ls "dependencies"
    (fst (Scala.extractFromBuildSbt
            (Fixtures.single "build.sbt"
               (Contents (Fixtures.dq "  `org.typelevel` %% `cats-core` % `2.10.0`")))
            "build.sbt" new_metadata))
  = None.
Proof.
  apply (sbt_dependencies_need_keyword
           (Fixtures.single "build.sbt"
              (Contents (Fixtures.dq "  `org.typelevel` %% `cats-core` % `2.10.0`")))
           "build.sbt"
           (Fixtures.dq "  `org.typelevel` %% `cats-core` % `2.10.0`")
           new_metadata);
    [reflexivity|].
  vm_compute. repeat constructor.
Defined.

(** *** The name of a Mill project *)

Lemma mill_line_named st text :
  Name (Scala.ml_metadata st) <> "" ->
  Name (Scala.ml_metadata (Scala.mill_line st text))
  = Name (Scala.ml_metadata st).
Proof.
  intros Hne. unfold Scala.mill_line.
  destruct (GoStrings.HasPrefix _ _); [reflexivity|].
  cbn [Scala.ml_metadata]. unfold on_match.
  destruct (Regexp.FindStringSubmatch _ _); [|reflexivity].
  rewrite (eqb_empty_false _ Hne). reflexivity.
Qed.

Lemma mill_lines_named lines st :
  Name (Scala.ml_metadata st) <> "" ->
  Name (Scala.ml_metadata (fold_left Scala.mill_line lines st))
  = Name (Scala.ml_metadata st).
Proof.
  revert st. induction lines as [|l lines IH]; intros st Hne; [reflexivity|].
  cbn [fold_left]. pose proof (mill_line_named st l Hne) as Hl.
  rewrite IH by (rewrite Hl; exact Hne). exact Hl.
Qed.

Lemma mill_line_unnamed st text :
  Regexp.FindStringSubmatch Scala.objectRegex (GoStrings.TrimSpace text)
  = None ->
  Scala.ml_metadata (Scala.mill_line st text) = Scala.ml_metadata st.
Proof.
  intros Hno. unfold Scala.mill_line.
  destruct (GoStrings.HasPrefix _ _); [reflexivity|].
  cbn [Scala.ml_metadata]. unfold on_match. rewrite Hno. reflexivity.
Qed.

(** The closing writes of extractFromMill go to [LanguageSpecific]. *)
Lemma extractFromMill_Name fs path data metadata :
  fs path = Contents data ->
  Name (fst (Scala.extractFromMill fs path metadata))
  = Name (Scala.ml_metadata
            (fold_left Scala.mill_line (fst (Scanner.scan data))
               (mill_start metadata))).
Proof.
  assert (Hfree : forall m ls,
             Name {| Name := Name m; Version := Version m;
                     VersionSource := VersionSource m;
                     Description := Description m;
                     Homepage := Homepage m; License := License m;
                     Repository := Repository m; Authors := Authors m;
                     LanguageSpecific := ls |} = Name m)
    by reflexivity.
  intros Hfile. unfold Scala.extractFromMill. rewrite Hfile.
  destruct (Scanner.scan data) as [lines [e|]]; cbn [fst]; [reflexivity|].
  rewrite (untouched_store_dependencies Name Hfree).
  destruct (nonempty _); rewrite ?(untouched_set_ls Name Hfree); reflexivity.
Qed.

(** X19.  A Mill build names the project after its first object: a name
    that the record already has is never replaced, and on a record
    without a name the first line of build.sc that declares an object
    decides, later declarations being ignored. *)
Theorem mill_name_is_first_object (fs : dir) (path data : string)
    (metadata : ProjectMetadata) (before after : list string)
    (line : string) (m : list string) :
  fs path = Contents data ->
  (Name metadata <> "" ->
   Name (fst (Scala.extractFromMill fs path metadata)) = Name metadata) /\
  (Name metadata = "" ->
   fst (Scanner.scan data) = before ++ line :: after ->
   Forall (fun text =>
             Regexp.FindStringSubmatch Scala.objectRegex
               (GoStrings.TrimSpace text) = None) before ->
   GoStrings.HasPrefix (GoStrings.TrimSpace line) "//" = false ->
   Regexp.FindStringSubmatch Scala.objectRegex (GoStrings.TrimSpace line)
   = Some m ->
   Name (fst (Scala.extractFromMill fs path metadata)) = at_ m 1).
Proof.
  intros Hfile. rewrite (extractFromMill_Name fs path data metadata Hfile).
  split.
  - intros Hne. apply (mill_lines_named _ (mill_start metadata)), Hne.
  - intros Hnone -> Hbefore Hcode Hline.
    rewrite fold_left_app. cbn [fold_left].
    assert (Hskip : Scala.ml_metadata
                      (fold_left Scala.mill_line before (mill_start metadata))
                    = metadata).
    { apply (fold_left_invariant_in
               (fun st => Scala.ml_metadata st = metadata));
        [|reflexivity].
      intros st text Hin Hst. rewrite List.Forall_forall in Hbefore.
      rewrite (mill_line_unnamed st text (Hbefore _ Hin)). exact Hst. }
    set (st := fold_left Scala.mill_line before (mill_start metadata)) in *.
    assert (Hne : at_ m 1 <> "")
      by (eapply FindStringSubmatch_binds;
          [exact Hline | reflexivity | simpl; lia]).
    assert (Hnamed : Name (Scala.ml_metadata (Scala.mill_line st line))
                     = at_ m 1).
    { unfold Scala.mill_line. rewrite Hcode. cbn [Scala.ml_metadata].
      unfold on_match. rewrite Hline, Hskip, Hnone. reflexivity. }
    rewrite mill_lines_named by (rewrite Hnamed; exact Hne).
    exact Hnamed.
Qed.

Lemma mill_name_is_first_object_witness :
  Name (fst (Scala.extractFromMill
               (Fixtures.single "build.sc"
                  (Contents "object app extends ScalaModule"))
               "build.sc" (set_Name "service" new_metadata)))
  = "service".
Proof.
  apply (mill_name_is_first_object
           (Fixtures.single "build.sc"
              (Contents "object app extends ScalaModule"))
           "build.sc" "object app extends ScalaModule"
           (set_Name "service" new_metadata) [] [] "" []).
  - reflexivity.
  - discriminate.
Defined.
(** ** Lists of the C/C++ parsers *)

Lemma pkg_name_no_space (m : list string) :
  GoStrings.Contains (Cpp.pkg_name m) " " = false.
Proof.
  unfold Cpp.pkg_name.
  pose proof (Split_pieces (GoStrings.TrimSpace (at_ m 1)) " ") as H.
  destruct (GoStrings.Split _ _) as [|p ps]; [reflexivity|].
  inversion H; subst. assumption.
Qed.

Lemma autotools_line_names st text :
  Forall (fun d => GoStrings.Contains d " " = false) (snd st) ->
  Forall (fun d => GoStrings.Contains d " " = false)
         (snd (Cpp.autotools_line st text)).
Proof.
  intros H. unfold Cpp.autotools_line.
  destruct (_ || _); [exact H|]. cbn [snd]. unfold on_match.
  destruct (Regexp.FindStringSubmatch Cpp.pkgCheckRegex _); [|exact H].
  apply Forall_app. split; [exact H|].
  constructor; [apply pkg_name_no_space | constructor].
Qed.

(** X20.  The dependencies that extractFromAutotools records are bare
    module names: whatever follows the first space of the module list of
    PKG_CHECK_MODULES, such as a version constraint, is dropped, so no
    recorded name holds a space. *)
Theorem autotools_dependencies_bare (fs : dir) (path : string)
    (metadata : ProjectMetadata) (l : list string) :
  get_ls "dependencies" (fst (Cpp.extractFromAutotools fs path metadata))
  = Some (VStrings l) ->
  get_ls "dependencies" metadata = Some (VStrings l) \/
  Forall (fun d => GoStrings.Contains d " " = false) l.
Proof.
  unfold Cpp.extractFromAutotools.
  destruct (fs path) as [| |data]; cbn [fst]; auto.
  destruct (Scanner.scan data) as [lines e]. cbn [fst].
  set (st := fold_left Cpp.autotools_line lines (metadata, [])).
  assert (Hnames : Forall (fun d => GoStrings.Contains d " " = false)
                     (snd st)).
  { apply (fold_left_invariant
             (fun s => Forall (fun d => GoStrings.Contains d " " = false)
                         (snd s)));
      [intros; apply autotools_line_names; assumption | constructor]. }
  assert (Hls : LanguageSpecific (fst st) = LanguageSpecific metadata).
  { apply (fold_left_invariant
             (fun s => LanguageSpecific (fst s) = LanguageSpecific metadata));
      [|reflexivity].
    intros s text Hs. unfold Cpp.autotools_line.
    destruct (_ || _); [exact Hs|]. cbn [fst].
    rewrite (on_match_field LanguageSpecific); [exact Hs|].
    intros m x. unfold Cpp.ac_init. destruct (2 <? llen m); reflexivity. }
  unfold store_dependencies.
  destruct (0 <? llen (snd st)).
  - rewrite get_set_ls_other by discriminate.
    unfold get_ls at 1, set_ls.
    destruct (LanguageSpecific (fst st)) as [ls|] eqn:E; [|rewrite E; discriminate].
    cbn [LanguageSpecific]. rewrite lookup_insert_eq.
    intros [= <-]. right. exact Hnames.
  - unfold get_ls. rewrite Hls. auto.
Qed.

Lemma autotools_dependencies_bare_witness :
  Forall (fun d => GoStrings.Contains d " " = false) ["glib-2.0"].
Proof.
  destruct (autotools_dependencies_bare
              (Fixtures.single "configure.ac"
                 (Contents "PKG_CHECK_MODULES([GLIB], [glib-2.0 >= 2.50])"))
              "configure.ac" new_metadata ["glib-2.0"]) as [H|H].
  - vm_compute. reflexivity.
  - vm_compute in H. discriminate.
  - exact H.
Defined.

(** Reading a line of CMakeLists.txt writes no entry of
    [LanguageSpecific] but the two language standards. *)
Lemma cmake_line_get_ls (k : string) st text :
  k <> "cxx_standard" -> k <> "c_standard" ->
  get_ls k (Cpp.cm_metadata (Cpp.cmake_line st text))
  = get_ls k (Cpp.cm_metadata st).
Proof.
  intros H1 H2. unfold Cpp.cmake_line.
  destruct (GoStrings.HasPrefix _ _); [reflexivity|].
  cbn [Cpp.cm_metadata].
  rewrite !(on_match_field (get_ls k)); try reflexivity; intros;
    try (apply get_set_ls_other; assumption).
  unfold Cpp.cmake_project.
  repeat match goal with
         | |- context [if ?b then _ else _] => destruct b
         end; reflexivity.
Qed.

(** X21.  extractFromCMake stores its lists only after a complete scan:
    when CMakeLists.txt cannot be opened, or a line of it is too long for
    the scanner, the record gets none of [executables], [libraries],
    [dependencies] and [dependency_count], whatever the lines read so far
    declared. *)
Theorem cmake_failed_scan_stores_no_list (fs : dir) (path : string)
    (metadata : ProjectMetadata) (k : string) :
  scans (fs path) = false ->
  In k ["executables"; "libraries"; "dependencies"; "dependency_count"] ->
  get_ls k (fst (Cpp.extractFromCMake fs path metadata)) = get_ls k metadata.
Proof.
  intros Hscan Hk. unfold Cpp.extractFromCMake, scans in *.
  destruct (fs path) as [| |data]; try reflexivity.
  destruct (Scanner.scan data) as [lines [e|]]; [|discriminate].
  cbn [fst].
  apply (fold_left_field (fun st => get_ls k (Cpp.cm_metadata st))).
  intros st text. apply cmake_line_get_ls;
    intros ->; simpl in Hk; repeat destruct Hk as [Hk|Hk];
    discriminate || exact Hk.
Qed.

Lemma cmake_failed_scan_stores_no_list_witness :
  get_ls "dependencies"
    (fst (Cpp.extractFromCMake
            (Fixtures.single "CMakeLists.txt"
               (Contents ("find_package(Boost)" +:+ String Chars.newline
                            over_long_line)))
            "CMakeLists.txt" new_metadata))
  = None.
Proof.
  apply (cmake_failed_scan_stores_no_list
           (Fixtures.single "CMakeLists.txt"
              (Contents ("find_package(Boost)" +:+ String Chars.newline
                           over_long_line)))
           "CMakeLists.txt" new_metadata "dependencies").
  - vm_compute. reflexivity.
  - simpl. tauto.
Defined.
(** ** The files that [Extract] reads *)

Lemma extractFromCMake_reads fs fs' path md :
  fs path = fs' path ->
  Cpp.extractFromCMake fs path md = Cpp.extractFromCMake fs' path md.
Proof. intros H. unfold Cpp.extractFromCMake. rewrite H. reflexivity. Qed.

Lemma extractFromQmake_reads fs fs' path md :
  fs path = fs' path ->
  Cpp.extractFromQmake fs path md = Cpp.extractFromQmake fs' path md.
Proof. intros H. unfold Cpp.extractFromQmake. rewrite H. reflexivity. Qed.

Lemma extractFromMeson_reads fs fs' path md :
  fs path = fs' path ->
  Cpp.extractFromMeson fs path md = Cpp.extractFromMeson fs' path md.
Proof. intros H. unfold Cpp.extractFromMeson. rewrite H. reflexivity. Qed.

Lemma extractFromAutotools_reads fs fs' path md :
  fs path = fs' path ->
  Cpp.extractFromAutotools fs path md = Cpp.extractFromAutotools fs' path md.
Proof. intros H. unfold Cpp.extractFromAutotools. rewrite H. reflexivity. Qed.

Lemma try_build_file_reads fs fs' path label parse md :
  fs path = fs' path ->
  parse fs path md = parse fs' path md ->
  Cpp.try_build_file fs path label parse md
  = Cpp.try_build_file fs' path label parse md.
Proof.
  intros H Hparse. unfold Cpp.try_build_file. rewrite H, Hparse. reflexivity.
Qed.

(** X22.  [Extract] reads the build files it parses and nothing else.  The
    C/C++ one depends on CMakeLists.txt, .qmake.conf, meson.build and
    configure.ac only (a Makefile makes [Detect] accept the project but is
    never read), the Scala one on build.sbt, build.sc and
    project/build.properties only (not on pom.xml), the Elixir one on
    mix.exs only: two directories that agree on these files give the same
    result. *)
Theorem Extract_reads_only (fs fs' : dir) :
  (Forall (fun name => fs name = fs' name)
     ["CMakeLists.txt"; ".qmake.conf"; "meson.build"; "configure.ac"] ->
   Cpp.Extract fs = Cpp.Extract fs') /\
  (Forall (fun name => fs name = fs' name)
     ["build.sbt"; "build.sc"; "project/build.properties"] ->
   Scala.Extract fs = Scala.Extract fs') /\
  (fs "mix.exs" = fs' "mix.exs" -> Elixir.Extract fs = Elixir.Extract fs').
Proof.
  split; [|split].
  - intros H.
    inversion H as [|? ? Hcmake H1]; subst.
    inversion H1 as [|? ? Hqmake H2]; subst.
    inversion H2 as [|? ? Hmeson H3]; subst.
    inversion H3 as [|? ? Hac _]; subst.
    unfold Cpp.Extract.
    rewrite (try_build_file_reads fs fs' "CMakeLists.txt")
      by auto using extractFromCMake_reads.
    destruct (Cpp.try_build_file fs' "CMakeLists.txt" _ _ _) as [m1|m1];
      [reflexivity|].
    rewrite (try_build_file_reads fs fs' ".qmake.conf")
      by auto using extractFromQmake_reads.
    destruct (Cpp.try_build_file fs' ".qmake.conf" _ _ _) as [m2|m2];
      [reflexivity|].
    rewrite (try_build_file_reads fs fs' "meson.build")
      by auto using extractFromMeson_reads.
    destruct (Cpp.try_build_file fs' "meson.build" _ _ _) as [m3|m3];
      [reflexivity|].
    rewrite (try_build_file_reads fs fs' "configure.ac")
      by auto using extractFromAutotools_reads.
    reflexivity.
  - intros H.
    inversion H as [|? ? Hsbt H1]; subst.
    inversion H1 as [|? ? Hsc H2]; subst.
    inversion H2 as [|? ? Hprops _]; subst.
    unfold Scala.Extract, Scala.extractFromBuildSbt, Scala.extractFromMill,
      Scala.extractSbtVersion.
    rewrite Hsbt, Hsc, Hprops. reflexivity.
  - intros Hmix. unfold Elixir.Extract, Elixir.extractFromMixExs.
    rewrite Hmix. reflexivity.
Qed.

Lemma Extract_reads_only_witness :
  Cpp.Extract (Fixtures.single "Makefile" (Contents "all: app"))
  = Cpp.Extract Fixtures.empty_dir.
Proof.
  apply (Extract_reads_only (Fixtures.single "Makefile" (Contents "all: app"))
           Fixtures.empty_dir).
  repeat constructor.
Defined.
(** ** The bytes of a capture *)

Section CaptureClasses.

Import Regexp.

Variable p : ascii -> bool.
Variable i : nat.

Lemma all_bytes_complete (c : ascii) : In c all_bytes.
Proof.
  unfold all_bytes. rewrite <- (ascii_nat_embedding c).
  apply in_map, in_seq. pose proof (nat_ascii_bounded c). lia.
Qed.

Lemma within_class (q : ascii -> bool) (c : ascii) :
  within p q = true -> q c = true -> p c = true.
Proof.
  unfold within. intros H Hq. rewrite forallb_forall in H.
  specialize (H c (all_bytes_complete c)). rewrite Hq in H. exact H.
Qed.

Lemma all_of_append (a b : string) :
  all_of p (a +:+ b) = all_of p a && all_of p b.
Proof.
  induction a as [|c a IH]; [reflexivity|].
  change (String c a +:+ b) with (String c (a +:+ b)).
  cbn [all_of]. rewrite IH, andb_assoc. reflexivity.
Qed.

Lemma length_of_append (a b : string) :
  String.length (a +:+ b) = (String.length a + String.length b)%nat.
Proof.
  induction a as [|c a IH]; [reflexivity|].
  change (String c a +:+ b) with (String c (a +:+ b)).
  cbn [String.length]. rewrite IH. reflexivity.
Qed.

Lemma take_consumed (pre rest : string) :
  GoStrings.take (String.length (pre +:+ rest) - String.length rest)
                 (pre +:+ rest)
  = pre.
Proof.
  rewrite length_of_append.
  replace (String.length pre + String.length rest - String.length rest)%nat
    with (String.length pre) by lia.
  apply take_append.
Qed.

(** A successful [star] has taken bytes of its class only. *)
Lemma star_consumed (q : ascii -> bool) (k : cont) (cs : caps)
    (res : string * caps) (s : string) (at0 : bool) :
  star q at0 s cs k = Some res ->
  exists b pre s',
    k b s' cs = Some res /\ s = pre +:+ s' /\
    (within p q = true -> all_of p pre = true).
Proof.
  revert at0. induction s as [|c s IH]; intros at0; cbn [star].
  - intros H. exists at0, "", "". repeat split; auto.
  - destruct (q c) eqn:Hq.
    + destruct (star q false s cs k) as [r|] eqn:E.
      * intros [= <-].
        destruct (IH false E) as (b & pre & s' & Hk & -> & Hpre).
        exists b, (String c pre), s'. repeat split; [exact Hk|].
        intros Hw. cbn [all_of].
        rewrite (within_class q c Hw Hq), (Hpre Hw). reflexivity.
      * intros H. exists at0, "", (String c s). repeat split; auto.
    + intros H. exists at0, "", (String c s). repeat split; auto.
Qed.

(** What a successful [run] has taken, and what it has bound. *)
Definition consumed (r : regex) (s pre s' : string) (cs cs' : caps) : Prop :=
  s = pre +:+ s' /\
  (over p r = true -> all_of p pre = true) /\
  (captures_over i p r = true ->
   all_of p (capture i cs) = true -> all_of p (capture i cs') = true).

Lemma run_consumed (r : regex) :
  forall (at0 : bool) (s : string) (cs : caps) (k : cont)
         (res : string * caps),
    run r at0 s cs k = Some res ->
    exists b pre s' cs',
      k b s' cs' = Some res /\ consumed r s pre s' cs cs'.
Proof.
  unfold consumed.
  induction r as [| |q|r1 IH1 r2 IH2|r1 IH1 r2 IH2|q|j r IH];
    intros at0 s cs k res; cbn [run over captures_over].
  - intros H. exists at0, "", s, cs. repeat split; auto.
  - destruct at0; [|discriminate]. intros H. exists true, "", s, cs.
    repeat split; auto.
  - destruct s as [|c s]; [discriminate|].
    destruct (q c) eqn:Hq; [|discriminate].
    intros H. exists false, (String c ""), s, cs.
    repeat split; auto.
    intros Hw. cbn [all_of]. rewrite (within_class q c Hw Hq). reflexivity.
  - intros H.
    destruct (IH1 _ _ _ _ _ H) as (b1 & pre1 & s1 & cs1 & H1 & -> & O1 & C1).
    destruct (IH2 _ _ _ _ _ H1) as (b2 & pre2 & s2 & cs2 & H2 & -> & O2 & C2).
    exists b2, (pre1 +:+ pre2), s2, cs2. split; [exact H2|].
    split; [symmetry; apply append_assoc|]. split.
    + intros Ho. apply andb_true_iff in Ho as [Ho1 Ho2].
      rewrite all_of_append, (O1 Ho1), (O2 Ho2). reflexivity.
    + intros Hc. apply andb_true_iff in Hc as [Hc1 Hc2]. auto.
  - destruct (run r1 at0 s cs k) as [r|] eqn:E.
    + intros [= <-].
      destruct (IH1 _ _ _ _ _ E) as (b & pre & s' & cs' & H1 & -> & O1 & C1).
      exists b, pre, s', cs'. split; [exact H1|]. split; [reflexivity|].
      split; intros H; apply andb_true_iff in H as [H _]; auto.
    + intros H.
      destruct (IH2 _ _ _ _ _ H) as (b & pre & s' & cs' & H2 & -> & O2 & C2).
      exists b, pre, s', cs'. split; [exact H2|]. split; [reflexivity|].
      split; intros H'; apply andb_true_iff in H' as [_ H']; auto.
  - intros H.
    destruct (star_consumed _ _ _ _ _ _ H) as (b & pre & s' & Hk & -> & O).
    exists b, pre, s', cs. repeat split; auto.
  - intros H.
    destruct (IH _ _ _ _ _ H) as (b & pre & s' & cs' & Hk & -> & O & C).
    rewrite take_consumed in Hk.
    exists b, pre, s', ((j, pre) :: cs'). split; [exact Hk|].
    split; [reflexivity|]. split; [exact O|].
    intros Hc Hcs. apply andb_true_iff in Hc as [Hj Hc].
    cbn [capture]. destruct (Nat.eqb i j); auto.
Qed.

(** A group whose pattern takes bytes of a class only is bound, in the
    slice returned by [FindStringSubmatch], to bytes of the class. *)
Lemma FindStringSubmatch_over (r : regex) (s : string) (m : list string) :
  FindStringSubmatch r s = Some m ->
  captures_over i p (Group 0 r) = true -> (i <= groups r)%nat ->
  all_of p (at_ m i) = true.
Proof.
  unfold FindStringSubmatch. intros H Hc Hi.
  destruct (search (Group 0 r) true s) as [[rest cs]|] eqn:E; [|discriminate].
  injection H as <-. rewrite at_submatches by exact Hi.
  destruct (search_runs _ _ _ _ E) as (b & s0 & Hrun).
  destruct (run_consumed _ _ _ _ _ _ Hrun)
    as (b' & pre & s' & cs' & Hk & _ & _ & C).
  unfold accept in Hk. injection Hk as _ <-. apply C; [exact Hc | reflexivity].
Qed.

End CaptureClasses.
(** ** The form of versions and names *)

Lemma numeric_version_same (m m' : ProjectMetadata) :
  Version m' = Version m -> VersionSource m' = VersionSource m ->
  numeric_version m -> numeric_version m'.
Proof. unfold numeric_version. intros -> ->. auto. Qed.

Lemma numeric_version_set_ls k v m :
  numeric_version m -> numeric_version (set_ls k v m).
Proof.
  apply numeric_version_same; unfold set_ls;
    destruct (LanguageSpecific m); reflexivity.
Qed.

Lemma numeric_version_store_list k l m :
  numeric_version m -> numeric_version (store_list k l m).
Proof.
  intros H. unfold store_list.
  destruct (0 <? llen l); [apply numeric_version_set_ls|]; exact H.
Qed.

Lemma numeric_version_store_dependencies l m :
  numeric_version m -> numeric_version (store_dependencies l m).
Proof.
  intros H. unfold store_dependencies.
  destruct (0 <? llen l); [do 2 apply numeric_version_set_ls|]; exact H.
Qed.

Lemma numeric_version_set (v src : string) m :
  numeric v = true -> numeric_version (set_Version v src m).
Proof. intros H _. exact H. Qed.

Lemma numeric_version_elsewhere (v src : string) m :
  src <> "CMakeLists.txt" -> src <> ".qmake.conf" ->
  numeric_version (set_Version v src m).
Proof. intros H1 H2 [H|H]; simpl in H; contradiction. Qed.

Lemma cmake_line_numeric st text :
  numeric_version (Cpp.cm_metadata st) ->
  numeric_version (Cpp.cm_metadata (Cpp.cmake_line st text)).
Proof.
  intros H. unfold Cpp.cmake_line.
  destruct (GoStrings.HasPrefix _ _); [exact H|]. cbn [Cpp.cm_metadata].
  do 2 (apply on_match_invariant;
        [intros; apply numeric_version_set_ls; assumption|]).
  apply on_match_invariant; [|exact H].
  intros m x Hm Hx. unfold Cpp.cmake_project.
  assert (Hname : numeric_version (set_Name (at_ m 1) x))
    by (revert Hx; apply numeric_version_same; reflexivity).
  assert (Hversion :
            numeric_version
              (if (2 <? llen m) && nonempty (at_ m 2)
               then set_Version (at_ m 2) "CMakeLists.txt"
                      (set_Name (at_ m 1) x)
               else set_Name (at_ m 1) x)).
  { destruct (_ && _); [|exact Hname].
    apply numeric_version_set.
    apply (FindStringSubmatch_over _ 2 _ _ _ Hm);
      [vm_compute; reflexivity | simpl; lia]. }
  destruct (_ && nonempty (at_ m 3)); [|exact Hversion].
  revert Hversion. apply numeric_version_same; reflexivity.
Qed.

Lemma extractFromCMake_numeric fs path md :
  numeric_version md -> numeric_version (fst (Cpp.extractFromCMake fs path md)).
Proof.
  intros H. unfold Cpp.extractFromCMake.
  destruct (fs path) as [| |data]; try exact H.
  destruct (Scanner.scan data) as [lines e].
  assert (Hst : forall init,
             numeric_version (Cpp.cm_metadata init) ->
             numeric_version
               (Cpp.cm_metadata (fold_left Cpp.cmake_line lines init))).
  { intros init Hinit.
    apply (fold_left_invariant
             (fun st => numeric_version (Cpp.cm_metadata st)));
      [intros; apply cmake_line_numeric; assumption | exact Hinit]. }
  destruct e; cbn [fst]; [apply Hst, H|].
  apply numeric_version_store_dependencies.
  do 2 apply numeric_version_store_list. apply Hst, H.
Qed.

Lemma on_match_gt1_numeric r line src md :
  captures_over 1 (fun c => Chars.digit c || Chars.chr "." c)
    (Regexp.Group 0 r) = true ->
  (1 <= Regexp.groups r)%nat ->
  numeric_version md ->
  numeric_version
    (Cpp.on_match_gt1 r line (fun m => set_Version (at_ m 1) src) md).
Proof.
  intros Hc Hg H. unfold Cpp.on_match_gt1.
  destruct (Regexp.FindStringSubmatch r line) as [m|] eqn:Hm; [|exact H].
  destruct (1 <? llen m); [|exact H].
  apply numeric_version_set.
  exact (FindStringSubmatch_over _ 1 _ _ _ Hm Hc Hg).
Qed.

Lemma extractFromQmake_numeric fs path md :
  numeric_version md -> numeric_version (fst (Cpp.extractFromQmake fs path md)).
Proof.
  intros H. unfold Cpp.extractFromQmake.
  destruct (fs path) as [| |data]; try exact H.
  destruct (Scanner.scan data) as [lines e]. cbn [fst].
  apply fold_left_invariant; [|exact H].
  intros m line Hm. unfold Cpp.qmake_line.
  assert (Hmodule :
            numeric_version
              (Cpp.on_match_gt1 Cpp.moduleVersionRegex line
                 (fun m0 => set_Version (at_ m0 1) ".qmake.conf") m))
    by (apply on_match_gt1_numeric;
        [vm_compute; reflexivity | simpl; lia | exact Hm]).
  destruct (GoStrings.eqb _ _); [|exact Hmodule].
  apply on_match_gt1_numeric;
    [vm_compute; reflexivity | simpl; lia | exact Hmodule].
Qed.

Lemma extractFromMeson_numeric fs path md :
  numeric_version md -> numeric_version (fst (Cpp.extractFromMeson fs path md)).
Proof.
  intros H. unfold Cpp.extractFromMeson.
  destruct (fs path) as [| |content]; try exact H.
  cbn [fst]. unfold Cpp.meson_fields.
  apply numeric_version_store_dependencies.
  do 2 apply numeric_version_store_list.
  apply on_match_invariant;
    [intros; apply numeric_version_elsewhere; discriminate|].
  apply on_match_invariant; [|exact H].
  intros m x _. apply numeric_version_same; reflexivity.
Qed.

Lemma extractFromAutotools_numeric fs path md :
  numeric_version md ->
  numeric_version (fst (Cpp.extractFromAutotools fs path md)).
Proof.
  intros H. unfold Cpp.extractFromAutotools.
  destruct (fs path) as [| |data]; try exact H.
  destruct (Scanner.scan data) as [lines e]. cbn [fst].
  apply numeric_version_store_dependencies.
  apply (fold_left_invariant (fun st => numeric_version (fst st)));
    [|exact H].
  intros st text Hst. unfold Cpp.autotools_line.
  destruct (_ || _); [exact Hst|]. cbn [fst].
  apply on_match_invariant; [|exact Hst].
  intros m x _ Hx. unfold Cpp.ac_init.
  destruct (2 <? llen m);
    [apply numeric_version_elsewhere; discriminate|].
  revert Hx. apply numeric_version_same; reflexivity.
Qed.

(** X23.  A version that the C/C++ extractor takes from CMakeLists.txt or
    from .qmake.conf consists of digits and dots only: whenever the
    record names one of the two as [VersionSource], its [Version] is
    numeric.  (meson.build and configure.ac give no such guarantee.) *)
Theorem cpp_version_numeric (fs : dir) (md : ProjectMetadata) :
  Cpp.Extract fs = Ok md ->
  VersionSource md = "CMakeLists.txt" \/ VersionSource md = ".qmake.conf" ->
  numeric (Version md) = true.
Proof.
  change (Cpp.Extract fs = Ok md -> numeric_version md).
  assert (Hls : forall k v m, other_key k = true ->
                  numeric_version m -> numeric_version (set_ls k v m))
    by (intros; apply numeric_version_set_ls; assumption).
  assert (H0 : numeric_version new_metadata) by (intros [H|H]; discriminate).
  unfold Cpp.Extract.
  pose proof (try_build_file_invariant numeric_version Hls fs
                "CMakeLists.txt" "CMake" Cpp.extractFromCMake new_metadata
                (extractFromCMake_numeric fs _) H0) as H1.
  destruct (Cpp.try_build_file fs "CMakeLists.txt" _ _ _) as [m1|m1];
    [intros [= <-]; exact H1|].
  pose proof (try_build_file_invariant numeric_version Hls fs
                ".qmake.conf" "qmake" Cpp.extractFromQmake m1
                (extractFromQmake_numeric fs _) H1) as H2.
  destruct (Cpp.try_build_file fs ".qmake.conf" _ _ _) as [m2|m2];
    [intros [= <-]; exact H2|].
  pose proof (try_build_file_invariant numeric_version Hls fs
                "meson.build" "Meson" Cpp.extractFromMeson m2
                (extractFromMeson_numeric fs _) H2) as H3.
  destruct (Cpp.try_build_file fs "meson.build" _ _ _) as [m3|m3];
    [intros [= <-]; exact H3|].
  pose proof (try_build_file_invariant numeric_version Hls fs
                "configure.ac" "Autotools" Cpp.extractFromAutotools m3
                (extractFromAutotools_numeric fs _) H3) as H4.
  destruct (Cpp.try_build_file fs "configure.ac" _ _ _) as [m4|m4];
    intros [= <-]; [exact H4|].
  apply numeric_version_set_ls, H4.
Qed.

Lemma cpp_version_numeric_witness :
  exists md,
    Cpp.Extract
      (Fixtures.single "CMakeLists.txt"
         (Contents "project(app VERSION 1.2.3)")) = Ok md /\
    numeric (Version md) = true.
Proof.
  eexists. split; [vm_compute; reflexivity|].
  eapply (cpp_version_numeric
            (Fixtures.single "CMakeLists.txt"
               (Contents "project(app VERSION 1.2.3)")));
    [vm_compute; reflexivity|].
  left. reflexivity.
Defined.

(** *** Names *)

Lemma mix_line_identifier st text :
  identifier (Name (Elixir.mx_metadata st)) = true ->
  identifier (Name (Elixir.mx_metadata (Elixir.mix_line st text))) = true.
Proof.
  intros H. unfold Elixir.mix_line.
  destruct (GoStrings.HasPrefix _ _); [exact H|].
  cbn [Elixir.mx_metadata].
  repeat match goal with
         | |- identifier (Name (if ?b then _ else _)) = _ => destruct b
         | |- identifier (Name (on_match Elixir.appRegex _ _ _)) = _ =>
             fail 1
         | |- identifier (Name (on_match _ _ _ _)) = _ =>
             rewrite (on_match_field Name);
             [|intros; unfold Elixir.link_homepage;
               try match goal with
                   | |- context [if ?c then _ else _] => destruct c
                   end; reflexivity]
         end;
    (apply (on_match_invariant
              (fun md => identifier (Name md) = true)); [|exact H];
     intros m x Hm _;
     exact (FindStringSubmatch_over Chars.word 1 _ _ _ Hm eq_refl
              ltac:(simpl; lia))).
Qed.

Lemma mill_line_identifier st text :
  identifier (Name (Scala.ml_metadata st)) = true ->
  identifier (Name (Scala.ml_metadata (Scala.mill_line st text))) = true.
Proof.
  intros H. unfold Scala.mill_line.
  destruct (GoStrings.HasPrefix _ _); [exact H|].
  cbn [Scala.ml_metadata].
  apply (on_match_invariant (fun md => identifier (Name md) = true));
    [|exact H].
  intros m x Hm Hx. destruct (GoStrings.eqb (Name x) ""); [|exact Hx].
  exact (FindStringSubmatch_over Chars.word 1 _ _ _ Hm eq_refl
           ltac:(simpl; lia)).
Qed.

Lemma extractFromMill_identifier fs path md :
  identifier (Name md) = true ->
  identifier (Name (fst (Scala.extractFromMill fs path md))) = true.
Proof.
  intros H. destruct (fs path) as [| |data] eqn:Hfile;
    try (unfold Scala.extractFromMill; rewrite Hfile; exact H).
  rewrite (extractFromMill_Name fs path data md Hfile).
  apply (fold_left_invariant
           (fun st => identifier (Name (Scala.ml_metadata st)) = true));
    [intros; apply mill_line_identifier; assumption | exact H].
Qed.

(** X24.  The names that come from mix.exs and from build.sc are
    identifiers: the [Name] of an Elixir record, and that of a Scala
    record made without build.sbt, consist of letters, digits and
    underscores only. *)
Theorem names_are_identifiers (fs : dir) (md : ProjectMetadata) :
  (Elixir.Extract fs = Ok md -> identifier (Name md) = true) /\
  (Stat (fs "build.sbt") = false -> Scala.Extract fs = Ok md ->
   identifier (Name md) = true).
Proof.
  assert (Hfree : forall m ls,
             Name {| Name := Name m; Version := Version m;
                     VersionSource := VersionSource m;
                     Description := Description m;
                     Homepage := Homepage m; License := License m;
                     Repository := Repository m; Authors := Authors m;
                     LanguageSpecific := ls |} = Name m)
    by reflexivity.
  split.
  - destruct (fs "mix.exs") as [| |data] eqn:Hfile.
    + unfold Elixir.Extract. rewrite Hfile. intros [= <-]. reflexivity.
    + unfold Elixir.Extract, Elixir.extractFromMixExs. rewrite Hfile.
      discriminate.
    + intros Hmd. rewrite (mix_Extract_fields Name fs data md Hfree Hfile Hmd).
      apply (fold_left_invariant
               (fun st => identifier (Name (Elixir.mx_metadata st)) = true));
        [intros; apply mix_line_identifier; assumption | reflexivity].
  - intros Hsbt. unfold Scala.Extract. rewrite Hsbt. cbv zeta.
    pose proof (extractFromMill_identifier fs "build.sc" new_metadata eq_refl)
      as Hmill.
    destruct (Stat (fs "build.sc")).
    + destruct (Scala.extractFromMill fs "build.sc" new_metadata)
        as [m [e|]]; cbn [fst] in Hmill; intros [= <-];
        rewrite (untouched_set_ls Name Hfree); exact Hmill.
    + intros [= <-]. reflexivity.
Qed.

Lemma names_are_identifiers_witness :
  exists md,
    Elixir.Extract (Fixtures.single "mix.exs" (Contents Fixtures.mix_exs))
    = Ok md /\
    identifier (Name md) = true.
Proof.
  eexists. split; [vm_compute; reflexivity|].
  match goal with
  | |- identifier (Name ?m) = true =>
      apply (proj1 (names_are_identifiers
                      (Fixtures.single "mix.exs" (Contents Fixtures.mix_exs))
                      m))
  end.
  vm_compute. reflexivity.
Defined.
